(** * IMD data-processing tools: a shallow embedding of the ETL stages

    The Python sources [ETLTools/IMDProcessingClass.py] and
    [ETLTools/LookUpProcessingClass.py] are transcribed stage by stage.
    pandas objects are modelled by what the stages observe of them:

    - a [DataFrame] is an ordered list of column labels and an ordered
      list of rows; its row index is the default [RangeIndex] that
      [read_excel], [read_csv], [melt], [merge] and the [DataFrame]
      constructor all create;
    - a Python [dict] is an association list in insertion order (the
      order decides which exception comes first and in which order files
      are written);
    - frames that are mutated in place live in an object store and are
      passed around by reference;
    - an uncaught Python exception is the [Raise] outcome of a stage.

    Strings are [string]; one [ascii] stands for one character of a
    Python [str] (file names and labels are taken to be ASCII).
    Floating-point cells are outside the model. *)

From Stdlib Require Import ZArith Lia Ascii String DecimalString.
From stdpp Require Import base decidable option strings functions list.

Open Scope string_scope.
Open Scope list_scope.

(** ** Cells, frames, dictionaries *)

Inductive cell : Type :=
  | Null
  | Str (s : string)
  | Num (z : Z).

#[global] Instance cell_eq_dec : EqDecision cell.
Proof. solve_decision. Defined.

Record DataFrame : Type := mkFrame {
  columns : list string;
  rows : list (list cell)
}.

#[global] Instance DataFrame_eq_dec : EqDecision DataFrame.
Proof. solve_decision. Defined.

(** Every row carries one cell per column. *)
Definition frame_wf (df : DataFrame) : Prop :=
  Forall (fun r => length r = length (columns df)) (rows df).

(** The cell of row [r] at column position [p]. *)
Definition cell_at (r : list cell) (p : nat) : cell := default Null (r !! p).

(** The values of the column at position [p], top to bottom. *)
Definition column_values (df : DataFrame) (p : nat) : list cell :=
  map (fun r => cell_at r p) (rows df).

Abbreviation dict V := (list (string * V)) (only parsing).

Definition dict_keys {V} (d : dict V) : list string := map fst d.
Definition dict_values {V} (d : dict V) : list V := map snd d.

Fixpoint dict_get {V} (d : dict V) (k : string) : option V :=
  match d with
  | [] => None
  | (k', v) :: d' => if decide (k' = k) then Some v else dict_get d' k
  end.

(** [d[k] = v]: an existing key keeps its place, a new key goes last. *)
Fixpoint dict_set {V} (d : dict V) (k : string) (v : V) : dict V :=
  match d with
  | [] => [(k, v)]
  | (k', v') :: d' =>
      if decide (k' = k) then (k', v) :: d' else (k', v') :: dict_set d' k v
  end.

(** [d.pop(k, None)]: the binding of [k], if any, is removed. *)
Definition dict_pop {V} (d : dict V) (k : string) : dict V :=
  filter (fun kv => kv.1 <> k) d.

(** Keys of a Python dict are pairwise distinct. *)
Definition dict_wf {V} (d : dict V) : Prop := NoDup (dict_keys d).

(** ** Exceptions and the stage monad *)

Inductive exn : Type :=
  | IndexError
  | KeyError
  | ValueError
  | AttributeError.

Inductive result (A : Type) : Type :=
  | Ok (a : A)
  | Raise (e : exn).
Arguments Ok {A} a.
Arguments Raise {A} e.

#[global] Instance exn_eq_dec : EqDecision exn.
Proof. solve_decision. Defined.

Definition rbind {A B} (m : result A) (k : A -> result B) : result B :=
  match m with
  | Ok a => k a
  | Raise e => Raise e
  end.

Notation "'try' x <- m 'in' k" := (rbind m (fun x => k))
  (at level 10, x name, m at level 100, k at level 200, only parsing).

(** A reference to a frame object. *)
Definition ref : Type := nat.

(** The object store: what each reference denotes, and the next unused
    reference. *)
Record state : Type := mkState {
  next_ref : ref;
  store : ref -> DataFrame
}.

Definition M (A : Type) : Type := state -> state * result A.

Definition ret {A} (a : A) : M A := fun st => (st, Ok a).
Definition raise {A} (e : exn) : M A := fun st => (st, Raise e).
Definition bind {A B} (m : M A) (k : A -> M B) : M B :=
  fun st =>
    match m st with
    | (st', Ok a) => k a st'
    | (st', Raise e) => (st', Raise e)
    end.
Definition lift {A} (r : result A) : M A := fun st => (st, r).

Notation "'let*' x ':=' m 'in' k" := (bind m (fun x => k))
  (at level 10, x name, m at level 100, k at level 200, only parsing).

(** [x := *r], [*r := df] and the allocation of a new object. *)
Definition deref (r : ref) : M DataFrame := fun st => (st, Ok (store st r)).
Definition assign (r : ref) (df : DataFrame) : M unit :=
  fun st => (mkState (next_ref st) (<[r := df]> (store st)), Ok tt).
Definition alloc (df : DataFrame) : M ref :=
  fun st =>
    (mkState (S (next_ref st)) (<[next_ref st := df]> (store st)),
     Ok (next_ref st)).

(** Unfolds the monad operations in a goal. *)
Ltac run := unfold bind, ret, raise, lift, deref, assign; simpl.

(** ** pandas primitives used by the stages *)

(** [index[i]]: positional access to a label, [IndexError] out of range. *)
Definition index_getitem (cols : list string) (i : nat) : result string :=
  match cols !! i with
  | Some c => Ok c
  | None => Raise IndexError
  end.

(** [index[i:j]]: a slice never raises. *)
Definition index_slice {A} (l : list A) (i j : nat) : list A :=
  take (j - i) (drop i l).

(** Keep the entries of [l] whose mask bit is set. *)
Fixpoint select {A} (mask : list bool) (l : list A) : list A :=
  match mask, l with
  | b :: mask', x :: l' => if b then x :: select mask' l' else select mask' l'
  | _, _ => []
  end.

(** [df.drop(labels, axis=1)]: labels are matched by name, so every
    column carrying one of the labels goes; a label that names no column
    is a [KeyError]. *)
Definition frame_drop (df : DataFrame) (labels : list string) : result DataFrame :=
  if decide (Forall (fun l => l ∈ columns df) labels) then
    let mask := map (fun c => bool_decide (c ∉ labels)) (columns df) in
    Ok (mkFrame (select mask (columns df)) (map (select mask) (rows df)))
  else Raise KeyError.

(** [s[i]] on a Python string. *)
Definition str_getitem (s : string) (i : nat) : result ascii :=
  match String.get i s with
  | Some c => Ok c
  | None => Raise IndexError
  end.

(** [s.endswith(suffix)]. *)
Definition endswith (s suffix : string) : bool :=
  bool_decide (String.length suffix <= String.length s) &&
  bool_decide (substring (String.length s - String.length suffix)
                         (String.length suffix) s = suffix).

(** First-occurrence deduplication, as [Series.unique] and
    [algorithms.unique] do it. *)
Fixpoint unique_from {A} `{EqDecision A} (seen l : list A) : list A :=
  match l with
  | [] => []
  | x :: l' =>
      if decide (x ∈ seen) then unique_from seen l'
      else x :: unique_from (x :: seen) l'
  end.
Definition unique {A} `{EqDecision A} (l : list A) : list A := unique_from [] l.

(** Positions of the columns labelled [c], left to right. *)
Fixpoint locs_from (p : nat) (cols : list string) (c : string) : list nat :=
  match cols with
  | [] => []
  | c' :: cols' =>
      if decide (c' = c) then p :: locs_from (S p) cols' c
      else locs_from (S p) cols' c
  end.
Definition get_locs (cols : list string) (c : string) : list nat :=
  locs_from 0 cols c.

(** [index.get_indexer_for(labels)]. *)
Definition get_indexer_for (cols labels : list string) : list nat :=
  flat_map (get_locs cols) labels.

(** [df.iloc[:, idx]]: the columns at the given positions, in that order. *)
Definition iloc_columns (df : DataFrame) (idx : list nat) : DataFrame :=
  mkFrame (omap (fun p => columns df !! p) idx)
          (map (fun r => map (cell_at r) idx) (rows df)).

(** The dtype of a column.  A frame of the model stands for the pandas
    frame with these cells whose columns have the dtype pandas gives
    them when it reads them: integers only (within 64 bits), int64;
    numbers and missing cells, or missing cells only, float64; any other
    content, and a column that has no cell, object.  A cell carries no
    dtype of its own: where pandas converts the integers of a column to
    floats (stacking an int64 column on a float64 one, or filling a
    missing cell into an int64 column) the model keeps the cells as they
    are, and the statements on cell contents assume that no such
    conversion takes place. *)
Inductive dtype : Type :=
  | Int64
  | Float64
  | Object.

#[global] Instance dtype_eq_dec : EqDecision dtype.
Proof. solve_decision. Defined.

Definition is_num (c : cell) : bool :=
  match c with Num _ => true | _ => false end.

Definition is_int64 (c : cell) : bool :=
  match c with
  | Num z => bool_decide (- 2 ^ 63 <= z < 2 ^ 63)%Z
  | _ => false
  end.

Definition is_int64_or_null (c : cell) : bool :=
  match c with Null => true | _ => is_int64 c end.

Definition dtype_of (values : list cell) : dtype :=
  match values with
  | [] => Object
  | _ :: _ =>
      if forallb is_int64 values then Int64
      else if forallb is_int64_or_null values then Float64
      else Object
  end.

(** ** ProcessIMDData *)

Module ProcessIMDData.

(** [[filename for filename in keys if p(filename[6])]] *)
Fixpoint files_check (p : ascii -> bool) (keys : list string)
  : result (list string) :=
  match keys with
  | [] => Ok []
  | filename :: keys' =>
      try c <- str_getitem filename 6 in
      try rest <- files_check p keys' in
      Ok (if p c then filename :: rest else rest)
  end.

Definition is_underscore (c : ascii) : bool := bool_decide (c = "_"%char).

(** [for df in sheet_list: df.drop(labels(df), inplace=True, axis=1);
     updated_sheet_list.append(df)] *)
Fixpoint drop_loop (labels : DataFrame -> result (list string))
    (sheet_list updated_sheet_list : list ref) : M (list ref) :=
  match sheet_list with
  | [] => ret updated_sheet_list
  | r :: sheet_list' =>
      let* df := deref r in
      let* ls := lift (labels df) in
      let* df' := lift (frame_drop df ls) in
      let* _ := assign r df' in
      drop_loop labels sheet_list' (updated_sheet_list ++ [r])
  end.

(** [df.columns[1]] *)
Definition summary_labels (df : DataFrame) : result (list string) :=
  try c <- index_getitem (columns df) 1 in Ok [c].

(** [df.columns[1:4]] *)
Definition lsoa_labels (df : DataFrame) : result (list string) :=
  Ok (index_slice (columns df) 1 4).

Fixpoint remove_columns_loop (summary_files_check lsoa_files_check : list string)
    (items : dict (list ref)) (updated : dict (list ref))
  : M (dict (list ref)) :=
  match items with
  | [] => ret updated
  | (filename, sheet_list) :: items' =>
      let* l1 :=
        (if decide (filename ∈ summary_files_check)
         then drop_loop summary_labels sheet_list []
         else ret []) in
      let* l2 :=
        (if decide (filename ∈ lsoa_files_check)
         then drop_loop lsoa_labels sheet_list l1
         else ret l1) in
      remove_columns_loop summary_files_check lsoa_files_check items'
        (dict_set updated filename l2)
  end.

Definition remove_columns (spreadsheet_dictionary : dict (list ref))
  : M (dict (list ref)) :=
  let* summary_files_check :=
    lift (files_check (fun c => negb (is_underscore c))
                      (dict_keys spreadsheet_dictionary)) in
  let* lsoa_files_check :=
    lift (files_check is_underscore (dict_keys spreadsheet_dictionary)) in
  remove_columns_loop summary_files_check lsoa_files_check
    spreadsheet_dictionary [].

(** *** read_imd_data

    The input directory is a parameter of the stage: [listdir] is what
    [os.listdir] returns and [read_excel file] is the outcome of
    [pd.read_excel(path, sheet_name=None)], a dict from sheet name to
    frame, or the exception it raises. *)
Section loader.
Variable listdir : list string.
Variable read_excel : string -> result (dict DataFrame).

(** Every sheet that [read_excel] returns is a new frame object. *)
Fixpoint alloc_sheets (sheets : dict DataFrame) : M (dict ref) :=
  match sheets with
  | [] => ret []
  | (name, df) :: sheets' =>
      let* r := alloc df in
      let* rest := alloc_sheets sheets' in
      ret ((name, r) :: rest)
  end.

(** [if name in df.keys(): df.pop(name, None)] *)
Definition pop_if_present {V} (df : dict V) (name : string) : dict V :=
  if decide (name ∈ dict_keys df) then dict_pop df name else df.

Fixpoint read_loop (files : list string)
    (spreadsheet_dictionary : dict (list ref)) : M (dict (list ref)) :=
  match files with
  | [] => ret spreadsheet_dictionary
  | file :: files' =>
      if endswith file ".xlsx" then
        let* sheets := lift (read_excel file) in
        let* df := alloc_sheets sheets in
        let df := pop_if_present df "Notes" in
        let df := pop_if_present df "Terms & Conditions" in
        let sheet_list := dict_values df in
        read_loop files' (dict_set spreadsheet_dictionary file sheet_list)
      else read_loop files' spreadsheet_dictionary
  end.

Definition read_imd_data : M (dict (list ref)) := read_loop listdir [].
End loader.

(** *** convert_to_eav_format *)

(** [frame.pop(col)] for each label of [id_vars], over the positions
    [remaining] of the columns still in the frame.  A label that names
    no remaining column is a [KeyError] (a label listed twice: its
    columns went with the first pop).  A label that names one column
    gives that column, recorded by its position; a label that names
    several gives a two-dimensional block, recorded as [None]. *)
Fixpoint pop_loop (cols : list string) (id_vars : list string)
    (remaining : list nat) (mdata : dict (option nat))
  : result (list nat * dict (option nat)) :=
  match id_vars with
  | [] => Ok (remaining, mdata)
  | col :: id_vars' =>
      let rest := filter (fun q => cols !! q <> Some col) remaining in
      match filter (fun q => cols !! q = Some col) remaining with
      | [] => Raise KeyError
      | [p] => pop_loop cols id_vars' rest (dict_set mdata col (Some p))
      | _ :: _ :: _ => pop_loop cols id_vars' rest (dict_set mdata col None)
      end
  end.

(** [pd.melt(frame, id_vars, value_vars, var_name, value_name)], after
    pandas' [melt] (as of pandas 2.0): a column labelled [value_name]
    is refused with a [ValueError]; the frame is cut down to the
    requested columns, each once ([algorithms.unique] of the indexer);
    the identity columns are popped off it; what is left is unpivoted
    column by column (column-major), the identity cells being repeated
    for each unpivoted column.  The data are gathered in a dict by
    label, the identity columns first, then [value_name], then
    [var_name], and the frame is built from that dict for the labels
    [id_vars + [var_name, value_name]]: a later entry replaces an
    earlier one of the same label, and a two-dimensional block is
    refused with a [ValueError].  The labels asked for are columns of
    the frame, so the missing-label check is left out.  The cells of the
    value column are kept as they are (see [dtype]). *)
Definition melt (frame : DataFrame) (id_vars value_vars : list string)
    (var_name value_name : string) : result DataFrame :=
  if decide (value_name ∈ columns frame) then Raise ValueError
  else
    let idx :=
      unique (get_indexer_for (columns frame) (id_vars ++ value_vars)) in
    let frame := iloc_columns frame idx in
    try popped <-
      pop_loop (columns frame) id_vars (seq 0 (length (columns frame))) [] in
    let rest := popped.1 in
    let mdata := popped.2 in
    if decide (None ∈ dict_values mdata) then Raise ValueError
    else
      let mcolumns := id_vars ++ [var_name; value_name] in
      Ok (mkFrame mcolumns
            (flat_map
               (fun p =>
                  map (fun r =>
                         map (fun label =>
                                if decide (label = var_name)
                                then Str (default "" (columns frame !! p))
                                else if decide (label = value_name)
                                then cell_at r p
                                else match dict_get mdata label with
                                     | Some (Some q) => cell_at r q
                                     | _ => Null
                                     end)
                             mcolumns)
                      (rows frame))
               rest)).

(** [pd.melt(sheet, id_vars=sheet.columns[0:2],
             value_vars=sheet.columns[1:], var_name='attribute',
             value_name='value')] *)
Definition melt_sheet (sheet : DataFrame) : result DataFrame :=
  melt sheet (index_slice (columns sheet) 0 2)
       (drop 1 (columns sheet)) "attribute" "value".

(** [for sheet in sheet_list: eav_sheets.append(pd.melt(sheet, ...))].
    The melted frames are new objects that no later stage mutates, so
    they are held by value; the sheets are read from the store. *)
Fixpoint melt_sheets (st : state) (sheet_list : list ref)
  : result (list DataFrame) :=
  match sheet_list with
  | [] => Ok []
  | r :: sheet_list' =>
      try updated_sheet <- melt_sheet (store st r) in
      try eav_sheets <- melt_sheets st sheet_list' in
      Ok (updated_sheet :: eav_sheets)
  end.

Fixpoint convert_loop (st : state) (items : dict (list ref))
    (eav_spreadsheet_dictionary : dict (list DataFrame))
  : result (dict (list DataFrame)) :=
  match items with
  | [] => Ok eav_spreadsheet_dictionary
  | (file_name, sheet_list) :: items' =>
      try eav_sheets <- melt_sheets st sheet_list in
      convert_loop st items'
        (dict_set eav_spreadsheet_dictionary file_name eav_sheets)
  end.

Definition convert_to_eav_format (st : state)
    (updated_spreadsheet_dictionary : dict (list ref))
  : result (dict (list DataFrame)) :=
  convert_loop st updated_spreadsheet_dictionary [].

(** *** write_data

    The loop header unpacks each dictionary value, so the values are
    modelled as Python values, by what iterating them yields. *)
#[warnings="-register-all"]
Inductive pyval : Type :=
  | VStr (s : string)
  | VFrame (df : DataFrame)
  | VList (l : list pyval)
  | VTuple (l : list pyval).

(** [iter(v)]: a string yields its characters, a frame its column
    labels, a list or tuple its elements. *)
Definition py_iter (v : pyval) : list pyval :=
  match v with
  | VStr s => map (fun c => VStr (String c "")) (list_ascii_of_string s)
  | VFrame df => map VStr (columns df)
  | VList l => l
  | VTuple l => l
  end.

(** [name, sheet_list = v] *)
Definition unpack2 (v : pyval) : result (pyval * pyval) :=
  match py_iter v with
  | [a; b] => Ok (a, b)
  | _ => Raise ValueError
  end.

(** [df.to_csv(path, header=..., index=...)] as records of fields. *)
Definition to_csv (header index : bool) (df : DataFrame) : list (list cell) :=
  (if header
   then [(if index then [Str ""] else []) ++ map Str (columns df)]
   else []) ++
  imap (fun i r => (if index then [Num (Z.of_nat i)] else []) ++ r) (rows df).

(** A file written under [write_file_path]: the two values interpolated
    into [f'{i}_{name}'] and the records. *)
Record csv_file : Type := mkCsv {
  csv_index : nat;
  csv_name : pyval;
  csv_records : list (list cell)
}.

(** The file name, for a [name] that is a string. *)
Definition csv_basename (f : csv_file) : option string :=
  match csv_name f with
  | VStr s => Some (NilEmpty.string_of_uint (Nat.to_uint (csv_index f)) +:+ "_" +:+ s)
  | _ => None
  end.

(** [for i, sheet in enumerate(...): sheet.to_csv(path, header=False)];
    only a frame has [to_csv], and [index] keeps its default [True]. *)
Fixpoint write_sheets (name : pyval) (i : nat) (sheets : list pyval)
    (written : list csv_file) : list csv_file * result unit :=
  match sheets with
  | [] => (written, Ok tt)
  | VFrame df :: sheets' =>
      write_sheets name (S i) sheets'
        (written ++ [mkCsv i name (to_csv false true df)])
  | _ :: _ => (written, Raise AttributeError)
  end.

Fixpoint write_loop (values : list pyval) (written : list csv_file)
  : list csv_file * result unit :=
  match values with
  | [] => (written, Ok tt)
  | v :: values' =>
      match unpack2 v with
      | Raise e => (written, Raise e)
      | Ok (name, sheet_list) =>
          match write_sheets name 0 (py_iter sheet_list) written with
          | (written', Ok _) => write_loop values' written'
          | (written', Raise e) => (written', Raise e)
          end
      end
  end.

(** Returns the files written, in order, and how the call ended. *)
Definition write_data (spreadsheet_dictionary : dict pyval)
  : list csv_file * result unit :=
  write_loop (dict_values spreadsheet_dictionary) [].

(** The collection as the preceding stages hand it over: every value a
    plain list of frames. *)
Definition sheet_lists (d : dict (list DataFrame)) : dict pyval :=
  map (fun kv => (kv.1, VList (map VFrame kv.2))) d.

End ProcessIMDData.

(** ** ProcessLookupTable *)

Module ProcessLookupTable.

Definition bridge_table_index_dictionary : dict (list nat) :=
  [("lad_bridge", [2; 3]);
   ("lad_ut_bridge", [6; 7]);
   ("lep_bridge", [10; 11]);
   ("ccg_bridge", [14; 16])].

(** [d[k]] *)
Definition dict_getitem {V} (d : dict V) (k : string) : result V :=
  match dict_get d k with
  | Some v => Ok v
  | None => Raise KeyError
  end.

(** The position of a join key: the label must name exactly one
    column. *)
Definition merge_key (df : DataFrame) (label : string) : result nat :=
  match get_locs (columns df) label with
  | [] => Raise KeyError
  | [p] => Ok p
  | _ => Raise ValueError
  end.

(** The check of the two key columns before a merge (pandas'
    [_maybe_coerce_merge_keys]).  Nothing is checked when one side has
    no row; keys of one dtype, two numeric keys and two object keys
    pass; an object key against a numeric key passes only if the object
    column holds an integer among its cells, and is a [ValueError]
    otherwise (text against numbers). *)
Definition merge_keys_check (lk rk : list cell) : result unit :=
  match lk, rk with
  | [], _ :: _ | _ :: _, [] => Ok tt
  | _, _ =>
      match dtype_of lk, dtype_of rk with
      | Object, Int64 | Object, Float64 =>
          if existsb is_num lk then Ok tt else Raise ValueError
      | Int64, Object | Float64, Object =>
          if existsb is_num rk then Ok tt else Raise ValueError
      | _, _ => Ok tt
      end
  end.

(** Labels that occur on both sides get the side's suffix. *)
Definition suffix_labels (own other : list string) (suffix : string)
  : list string :=
  map (fun c => if decide (c ∈ other) then c +:+ suffix else c) own.

(** A suffix has made a label equal to an earlier label of its side
    that it was not equal to before ([MergeError], a [ValueError], as
    of pandas 2.0). *)
Definition suffix_clash (own renamed : list string) : bool :=
  existsb
    (fun p =>
       match own !! p, renamed !! p with
       | Some o, Some n =>
           bool_decide (n ∈ take p renamed) && bool_decide (o ∉ take p own)
       | _, _ => false
       end)
    (seq 0 (length own)).

(** The rows that a left row contributes: one per matching right row,
    in the right table's order, or one padded with nulls. *)
Definition join_row (right : DataFrame) (lk rk : nat) (lrow : list cell)
  : list (list cell) :=
  match filter (fun rrow => cell_at rrow rk = cell_at lrow lk) (rows right) with
  | [] => [lrow ++ replicate (length (columns right)) Null]
  | matches => map (fun rrow => lrow ++ rrow) matches
  end.

(** [pd.merge(left, right, left_on=..., right_on=..., how='left')] with
    distinct key labels: both key columns are kept, left rows keep
    their order, and a left row is repeated for each right row that
    matches it.  Null keys match each other, as in pandas.  The key
    labels are looked up first (right, then left), the key columns are
    checked against each other, and the labels of the result are
    checked for clashes made by the suffixes.  The cells of the
    right-hand columns are kept as they are (see [dtype]). *)
Definition merge_left (left right : DataFrame) (left_on right_on : string)
  : result DataFrame :=
  try rk <- merge_key right right_on in
  try lk <- merge_key left left_on in
  try _ <- merge_keys_check (column_values left lk) (column_values right rk) in
  let llabels := suffix_labels (columns left) (columns right) "_x" in
  let rlabels := suffix_labels (columns right) (columns left) "_y" in
  if suffix_clash (columns left) llabels || suffix_clash (columns right) rlabels
  then Raise ValueError
  else Ok (mkFrame (llabels ++ rlabels)
             (flat_map (join_row right lk rk) (rows left))).

Definition create_master (lookup_dictionary : dict DataFrame)
  : result DataFrame :=
  try district <- dict_getitem lookup_dictionary "LSOA_District_lookup.csv" in
  try district_ut <- dict_getitem lookup_dictionary "LSOA_DistrictUT_lookup.csv" in
  try df_join_one <-
    merge_left district district_ut "LSOA code (2011)" "LSOA11CD" in
  try lep <- dict_getitem lookup_dictionary "LSOA_LEP_lookup.csv" in
  try df_join_two <-
    merge_left df_join_one lep "LSOA code (2011)" "LSOA11CD" in
  try ccg <- dict_getitem lookup_dictionary "LSOA_CCG_lookup.csv" in
  try df_join_three <-
    merge_left df_join_two ccg "LSOA code (2011)" "LSOA11CD" in
  Ok df_join_three.

(** [index[[i, j, ...]]] *)
Fixpoint index_take (cols : list string) (idx : list nat)
  : result (list string) :=
  match idx with
  | [] => Ok []
  | i :: idx' =>
      try c <- index_getitem cols i in
      try rest <- index_take cols idx' in
      Ok (c :: rest)
  end.

(** [df[labels]]: every column carrying one of the labels. *)
Definition frame_getitem (df : DataFrame) (labels : list string)
  : result DataFrame :=
  if decide (Forall (fun l => l ∈ columns df) labels)
  then Ok (iloc_columns df (get_indexer_for (columns df) labels))
  else Raise KeyError.

(** [df[label].unique()]: [df[label]] is a Series when the label
    names one column; when it names several it is a frame, which has
    no [unique]. *)
Definition column_unique (df : DataFrame) (label : string)
  : result (list cell) :=
  match get_locs (columns df) label with
  | [] => Raise KeyError
  | [p] => Ok (unique (column_values df p))
  | _ => Raise AttributeError
  end.

(** [pd.DataFrame(data={k1: v1, k2: v2})] from two arrays, which must
    be of one length. *)
Definition frame_of_arrays (k1 : string) (v1 : list cell)
    (k2 : string) (v2 : list cell) : result DataFrame :=
  if decide (length v1 = length v2)
  then Ok (mkFrame [k1; k2] (zip_with (fun a b => [a; b]) v1 v2))
  else Raise ValueError.

Fixpoint split_loop (lookup_table : DataFrame) (values : list (list nat))
  : result (list DataFrame) :=
  match values with
  | [] => Ok []
  | lookup_name :: values' =>
      try labels <- index_take (columns lookup_table) lookup_name in
      try df <- frame_getitem lookup_table labels in
      try rest <- split_loop lookup_table values' in
      Ok (df :: rest)
  end.

Definition dedup_table (df : DataFrame) : result DataFrame :=
  try l0 <- index_getitem (columns df) 0 in
  try code <- column_unique df l0 in
  try l1 <- index_getitem (columns df) 1 in
  try name <- column_unique df l1 in
  frame_of_arrays "code" code "name" name.

Fixpoint dedup_loop (bridge_table_list : list DataFrame)
  : result (list DataFrame) :=
  match bridge_table_list with
  | [] => Ok []
  | df :: rest =>
      try updated_df <- dedup_table df in
      try rest' <- dedup_loop rest in
      Ok (updated_df :: rest')
  end.

Definition create_bridge_tables (lookup_table : DataFrame)
  : result (list DataFrame) :=
  try bridge_table_list <-
    split_loop lookup_table (dict_values bridge_table_index_dictionary) in
  dedup_loop bridge_table_list.

Definition remove_columns_index : list nat :=
  [3; 4; 5; 7; 8; 9; 11; 12; 13; 15; 16].

(** [remove_columns]: the labels at the configured positions are looked
    up first, then dropped from the table object itself, which is
    returned. *)
Definition remove_columns (lookup_table : ref) : M ref :=
  let* df := deref lookup_table in
  let* columns_list :=
    lift (index_take (columns df) remove_columns_index) in
  let* df' := lift (frame_drop df columns_list) in
  let* _ := assign lookup_table df' in
  ret lookup_table.

(** *** read_lookup_data

    [{file: pd.read_csv(path) for file in os.listdir(...)}]; the
    directory listing and the outcome of [read_csv] on each file are
    parameters. *)
Section lookup_loader.
Variable listdir : list string.
Variable read_csv : string -> result DataFrame.

Fixpoint read_lookup_loop (files : list string)
    (lookup_dictionary : dict DataFrame) : result (dict DataFrame) :=
  match files with
  | [] => Ok lookup_dictionary
  | file :: files' =>
      try df <- read_csv file in
      read_lookup_loop files' (dict_set lookup_dictionary file df)
  end.

Definition read_lookup_data : result (dict DataFrame) :=
  read_lookup_loop listdir [].
End lookup_loader.

(** [write_lookups]: the sibling writer passes [index=False]. *)
Definition write_lookups (master_lookup : DataFrame)
    (bridge_tables : list DataFrame) : list (string * list (list cell)) :=
  ("MasterLookUp.csv", ProcessIMDData.to_csv false false master_lookup) ::
  zip_with (fun df file_name =>
              (file_name +:+ ".csv", ProcessIMDData.to_csv false false df))
           bridge_tables (dict_keys bridge_table_index_dictionary).

End ProcessLookupTable.

(** ** The driver (run.py) *)

(** [main]: the four IMD stages in sequence; no stage's exception is
    caught.  The outcome of a run is the final store, the files written
    and how the run ended. *)
Definition main (listdir : list string)
    (read_excel : string -> result (dict DataFrame)) (st : state)
  : state * list ProcessIMDData.csv_file * result unit :=
  match ProcessIMDData.read_imd_data listdir read_excel st with
  | (st1, Raise e) => (st1, [], Raise e)
  | (st1, Ok spreadsheet_dictionary) =>
      match ProcessIMDData.remove_columns spreadsheet_dictionary st1 with
      | (st2, Raise e) => (st2, [], Raise e)
      | (st2, Ok updated_spreadsheet_dictionary) =>
          match ProcessIMDData.convert_to_eav_format st2
                  updated_spreadsheet_dictionary with
          | Raise e => (st2, [], Raise e)
          | Ok eav_spreadsheet_dictionary =>
              let '(written, r) :=
                ProcessIMDData.write_data
                  (ProcessIMDData.sheet_lists eav_spreadsheet_dictionary) in
              (st2, written, r)
          end
      end
  end.

(** ** Vocabulary of the statements *)

(** The test on the character at index 6, for a name that has one. *)
Definition char6 (p : ascii -> bool) (filename : string) : bool :=
  match String.get 6 filename with
  | Some c => p c
  | None => false
  end.

(** LSOA resolution: the character at index 6 is an underscore. *)
Definition lsoa_resolution (filename : string) : Prop :=
  String.get 6 filename = Some "_"%char.

(** The frame without the columns at positions [j], ..., [j + k - 1]. *)
Definition without_positions (j k : nat) (df : DataFrame) : DataFrame :=
  mkFrame (take j (columns df) ++ drop (j + k) (columns df))
          (map (fun r => take j r ++ drop (j + k) r) (rows df)).

(** What the column stripper leaves of a sheet of the file [filename]. *)
Definition stripped (filename : string) (df : DataFrame) : DataFrame :=
  if decide (lsoa_resolution filename)
  then without_positions 1 3 df
  else without_positions 1 1 df.

(** A sheet the stripper handles as the claim describes: distinct
    labels, rectangular, and a column at position 1 where the file is
    not at LSOA resolution. *)
Definition sheet_ok (filename : string) (df : DataFrame) : Prop :=
  NoDup (columns df) /\ frame_wf df /\
  (lsoa_resolution filename \/ 2 <= length (columns df)).

(** The frames on which the model of [melt] stands for pandas' [melt]:
    pairwise distinct labels, none of them the name of an output
    column. *)
Definition melt_domain (df : DataFrame) : Prop :=
  NoDup (columns df) /\ ("attribute" ∉ columns df) /\ ("value" ∉ columns df).

(** The rows of the EAV form of a sheet: for each column from position 2
    onward, in order, one row per original row, made of the first two
    cells of that row, the column's label and the row's cell in that
    column. *)
Definition eav_rows (sheet : DataFrame) : list (list cell) :=
  flat_map
    (fun p =>
       map (fun r =>
              take 2 r ++ [Str (default "" (columns sheet !! p)); cell_at r p])
           (rows sheet))
    (seq 2 (length (columns sheet) - 2)).

(** The reshaped form of a sheet, for a sheet that the reshaper
    accepts. *)
Definition melted (sheet : DataFrame) : DataFrame :=
  match ProcessIMDData.melt_sheet sheet with
  | Ok eav => eav
  | Raise _ => mkFrame [] []
  end.

(** The columns that are unpivoted, those from position 2 onward, are
    of one dtype: stacking them into the value column converts no
    cell. *)
Definition one_dtype (sheet : DataFrame) : Prop :=
  Forall (fun p => dtype_of (column_values sheet p)
                   = dtype_of (column_values sheet 2))
         (seq 2 (length (columns sheet) - 2)).

(** All sheet references of a collection, in order. *)
Definition sheet_refs (d : dict (list ref)) : list ref :=
  concat (dict_values d).

#[global] Instance lsoa_resolution_dec f : Decision (lsoa_resolution f).
Proof. unfold lsoa_resolution. apply _. Defined.

#[global] Instance frame_wf_dec df : Decision (frame_wf df).
Proof. unfold frame_wf. apply _. Defined.

#[global] Instance sheet_ok_dec f df : Decision (sheet_ok f df).
Proof. unfold sheet_ok. apply _. Defined.

#[global] Instance melt_domain_dec df : Decision (melt_domain df).
Proof. unfold melt_domain. apply _. Defined.

#[global] Instance one_dtype_dec df : Decision (one_dtype df).
Proof. unfold one_dtype. apply _. Defined.

#[global] Instance dict_wf_dec {V} (d : dict V) : Decision (dict_wf d).
Proof. unfold dict_wf. apply _. Defined.

(** ** Sample data *)

(** A sheet with the columns of the end-to-end scenario. *)
Definition score_sheet (rs : list (list cell)) : DataFrame :=
  mkFrame ["LSOA code"; "LSOA name"; "Score"] rs.

Definition score_rows : list (list cell) :=
  [[Str "E01000001"; Str "City of London 001A"; Num 5];
   [Str "E01000002"; Str "City of London 001B"; Num 7]].

(** An LSOA-level sheet as the stripper's docstring describes it. *)
Definition lsoa_sheet : DataFrame :=
  mkFrame ["LSOA code"; "LSOA name"; "District code"; "District name";
           "Rank"; "Decile"]
          [[Str "E01000001"; Str "City of London 001A"; Str "E09000001";
            Str "City of London"; Num 29199; Num 9]].

(** A sheet in which the label at position 1 is carried by two columns. *)
Definition repeated_label_sheet : DataFrame :=
  mkFrame ["Code"; "Name"; "Name"; "Rank"]
          [[Str "E09000001"; Str "City of London"; Str "City"; Num 3]].

(** A store holding the sample sheets at references 0 to 4; the last
    one is [lsoa_sheet] as the stripper leaves it. *)
Definition sample_state : state :=
  mkState 5 (fun r =>
    match r with
    | 0 => score_sheet score_rows
    | 1 => score_sheet (take 1 score_rows)
    | 2 => lsoa_sheet
    | 3 => repeated_label_sheet
    | _ => without_positions 1 3 lsoa_sheet
    end).

(** An LSOA-level workbook with one sheet and a summary workbook with
    two. *)
Definition sample_collection : dict (list ref) :=
  [("File_1_IMD.xlsx", [2]); ("File_10_Summaries.xlsx", [0; 1])].

(** The workbook of the end-to-end scenario, with its two sheets. *)
Definition scenario_collection : dict (list ref) :=
  [("E01000001_IMD.xlsx", [0; 1])].


(** The sheets of a workbook that are data: all but "Notes" and
    "Terms & Conditions", in the workbook's order. *)
Definition data_sheets (sheets : dict DataFrame) : dict DataFrame :=
  filter (fun kv => kv.1 <> "Notes" /\ kv.1 <> "Terms & Conditions") sheets.

(** The sheets of a workbook as the loader holds them: each name with a
    reference, allocated in [lo, hi), that denotes the sheet. *)
Definition holds (st : state) (lo hi : ref)
    (sheets : dict DataFrame) (df : dict ref) : Prop :=
  Forall2 (fun kv kr => kr.1 = kv.1 /\ store st kr.2 = kv.2 /\
                        lo <= kr.2 < hi) sheets df.

(** A directory with two workbooks and a file that is not a workbook. *)
Definition sample_listdir : list string :=
  ["File_1_IMD.xlsx"; "readme.txt"; "File_10_Summaries.xlsx"].

Definition sample_read_excel (file : string) : result (dict DataFrame) :=
  if decide (file = "File_1_IMD.xlsx")
  then Ok [("Notes", mkFrame ["Note"] [[Str "Source: MHCLG"]]);
           ("IMD2019", lsoa_sheet)]
  else Ok [("Summary", repeated_label_sheet)].

(** A directory entry the loader and the stripper handle: if it is a
    workbook, it can be read, its name has a character at index 6, and
    its data sheets are sheets the stripper handles.  Other files are
    not constrained. *)
Definition workbook_ok (read_excel : string -> result (dict DataFrame))
    (f : string) : Prop :=
  endswith f ".xlsx" = true ->
  exists sheets,
    read_excel f = Ok sheets /\ (7 <= String.length f) /\
    Forall (sheet_ok f) (dict_values (data_sheets sheets)).

(** No data sheet of the workbook has a column labelled like one of
    the reshaper's two output columns. *)
Definition workbook_plain (read_excel : string -> result (dict DataFrame))
    (f : string) : Prop :=
  endswith f ".xlsx" = true ->
  forall sheets, read_excel f = Ok sheets ->
    Forall (fun df => ("attribute" ∉ columns df) /\ ("value" ∉ columns df))
           (dict_values (data_sheets sheets)).

(** Two workbooks whose data sheets have pairwise distinct labels. *)
Definition tidy_read_excel (file : string) : result (dict DataFrame) :=
  if decide (file = "File_1_IMD.xlsx")
  then Ok [("Notes", mkFrame ["Note"] [[Str "Source: MHCLG"]]);
           ("IMD2019", lsoa_sheet)]
  else Ok [("Summary", score_sheet score_rows)].

(** The labels a sheet is asked to lose are labels of that sheet, and
    looking them up fails with an [IndexError] only. *)
Definition labels_of_frame (labels : DataFrame -> result (list string)) : Prop :=
  (forall df ls, labels df = Ok ls -> Forall (fun l => l ∈ columns df) ls) /\
  (forall df e, labels df = Raise e -> e = IndexError).

(** [st'] differs from [st] at most on the objects listed in [touched],
    and no object was allocated in between. *)
Definition frame_rel (touched : list ref) (st st' : state) : Prop :=
  next_ref st' = next_ref st /\
  (forall r, r ∉ touched -> store st' r = store st r).

(** A store in which every reference denotes a sheet with one column. *)
Definition narrow_state : state :=
  mkState 1 (fun _ => mkFrame ["Code"] [[Str "E09000001"]]).

(** The last character of a string. *)
Fixpoint last_char (s : string) : option ascii :=
  match s with
  | EmptyString => None
  | String a s' =>
      match s' with
      | EmptyString => Some a
      | String _ _ => last_char s'
      end
  end.

(** What a left join appends to a left row with key [key] when the right
    table holds that key at most once: the matching right row, or nulls. *)
Definition right_part (right : DataFrame) (rk : nat) (key : cell) : list cell :=
  match filter (fun rrow => cell_at rrow rk = key) (rows right) with
  | [] => replicate (length (columns right)) Null
  | rrow :: _ => rrow
  end.

(** Four small lookup tables with the columns of the real ones; the
    third LSOA is missing from the DistrictUT and CCG lookups. *)
Definition district_sample : DataFrame :=
  mkFrame ["LSOA code (2011)"; "LSOA name (2011)"; "LAD code"; "LAD name"]
    [[Str "E01000001"; Str "City of London 001A"; Str "E09000001";
      Str "City of London"];
     [Str "E01000002"; Str "City of London 001B"; Str "E09000001";
      Str "City of London"];
     [Str "E01000027"; Str "Barking and Dagenham 001A"; Str "E09000002";
      Str "Barking and Dagenham"]].

Definition district_ut_sample : DataFrame :=
  mkFrame ["LSOA11CD"; "LSOA11NM"; "UTLA code"; "UTLA name"]
    [[Str "E01000001"; Str "City of London 001A"; Str "E09000001";
      Str "City of London"];
     [Str "E01000002"; Str "City of London 001B"; Str "E09000001";
      Str "City of London"]].

Definition lep_sample : DataFrame :=
  mkFrame ["LSOA11CD"; "LSOA11NM"; "LEP code"; "LEP name"]
    [[Str "E01000027"; Str "Barking and Dagenham 001A"; Str "E37000051";
      Str "London"];
     [Str "E01000001"; Str "City of London 001A"; Str "E37000051";
      Str "London"];
     [Str "E01000002"; Str "City of London 001B"; Str "E37000051";
      Str "London"]].

Definition ccg_sample : DataFrame :=
  mkFrame ["LSOA11CD"; "LSOA11NM"; "CCG code"; "CCGCDH"; "CCG name"]
    [[Str "E01000001"; Str "City of London 001A"; Str "E38000255";
      Str "A3A8R"; Str "NHS North East London CCG"];
     [Str "E01000002"; Str "City of London 001B"; Str "E38000255";
      Str "A3A8R"; Str "NHS North East London CCG"]].

Definition lookups_sample : dict DataFrame :=
  [("LSOA_CCG_lookup.csv", ccg_sample);
   ("LSOA_DistrictUT_lookup.csv", district_ut_sample);
   ("LSOA_District_lookup.csv", district_sample);
   ("LSOA_LEP_lookup.csv", lep_sample)].

(** The same collection with an LSOA listed twice in the DistrictUT
    lookup. *)
Definition lookups_repeated_key : dict DataFrame :=
  [("LSOA_CCG_lookup.csv", ccg_sample);
   ("LSOA_DistrictUT_lookup.csv",
    mkFrame (columns district_ut_sample)
      (rows district_ut_sample ++
       [[Str "E01000001"; Str "City of London 001A"; Str "E09000001";
         Str "City of London"]]));
   ("LSOA_District_lookup.csv", district_sample);
   ("LSOA_LEP_lookup.csv", lep_sample)].

Definition master_sample : DataFrame :=
  match ProcessLookupTable.create_master lookups_sample with
  | Ok m => m
  | Raise _ => mkFrame [] []
  end.

Definition bridges_sample : list DataFrame :=
  match ProcessLookupTable.create_bridge_tables master_sample with
  | Ok tables => tables
  | Raise _ => []
  end.

(** A collection shaped the way the loop header of [write_data] unpacks
    it: every value a (name, sheet_list) pair. *)
Definition name_sheet_pairs (d : dict (string * list DataFrame))
  : dict ProcessIMDData.pyval :=
  map (fun kv =>
         (kv.1, ProcessIMDData.VTuple
                  [ProcessIMDData.VStr kv.2.1;
                   ProcessIMDData.VList (map ProcessIMDData.VFrame kv.2.2)]))
      d.

(** A reshaped sheet, and a collection pairing it with its file name. *)
Definition eav_sample : DataFrame :=
  mkFrame ["Code"; "Name"; "attribute"; "value"]
          [[Str "E09000001"; Str "City of London"; Str "Rank"; Num 3];
           [Str "E09000002"; Str "Barking and Dagenham"; Str "Rank"; Num 21]].

Definition pairs_sample : dict (string * list DataFrame) :=
  [("File_10_Summaries.xlsx", ("File_10_Summaries.xlsx", [eav_sample]))].

(** What [remove_columns] of the lookup class leaves of a list of
    seventeen or more entries: those at positions 0, 1, 2, 6, 10 and 14
    and those from position 17 onward. *)
Definition lookup_kept {A} (l : list A) : list A :=
  take 3 l ++ take 1 (drop 6 l) ++ take 1 (drop 10 l) ++
  take 1 (drop 14 l) ++ drop 17 l.

(** A pair of positions whose two columns have as many unique values
    one as the other. *)
Definition balanced (lookup_table : DataFrame) (idx : list nat) : Prop :=
  match idx with
  | [i; j] => length (unique (column_values lookup_table i))
              = length (unique (column_values lookup_table j))
  | _ => True
  end.

#[global] Instance balanced_dec lookup_table idx :
  Decision (balanced lookup_table idx).
Proof.
  unfold balanced. destruct idx as [|i [|j [|k idx]]]; apply _.
Defined.

(** Deduplication as the claim words it: a value is kept where it
    occurs for the first time, and nowhere else. *)
Definition first_occurrences {A} `{EqDecision A} (l : list A) : list A :=
  omap id (imap (fun k x => if decide (x ∈ take k l) then None else Some x) l).

(** The labels of a merged table. *)
Definition merged_labels (left right : list string) : list string :=
  ProcessLookupTable.suffix_labels left right "_x" ++
  ProcessLookupTable.suffix_labels right left "_y".

(** A left join converts no cell of the right-hand table: every key of
    the left table finds a row, so that no missing cell is filled in,
    or the right-hand table has no int64 column for a missing cell to
    turn into float64. *)
Definition join_keeps_cells (right : DataFrame) (rk : nat)
    (keys : list cell) : Prop :=
  Forall (fun key => key ∈ column_values right rk) keys \/
  Forall (fun p => dtype_of (column_values right p) <> Int64)
         (seq 0 (length (columns right))).

#[global] Instance join_keeps_cells_dec right rk keys :
  Decision (join_keeps_cells right rk keys).
Proof. unfold join_keeps_cells. apply _. Defined.

(** A store whose objects all are the sample master table. *)
Definition master_state : state := mkState 1 (fun _ => master_sample).

(** * Properties *)

Import ProcessIMDData.

(** ** Strings and file-name classification *)

Lemma get_none_iff (s : string) (i : nat) :
  String.get i s = None <-> String.length s <= i.
Proof.
  revert i. induction s as [|c s IH]; intros i; simpl.
  - split; [lia | done].
  - destruct i as [|i]; simpl.
    + split; [done | lia].
    + rewrite IH. lia.
Qed.

Lemma str_getitem_short (s : string) (i : nat) :
  String.length s <= i -> str_getitem s i = Raise IndexError.
Proof.
  intros H. unfold str_getitem. apply get_none_iff in H. by rewrite H.
Qed.

Lemma files_check_short p keys :
  Exists (fun f => String.length f < 7) keys ->
  files_check p keys = Raise IndexError.
Proof.
  induction 1 as [f keys H | f keys H IH]; simpl.
  - rewrite str_getitem_short; [done | lia].
  - unfold str_getitem. destruct (String.get 6 f); simpl; [|done].
    by rewrite IH.
Qed.

Lemma files_check_long p keys :
  Forall (fun f => 7 <= String.length f) keys ->
  files_check p keys =
  Ok (filter (fun f => char6 p f = true) keys).
Proof.
  induction 1 as [|f keys H _ IH]; simpl; [done|].
  unfold str_getitem.
  destruct (String.get 6 f) as [c|] eqn:E.
  - simpl. rewrite IH. simpl. f_equal.
    rewrite filter_cons.
    assert (char6 p f = p c) as Hc by (unfold char6; by rewrite E).
    destruct (p c) eqn:Ep.
    + rewrite decide_True; [done | congruence].
    + rewrite decide_False; [done | congruence].
  - apply get_none_iff in E. lia.
Qed.

(** ** Dropping columns *)

Lemma select_true {A} (a : nat) (mask : list bool) (l : list A) :
  select (replicate a true ++ mask) l = take a l ++ select mask (drop a l).
Proof.
  revert l. induction a as [|a IH]; intros l; simpl.
  - by rewrite drop_0.
  - destruct l as [|x l]; simpl; [by destruct mask | by rewrite IH].
Qed.

Lemma select_false {A} (b : nat) (mask : list bool) (l : list A) :
  select (replicate b false ++ mask) l = select mask (drop b l).
Proof.
  revert l. induction b as [|b IH]; intros l; simpl.
  - by rewrite drop_0.
  - destruct l as [|x l]; simpl; [by destruct mask | by rewrite IH].
Qed.

Lemma select_all {A} (c : nat) (l : list A) :
  select (replicate c true) l = take c l.
Proof.
  rewrite <- (app_nil_r (replicate c true)), select_true.
  simpl. by rewrite app_nil_r.
Qed.

Lemma select_range {A} (l : list A) (j k : nat) :
  select (replicate (length l `min` j) true ++
          replicate ((length l - j) `min` k) false ++
          replicate (length l - (j + k)) true) l
  = take j l ++ drop (j + k) l.
Proof.
  rewrite select_true, select_false, select_all, drop_drop.
  f_equal.
  - destruct (decide (j <= length l)).
    + by replace (length l `min` j) with j by lia.
    + replace (length l `min` j) with (length l) by lia.
      rewrite !take_ge; [done | lia..].
  - destruct (decide (j + k <= length l)).
    + replace (length l `min` j + (length l - j) `min` k) with (j + k) by lia.
      apply take_ge. rewrite length_drop. lia.
    + rewrite (drop_ge l (j + k)) by lia.
      rewrite drop_ge; [by rewrite take_nil | lia].
Qed.

Lemma mask_three (a b c : list string) :
  (forall x, x ∈ a -> x ∉ b) -> (forall x, x ∈ c -> x ∉ b) ->
  map (fun x => bool_decide (x ∉ b)) (a ++ b ++ c)
  = replicate (length a) true ++ replicate (length b) false ++
    replicate (length c) true.
Proof.
  intros Ha Hc. rewrite !map_app. f_equal; [|f_equal].
  - clear Hc. induction a as [|x a IH]; simpl; [done|].
    rewrite bool_decide_eq_true_2 by (apply Ha; left).
    f_equal. apply IH. intros y Hy. apply Ha. by right.
  - assert (forall l, l ⊆ b ->
              map (fun x => bool_decide (x ∉ b)) l = replicate (length l) false)
      as Hb.
    { induction l as [|x l IH]; intros Hl; simpl; [done|].
      rewrite bool_decide_eq_false_2.
      - f_equal. apply IH. intros y Hy. apply Hl. by right.
      - intros Hx. apply Hx, Hl. left. }
    by apply Hb.
  - clear Ha. induction c as [|x c IH]; simpl; [done|].
    rewrite bool_decide_eq_true_2 by (apply Hc; left).
    f_equal. apply IH. intros y Hy. apply Hc. by right.
Qed.

Lemma drop_mask (cols : list string) (j k : nat) :
  NoDup cols ->
  map (fun c => bool_decide (c ∉ take k (drop j cols))) cols
  = replicate (length cols `min` j) true ++
    replicate ((length cols - j) `min` k) false ++
    replicate (length cols - (j + k)) true.
Proof.
  intros Hnd.
  assert (cols = take j cols ++ take k (drop j cols) ++ drop (j + k) cols)
    as Hsplit by (by rewrite <- drop_drop, !take_drop).
  rewrite Hsplit in Hnd.
  apply NoDup_app in Hnd as (_ & Hab & Hbc).
  apply NoDup_app in Hbc as (_ & Hbc & _).
  etrans; [exact (f_equal (map _) Hsplit)|].
  rewrite mask_three.
  - rewrite length_take, length_take, !length_drop.
    by rewrite (Nat.min_comm j), (Nat.min_comm k).
  - intros x Hx Hx'. apply (Hab x Hx), elem_of_app. by left.
  - intros x Hx Hx'. by apply (Hbc x).
Qed.

Lemma frame_drop_slice (df : DataFrame) (j k : nat) :
  NoDup (columns df) -> frame_wf df ->
  frame_drop df (take k (drop j (columns df))) = Ok (without_positions j k df).
Proof.
  intros Hnd Hwf. unfold frame_drop.
  rewrite decide_True.
  2:{ apply Forall_forall. intros x Hx.
      by apply (subseteq_drop j), (subseteq_take k). }
  rewrite drop_mask by done. unfold without_positions. do 2 f_equal.
  - apply select_range.
  - apply map_ext_Forall. eapply Forall_impl; [exact Hwf|].
    intros r Hr. simpl in Hr. rewrite <- Hr. apply select_range.
Qed.

(** ** The stripper's loops *)

Lemma summary_labels_slice (df : DataFrame) :
  2 <= length (columns df) ->
  summary_labels df = Ok (take 1 (drop 1 (columns df))).
Proof.
  unfold summary_labels, index_getitem. intros H.
  destruct (columns df) as [|c0 [|c1 cols]]; simpl in *; try lia. done.
Qed.

Lemma drop_loop_ok labels (j k : nat) (sheet_list acc : list ref) (st : state) :
  NoDup sheet_list ->
  Forall (fun r => labels (store st r)
                   = Ok (take k (drop j (columns (store st r)))) /\
                   NoDup (columns (store st r)) /\ frame_wf (store st r))
         sheet_list ->
  exists st',
    drop_loop labels sheet_list acc st = (st', Ok (acc ++ sheet_list)) /\
    next_ref st' = next_ref st /\
    Forall (fun r => store st' r = without_positions j k (store st r))
           sheet_list /\
    (forall r, r ∉ sheet_list -> store st' r = store st r).
Proof.
  revert acc st. induction sheet_list as [|r sl IH]; intros acc st Hnd Hok.
  - exists st. simpl. run. by rewrite app_nil_r.
  - apply NoDup_cons in Hnd as [Hr Hnd].
    apply Forall_cons in Hok as [(Hl & Hc & Hwf) Hok].
    simpl. run. rewrite Hl. simpl. rewrite frame_drop_slice by done. simpl.
    set (st1 := mkState _ _).
    destruct (IH (acc ++ [r]) st1 Hnd) as (st' & Hrun & Hnext & Hin & Hout).
    { apply Forall_forall. intros r' Hr'.
      rewrite Forall_forall in Hok. specialize (Hok r' Hr').
      assert (store st1 r' = store st r') as ->; [|done].
      subst st1. simpl. apply fn_lookup_insert_ne. by intros ->. }
    exists st'. split; [|split; [|split]].
    + rewrite Hrun. by rewrite <- app_assoc.
    + by rewrite Hnext.
    + apply Forall_cons. split.
      * rewrite (Hout r Hr). subst st1. simpl. apply fn_lookup_insert.
      * apply Forall_forall. intros r' Hr'.
        rewrite Forall_forall in Hin. rewrite (Hin r' Hr').
        subst st1. simpl. rewrite fn_lookup_insert_ne; [done|]. by intros ->.
    + intros r' Hr'. apply not_elem_of_cons in Hr' as [Hne Hr'].
      rewrite (Hout r' Hr'). subst st1. simpl.
      by rewrite fn_lookup_insert_ne.
Qed.

Lemma dict_set_fresh {V} (d : dict V) (k : string) (v : V) :
  k ∉ dict_keys d -> dict_set d k v = d ++ [(k, v)].
Proof.
  induction d as [|[k' v'] d IH]; simpl; intros Hk; [done|].
  apply not_elem_of_cons in Hk as [Hne Hk].
  rewrite decide_False by done. by rewrite IH.
Qed.

Lemma dict_rebuild {V} (updated items : dict V) :
  NoDup (dict_keys updated ++ dict_keys items) ->
  foldl (fun u kv => dict_set u kv.1 kv.2) updated items = updated ++ items.
Proof.
  revert updated. induction items as [|[k v] items IH]; intros updated Hnd.
  - by rewrite app_nil_r.
  - simpl in *. apply NoDup_app in Hnd as (Hu & Hdisj & Hi).
    rewrite dict_set_fresh.
    2:{ intros Hk. apply (Hdisj k Hk). left. }
    rewrite IH.
    + by rewrite <- app_assoc.
    + unfold dict_keys in *. rewrite map_app. simpl.
      rewrite <- app_assoc. simpl.
      apply NoDup_app. split; [done|]. split; [|done].
      intros x Hx. apply (Hdisj x Hx).
Qed.

Lemma elem_of_concat {A} (x : A) (ls : list (list A)) :
  x ∈ concat ls <-> exists l, x ∈ l /\ l ∈ ls.
Proof.
  rewrite list_elem_of_In, in_concat. split.
  - intros (l & Hl & Hx). exists l. by rewrite !list_elem_of_In.
  - intros (l & Hx & Hl). exists l. by rewrite <- !list_elem_of_In.
Qed.

Lemma remove_columns_loop_ok (summary lsoa : list string)
    (items updated : dict (list ref)) (st : state) :
  Forall (fun f => (f ∈ lsoa <-> lsoa_resolution f) /\
                   (f ∈ summary <-> ~ lsoa_resolution f)) (dict_keys items) ->
  NoDup (sheet_refs items) ->
  Forall (fun kv => Forall (fun r => sheet_ok kv.1 (store st r)) kv.2) items ->
  exists st',
    remove_columns_loop summary lsoa items updated st
    = (st', Ok (foldl (fun u kv => dict_set u kv.1 kv.2) updated items)) /\
    next_ref st' = next_ref st /\
    Forall (fun kv =>
              Forall (fun r => store st' r = stripped kv.1 (store st r)) kv.2)
           items /\
    (forall r, r ∉ sheet_refs items -> store st' r = store st r).
Proof.
  revert updated st.
  induction items as [|[f refs] items IH]; intros updated st Hcl Hnd Hok.
  - exists st. simpl. by run.
  - simpl in Hcl. apply Forall_cons in Hcl as [[Hl Hs] Hcl].
    unfold sheet_refs in Hnd. simpl in Hnd.
    apply NoDup_app in Hnd as (Hrefs & Hdisj & Hnd).
    apply Forall_cons in Hok as [Hok1 Hok]. simpl in Hok1.
    assert (exists st1,
      (let* l1 := (if decide (f ∈ summary)
                   then drop_loop summary_labels refs []
                   else ret []) in
       let* l2 := (if decide (f ∈ lsoa)
                   then drop_loop lsoa_labels refs l1
                   else ret l1) in
       ret l2) st = (st1, Ok refs) /\
      next_ref st1 = next_ref st /\
      Forall (fun r => store st1 r = stripped f (store st r)) refs /\
      (forall r, r ∉ refs -> store st1 r = store st r))
      as (st1 & Hrun1 & Hnext1 & Hin1 & Hout1).
    { unfold stripped.
      destruct (decide (lsoa_resolution f)) as [Hf|Hf],
               (decide (f ∈ summary)) as [Hfs|Hfs],
               (decide (f ∈ lsoa)) as [Hfl|Hfl];
        try (exfalso; tauto).
      - destruct (drop_loop_ok lsoa_labels 1 3 refs [] st Hrefs)
          as (st1 & Hrun & ? & ? & ?).
        { eapply Forall_impl; [exact Hok1|].
          intros r (Hc & Hwf & _). simpl. done. }
        exists st1. run. rewrite Hrun. done.
      - destruct (drop_loop_ok summary_labels 1 1 refs [] st Hrefs)
          as (st1 & Hrun & ? & ? & ?).
        { eapply Forall_impl; [exact Hok1|].
          intros r (Hc & Hwf & [?|Hlen]); simpl; [done|].
          by rewrite summary_labels_slice. }
        exists st1. run. rewrite Hrun. done. }
    destruct (IH (dict_set updated f refs) st1 Hcl Hnd)
      as (st' & Hrun & Hnext & Hin & Hout).
    { apply Forall_forall. intros [f' refs'] Hkv. simpl.
      rewrite Forall_forall in Hok. specialize (Hok _ Hkv). simpl in Hok.
      apply Forall_forall. intros r Hr.
      rewrite Forall_forall in Hok. rewrite Hout1; [by apply Hok|].
      intros Hr'. apply (Hdisj r Hr').
      apply elem_of_concat. exists refs'. split; [done|].
      apply list_elem_of_fmap. by exists (f', refs'). }
    exists st'. split; [|split; [|split]].
    + simpl. revert Hrun1. run.
      destruct (if decide (f ∈ summary) then _ else _) as [st2 [l1|e]];
        [|done].
      destruct (if decide (f ∈ lsoa) then _ else _) as [st3 [l2|e]];
        [|done].
      intros [= -> ->]. exact Hrun.
    + by rewrite Hnext.
    + apply Forall_cons. split; simpl.
      * apply Forall_forall. intros r Hr.
        rewrite Forall_forall in Hin1. rewrite <- (Hin1 r Hr).
        apply Hout. intros Hr'. by apply (Hdisj r Hr).
      * apply Forall_forall. intros [f' refs'] Hkv. simpl.
        rewrite Forall_forall in Hin. specialize (Hin _ Hkv). simpl in Hin.
        apply Forall_forall. intros r Hr.
        rewrite Forall_forall in Hin. rewrite (Hin r Hr). f_equal.
        apply Hout1. intros Hr'. apply (Hdisj r Hr').
        apply elem_of_concat. exists refs'. split; [done|].
        apply list_elem_of_fmap. by exists (f', refs').
    + intros r Hr. unfold sheet_refs in Hr. simpl in Hr.
      apply not_elem_of_app in Hr as [Hr1 Hr2].
      rewrite (Hout r Hr2). by apply Hout1.
Qed.

Lemma char6_lsoa (f : string) :
  char6 is_underscore f = true <-> lsoa_resolution f.
Proof.
  unfold char6, lsoa_resolution, is_underscore.
  destruct (String.get 6 f) as [c|]; [|done].
  rewrite bool_decide_eq_true. split; congruence.
Qed.

Lemma char6_summary (f : string) :
  7 <= String.length f ->
  char6 (fun c => negb (is_underscore c)) f = true <-> ~ lsoa_resolution f.
Proof.
  intros Hlen. unfold char6, lsoa_resolution, is_underscore.
  destruct (String.get 6 f) as [c|] eqn:E.
  - rewrite negb_true_iff, bool_decide_eq_false. split; congruence.
  - apply get_none_iff in E. lia.
Qed.

Lemma classification (keys : list string) :
  Forall (fun f => 7 <= String.length f) keys ->
  Forall (fun f =>
            (f ∈ filter (fun f => char6 is_underscore f = true) keys
             <-> lsoa_resolution f) /\
            (f ∈ filter (fun f => char6 (fun c => negb (is_underscore c)) f
                                  = true) keys
             <-> ~ lsoa_resolution f)) keys.
Proof.
  intros Hlen. apply Forall_forall. intros f Hf.
  rewrite Forall_forall in Hlen. specialize (Hlen f Hf).
  rewrite !list_elem_of_filter, char6_lsoa, char6_summary by done.
  tauto.
Qed.

Lemma remove_columns_ok (d : dict (list ref)) (st : state) :
  dict_wf d ->
  Forall (fun f => 7 <= String.length f) (dict_keys d) ->
  NoDup (sheet_refs d) ->
  Forall (fun kv => Forall (fun r => sheet_ok kv.1 (store st r)) kv.2) d ->
  exists st',
    remove_columns d st = (st', Ok d) /\
    next_ref st' = next_ref st /\
    Forall (fun kv =>
              Forall (fun r => store st' r = stripped kv.1 (store st r)) kv.2)
           d /\
    (forall r, r ∉ sheet_refs d -> store st' r = store st r).
Proof.
  intros Hwf Hlen Hnd Hok.
  destruct (remove_columns_loop_ok _ _ d [] st (classification _ Hlen) Hnd Hok)
    as (st' & Hrun & Hrest).
  exists st'. split; [|done].
  unfold remove_columns. run. rewrite !files_check_long by done.
  rewrite Hrun. by rewrite dict_rebuild.
Qed.

Lemma dict_get_elem_of {V} (d : dict V) (k : string) (v : V) :
  dict_get d k = Some v -> (k, v) ∈ d.
Proof.
  induction d as [|[k' v'] d IH]; simpl; [done|].
  destruct (decide (k' = k)) as [->|].
  - intros [= ->]. left.
  - intros H. right. by apply IH.
Qed.

(** ** C9: a file name shorter than seven characters *)

(** C9. Whenever some file name of the collection has fewer than seven
    characters, [remove_columns] ends in an [IndexError]: the
    classification comprehension indexes [filename[6]] with no guard, no
    collection is returned, and no sheet has been touched. *)
Theorem remove_columns_short_filename (d : dict (list ref)) (st : state) :
  Exists (fun f => String.length f < 7) (dict_keys d) ->
  remove_columns d st = (st, Raise IndexError).
Proof.
  intros H. unfold remove_columns. run.
  by rewrite files_check_short.
Qed.

Lemma remove_columns_short_filename_witness :
  Exists (fun f => String.length f < 7) (dict_keys [("a.xlsx", [0])]) /\
  remove_columns [("a.xlsx", [0])] sample_state
  = (sample_state, Raise IndexError).
Proof.
  assert (Exists (fun f => String.length f < 7) (dict_keys [("a.xlsx", [0])]))
    as H by (apply Exists_cons_hd; simpl; lia).
  split; [exact H|]. exact (remove_columns_short_filename _ _ H).
Defined.

(** ** C1: which columns the stripper drops *)

(** C1 (amended). For a collection whose file names all have at least
    seven characters, whose sheets are distinct objects with pairwise
    distinct column labels, and whose summary-resolution sheets have a
    column at position 1, [remove_columns] returns a collection with the
    same keys and the same sheet objects; a sheet of a file whose
    character at index 6 is not an underscore has lost exactly the
    column at position 1, and a sheet of a file whose character at index
    6 is an underscore has lost exactly the columns at positions 1, 2 and
    3 (as far as it has them). *)
Theorem remove_columns_strips (d : dict (list ref)) (st : state) :
  dict_wf d ->
  Forall (fun f => 7 <= String.length f) (dict_keys d) ->
  NoDup (sheet_refs d) ->
  Forall (fun kv => Forall (fun r => sheet_ok kv.1 (store st r)) kv.2) d ->
  exists st' d',
    remove_columns d st = (st', Ok d') /\
    dict_keys d' = dict_keys d /\
    forall f refs, dict_get d' f = Some refs ->
      dict_get d f = Some refs /\
      Forall (fun r =>
                (String.get 6 f <> Some "_"%char ->
                 store st' r = without_positions 1 1 (store st r)) /\
                (String.get 6 f = Some "_"%char ->
                 store st' r = without_positions 1 3 (store st r))) refs.
Proof.
  intros Hwf Hlen Hnd Hok.
  destruct (remove_columns_ok d st Hwf Hlen Hnd Hok)
    as (st' & Hrun & _ & Hin & _).
  exists st', d. split; [done|]. split; [done|].
  intros f refs Hget. split; [done|].
  apply dict_get_elem_of in Hget.
  rewrite Forall_forall in Hin. specialize (Hin _ Hget). simpl in Hin.
  eapply Forall_impl; [exact Hin|].
  intros r Hr. simpl in Hr. unfold stripped in Hr.
  fold (lsoa_resolution f).
  destruct (decide (lsoa_resolution f)); split; intros; done.
Qed.

Lemma remove_columns_strips_witness :
  dict_wf sample_collection /\
  Forall (fun f => 7 <= String.length f) (dict_keys sample_collection) /\
  NoDup (sheet_refs sample_collection) /\
  Forall (fun kv => Forall (fun r => sheet_ok kv.1 (store sample_state r)) kv.2)
         sample_collection /\
  exists st' d',
    remove_columns sample_collection sample_state = (st', Ok d') /\
    dict_keys d' = dict_keys sample_collection /\
    forall f refs, dict_get d' f = Some refs ->
      dict_get sample_collection f = Some refs /\
      Forall (fun r =>
                (String.get 6 f <> Some "_"%char ->
                 store st' r = without_positions 1 1 (store sample_state r)) /\
                (String.get 6 f = Some "_"%char ->
                 store st' r = without_positions 1 3 (store sample_state r)))
             refs.
Proof.
  assert (dict_wf sample_collection) as H1
    by (by apply (bool_decide_unpack _); vm_compute).
  assert (Forall (fun f => 7 <= String.length f) (dict_keys sample_collection))
    as H2 by (by apply (bool_decide_unpack _); vm_compute).
  assert (NoDup (sheet_refs sample_collection)) as H3
    by (by apply (bool_decide_unpack _); vm_compute).
  assert (Forall (fun kv =>
            Forall (fun r => sheet_ok kv.1 (store sample_state r)) kv.2)
            sample_collection)
    as H4 by (by apply (bool_decide_unpack _); vm_compute).
  refine (conj H1 (conj H2 (conj H3 (conj H4 _)))).
  exact (remove_columns_strips sample_collection sample_state H1 H2 H3 H4).
Defined.

(** The claim as stated, for every collection, fails on a summary file
    whose sheet carries the label at position 1 on two columns: the drop
    is by label, and both columns go. *)
Lemma remove_columns_repeated_label :
  ~ (forall (d : dict (list ref)) (st : state),
       exists st' d',
         remove_columns d st = (st', Ok d') /\
         dict_keys d' = dict_keys d /\
         forall f refs, dict_get d' f = Some refs ->
           Forall (fun r =>
                     (String.get 6 f <> Some "_"%char ->
                      store st' r = without_positions 1 1 (store st r)) /\
                     (String.get 6 f = Some "_"%char ->
                      store st' r = without_positions 1 3 (store st r))) refs).
Proof.
  intros H.
  destruct (H [("File_10_Summaries.xlsx", [3])] sample_state)
    as (st' & d' & Hrun & _ & Hall).
  vm_compute in Hrun. injection Hrun as <- <-.
  specialize (Hall "File_10_Summaries.xlsx" [3] eq_refl).
  apply Forall_cons in Hall as [[Hsum _] _].
  specialize (Hsum ltac:(discriminate)).
  vm_compute in Hsum. discriminate.
Qed.

(** A summary-resolution sheet with a single column has no position 1:
    the stripper ends in an [IndexError]. *)
Example remove_columns_narrow_sheet (st : state) :
  (remove_columns [("File_10_Summaries.xlsx", [0])]
     (mkState (next_ref st)
        (<[0 := mkFrame ["Code"] [[Str "E09000001"]]]> (store st)))).2
  = Raise IndexError.
Proof. done. Qed.

(** An LSOA-resolution sheet with three columns loses the two it has at
    positions 1 to 3. *)
Example remove_columns_three_columns :
  columns (store (remove_columns [("File_1_IMD.xlsx", [0])] sample_state).1 0)
  = ["LSOA code"].
Proof. by vm_compute. Qed.

(** ** C10: the stripper works in place *)

Lemma drop_loop_refs labels (sheet_list acc l : list ref) (st st' : state) :
  drop_loop labels sheet_list acc st = (st', Ok l) -> l = acc ++ sheet_list.
Proof.
  revert acc st. induction sheet_list as [|r sl IH]; intros acc st; simpl.
  - run. intros [= _ <-]. by rewrite app_nil_r.
  - run. destruct (labels (store st r)) as [ls|e]; simpl; [|done].
    destruct (frame_drop (store st r) ls) as [df|e]; simpl; [|done].
    intros H. apply IH in H. by rewrite <- app_assoc in H.
Qed.

Lemma remove_columns_loop_refs (summary lsoa : list string)
    (items updated d' : dict (list ref)) (st st' : state) :
  Forall (fun f => (f ∈ lsoa <-> lsoa_resolution f) /\
                   (f ∈ summary <-> ~ lsoa_resolution f)) (dict_keys items) ->
  remove_columns_loop summary lsoa items updated st = (st', Ok d') ->
  d' = foldl (fun u kv => dict_set u kv.1 kv.2) updated items.
Proof.
  revert updated st.
  induction items as [|[f refs] items IH]; intros updated st Hcl; simpl.
  - run. by intros [= _ <-].
  - simpl in Hcl. apply Forall_cons in Hcl as [[Hl Hs] Hcl]. run.
    destruct (decide (lsoa_resolution f)) as [Hf|Hf],
             (decide (f ∈ summary)) as [Hfs|Hfs],
             (decide (f ∈ lsoa)) as [Hfl|Hfl];
      try (exfalso; tauto); run.
    + destruct (drop_loop lsoa_labels refs [] st) as [st1 [l|e]] eqn:E;
        [|done].
      apply drop_loop_refs in E. simpl in E. subst l. by apply IH.
    + destruct (drop_loop summary_labels refs [] st) as [st1 [l|e]] eqn:E;
        [|done].
      apply drop_loop_refs in E. simpl in E. subst l. by apply IH.
Qed.

Lemma files_check_ok_inv p keys l :
  files_check p keys = Ok l -> Forall (fun f => 7 <= String.length f) keys.
Proof.
  intros H.
  destruct (decide (Forall (fun f => 7 <= String.length f) keys)) as [|Hn];
    [done|].
  apply not_Forall_Exists in Hn; [|apply _].
  rewrite files_check_short in H; [done|].
  eapply Exists_impl; [exact Hn|]. simpl. intros. lia.
Qed.

Lemma remove_columns_same_refs (d d' : dict (list ref)) (st st' : state) :
  dict_wf d -> remove_columns d st = (st', Ok d') -> d' = d.
Proof.
  intros Hwf. unfold remove_columns. run.
  destruct (files_check _ _) as [summary|e] eqn:E1; [|done].
  destruct (files_check is_underscore _) as [lsoa|e] eqn:E2; [|done].
  pose proof (files_check_ok_inv _ _ _ E1) as Hlen.
  rewrite files_check_long in E1, E2 by done.
  injection E1 as <-. injection E2 as <-.
  intros Hrun. apply remove_columns_loop_refs in Hrun.
  - by rewrite dict_rebuild in Hrun.
  - by apply classification.
Qed.

(** C10. When [remove_columns] returns, the returned collection holds,
    under every file name, the very sheet references of the input
    collection: the frames were changed where they are ([inplace=True]),
    none was copied.  So the caller's own collection, read after the
    call, shows the stripped sheets (stated for distinct sheet objects
    with distinct labels, where "stripped" is a single drop). *)
Theorem remove_columns_in_place (d d' : dict (list ref)) (st st' : state) :
  dict_wf d ->
  remove_columns d st = (st', Ok d') ->
  d' = d /\
  (NoDup (sheet_refs d) ->
   Forall (fun kv => Forall (fun r => sheet_ok kv.1 (store st r)) kv.2) d ->
   Forall (fun kv =>
             Forall (fun r => store st' r = stripped kv.1 (store st r)) kv.2)
          d).
Proof.
  intros Hwf Hrun.
  pose proof (remove_columns_same_refs d d' st st' Hwf Hrun) as ->.
  split; [done|]. intros Hnd Hok.
  assert (Forall (fun f => 7 <= String.length f) (dict_keys d)) as Hlen.
  { revert Hrun. unfold remove_columns. run.
    destruct (files_check _ _) as [summary|e] eqn:E1; [|done].
    intros _. by eapply files_check_ok_inv. }
  destruct (remove_columns_ok d st Hwf Hlen Hnd Hok)
    as (st1 & Hrun1 & _ & Hin & _).
  rewrite Hrun in Hrun1. by injection Hrun1 as <-.
Qed.

Lemma remove_columns_in_place_witness :
  dict_wf sample_collection /\
  remove_columns sample_collection sample_state
  = ((remove_columns sample_collection sample_state).1, Ok sample_collection) /\
  NoDup (sheet_refs sample_collection) /\
  Forall (fun kv => Forall (fun r => sheet_ok kv.1 (store sample_state r)) kv.2)
         sample_collection /\
  sample_collection = sample_collection /\
  Forall (fun kv =>
            Forall (fun r =>
                      store (remove_columns sample_collection sample_state).1 r
                      = stripped kv.1 (store sample_state r)) kv.2)
         sample_collection.
Proof.
  assert (dict_wf sample_collection) as H1
    by (by apply (bool_decide_unpack _); vm_compute).
  assert (remove_columns sample_collection sample_state
          = ((remove_columns sample_collection sample_state).1,
             Ok sample_collection)) as H2
    by (by vm_compute).
  assert (NoDup (sheet_refs sample_collection)) as H3
    by (by apply (bool_decide_unpack _); vm_compute).
  assert (Forall (fun kv =>
            Forall (fun r => sheet_ok kv.1 (store sample_state r)) kv.2)
            sample_collection)
    as H4 by (by apply (bool_decide_unpack _); vm_compute).
  destruct (remove_columns_in_place sample_collection sample_collection
              sample_state _ H1 H2) as [Hsame Hstripped].
  exact (conj H1 (conj H2 (conj H3 (conj H4
           (conj Hsame (Hstripped H3 H4)))))).
Defined.

(** A sheet object listed twice is stripped twice: the second pass sees
    what the first one left. *)
Example remove_columns_aliased :
  (remove_columns [("File_10_Summaries.xlsx", [0; 0])] sample_state).2
  = Ok [("File_10_Summaries.xlsx", [0; 0])] /\
  columns (store (remove_columns [("File_10_Summaries.xlsx", [0; 0])]
                                 sample_state).1 0)
  = ["LSOA code"].
Proof. by vm_compute. Qed.

(** ** First-occurrence deduplication *)

Section unique.
Context {A : Type} `{EqDecision A}.
Implicit Types (l seen : list A).

Lemma unique_from_elem_of seen l x :
  x ∈ unique_from seen l <-> x ∈ l /\ x ∉ seen.
Proof.
  revert seen. induction l as [|y l IH]; intros seen; simpl.
  - split; [by intros ?%elem_of_nil | by intros [?%elem_of_nil _]].
  - destruct (decide (y ∈ seen)) as [Hy|Hy].
    + rewrite IH, elem_of_cons. split; [tauto|].
      intros [[->|?] ?]; tauto.
    + rewrite !elem_of_cons, IH, not_elem_of_cons. split.
      * intros [->|(? & ? & ?)]; tauto.
      * intros [[->|?] ?]; [tauto|].
        destruct (decide (x = y)); tauto.
Qed.

Lemma unique_from_NoDup seen l : NoDup (unique_from seen l).
Proof.
  revert seen. induction l as [|y l IH]; intros seen; simpl.
  - constructor.
  - destruct (decide (y ∈ seen)); [apply IH|].
    apply NoDup_cons. split; [|apply IH].
    rewrite unique_from_elem_of, not_elem_of_cons. tauto.
Qed.

Lemma unique_from_ext seen seen' l :
  (forall x, x ∈ seen <-> x ∈ seen') ->
  unique_from seen l = unique_from seen' l.
Proof.
  revert seen seen'. induction l as [|y l IH]; intros seen seen' Hext; simpl.
  - done.
  - destruct (decide (y ∈ seen)) as [Hy|Hy],
             (decide (y ∈ seen')) as [Hy'|Hy'];
      try (exfalso; apply Hext in Hy || apply Hext in Hy'; tauto).
    + by apply IH.
    + f_equal. apply IH. intros x. rewrite !elem_of_cons, Hext. tauto.
Qed.

Lemma unique_from_app seen l1 l2 :
  unique_from seen (l1 ++ l2)
  = unique_from seen l1 ++ unique_from (l1 ++ seen) l2.
Proof.
  revert seen. induction l1 as [|y l1 IH]; intros seen; simpl; [done|].
  destruct (decide (y ∈ seen)) as [Hy|Hy].
  - rewrite IH. f_equal. apply unique_from_ext. intros x.
    rewrite elem_of_cons, !elem_of_app. split; [tauto|].
    intros [->|?]; tauto.
  - simpl. rewrite IH. do 2 f_equal. apply unique_from_ext. intros x.
    rewrite elem_of_cons, !elem_of_app, elem_of_cons. tauto.
Qed.

Lemma unique_from_id seen l :
  NoDup l -> (forall x, x ∈ l -> x ∉ seen) -> unique_from seen l = l.
Proof.
  revert seen. induction l as [|y l IH]; intros seen Hnd Hd; simpl; [done|].
  apply NoDup_cons in Hnd as [Hy Hnd].
  rewrite decide_False by (apply Hd; left).
  f_equal. apply IH; [done|]. intros x Hx.
  rewrite not_elem_of_cons. split; [by intros -> | apply Hd; by right].
Qed.

Lemma unique_from_seen seen l :
  (forall x, x ∈ l -> x ∈ seen) -> unique_from seen l = [].
Proof.
  induction l as [|y l IH]; intros H; simpl; [done|].
  rewrite decide_True by (apply H; left).
  apply IH. intros x Hx. apply H. by right.
Qed.

Lemma unique_NoDup l : NoDup (unique l).
Proof. apply unique_from_NoDup. Qed.

Lemma unique_elem_of l x : x ∈ unique l <-> x ∈ l.
Proof.
  unfold unique. rewrite unique_from_elem_of. split; [tauto|].
  intros ?. split; [done | apply not_elem_of_nil].
Qed.

(** First-occurrence order: scanning left to right, a value is appended
    the first time it is met and skipped afterwards. *)
Lemma unique_snoc l x :
  unique (l ++ [x]) = if decide (x ∈ l) then unique l else unique l ++ [x].
Proof.
  unfold unique. rewrite unique_from_app. simpl.
  rewrite app_nil_r.
  destruct (decide (x ∈ l)); [by rewrite app_nil_r | done].
Qed.
Lemma unique_from_first seen pre l :
  (forall x, x ∈ seen <-> x ∈ pre) ->
  unique_from seen l
  = omap id (imap (fun k x => if decide (x ∈ pre ++ take k l)
                              then None else Some x) l).
Proof.
  revert seen pre. induction l as [|y l IH]; intros seen pre Hext; [done|].
  cbn [unique_from imap]. unfold compose.
  assert (forall seen',
            (forall x, x ∈ seen' <-> x ∈ pre ++ [y]) ->
            unique_from seen' l
            = omap id (imap (fun k x =>
                               if decide (x ∈ pre ++ take (S k) (y :: l))
                               then None else Some x) l)) as Hrest.
  { intros seen' Hext'. rewrite (IH seen' (pre ++ [y]) Hext').
    f_equal. apply imap_ext. intros k x _. simpl.
    by rewrite <- app_assoc. }
  cbn [take]. rewrite app_nil_r.
  destruct (decide (y ∈ seen)) as [Hy|Hy].
  - rewrite decide_True by (by apply Hext). cbn.
    apply Hrest. intros x. rewrite elem_of_app, list_elem_of_singleton, <- Hext.
    split; [tauto | intros [?| ->]; done].
  - rewrite decide_False by (by rewrite <- Hext). cbn. f_equal.
    apply Hrest. intros x.
    rewrite elem_of_cons, elem_of_app, list_elem_of_singleton, <- Hext. tauto.
Qed.

Lemma unique_first l : unique l = first_occurrences l.
Proof. by apply (unique_from_first [] []). Qed.

End unique.

(** ** Label lookup and positional selection *)

Lemma locs_from_not_in (p : nat) (cols : list string) (c : string) :
  c ∉ cols -> locs_from p cols c = [].
Proof.
  revert p. induction cols as [|c' cols IH]; intros p Hc; simpl; [done|].
  apply not_elem_of_cons in Hc as [Hne Hc].
  rewrite decide_False by done. by apply IH.
Qed.

Lemma locs_from_unique (p i : nat) (cols : list string) (c : string) :
  NoDup cols -> cols !! i = Some c -> locs_from p cols c = [p + i].
Proof.
  revert p i. induction cols as [|c' cols IH]; intros p i Hnd Hi; [done|].
  apply NoDup_cons in Hnd as [Hc' Hnd]. simpl.
  destruct i as [|i]; simpl in Hi.
  - injection Hi as ->. rewrite decide_True by done.
    rewrite locs_from_not_in by done. f_equal. lia.
  - rewrite decide_False.
    + rewrite (IH (S p) i) by done. f_equal. lia.
    + intros ->. apply Hc'. by eapply list_elem_of_lookup_2.
Qed.

Lemma get_indexer_for_slice (cols : list string) (j k : nat) :
  NoDup cols ->
  get_indexer_for cols (take k (drop j cols))
  = seq j (length (take k (drop j cols))).
Proof.
  intros Hnd. revert j. induction k as [|k IH]; intros j; [done|].
  destruct (cols !! j) as [c|] eqn:E.
  - rewrite (drop_S _ _ _ E). simpl.
    unfold get_locs. rewrite (locs_from_unique 0 j cols c) by done.
    simpl. f_equal. apply (IH (S j)).
  - apply lookup_ge_None in E. by rewrite drop_ge.
Qed.

Lemma map_cell_at_take (r : list cell) (k : nat) :
  map (cell_at r) (seq 0 (k `min` length r)) = take k r.
Proof.
  apply list_eq. intros i.
  rewrite list_lookup_fmap.
  destruct (decide (i < k `min` length r)) as [Hi|Hi].
  - rewrite lookup_seq_lt by done. simpl.
    rewrite lookup_take_lt by lia. unfold cell_at.
    destruct (lookup_lt_is_Some_2 r i ltac:(lia)) as [x Hx].
    by rewrite Hx.
  - rewrite lookup_seq_ge by lia. simpl. symmetry.
    apply lookup_ge_None. rewrite length_take. lia.
Qed.

Lemma omap_lookup_seq_app {A} (pre l : list A) :
  omap (fun p => (pre ++ l) !! p) (seq (length pre) (length l)) = l.
Proof.
  revert pre. induction l as [|x l IH]; intros pre; [done|].
  simpl. rewrite list_lookup_middle by done. f_equal.
  specialize (IH (pre ++ [x])).
  rewrite <- app_assoc, length_app in IH. simpl in IH.
  by rewrite Nat.add_1_r in IH.
Qed.

Lemma omap_lookup_seq {A} (l : list A) :
  omap (fun p => l !! p) (seq 0 (length l)) = l.
Proof. apply (omap_lookup_seq_app []). Qed.

Lemma iloc_columns_all (df : DataFrame) :
  frame_wf df -> iloc_columns df (seq 0 (length (columns df))) = df.
Proof.
  intros Hwf. destruct df as [cols rs]. unfold iloc_columns. simpl in *.
  f_equal; [apply omap_lookup_seq|].
  rewrite <- (map_id rs) at 2. apply map_ext_Forall.
  eapply Forall_impl; [exact Hwf|]. simpl. intros r Hr.
  rewrite <- Hr, <- (Nat.min_id (length r)), map_cell_at_take.
  apply take_ge. lia.
Qed.

Lemma unique_seq_overlap (n : nat) :
  unique (seq 0 (2 `min` n) ++ seq 1 (n - 1)) = seq 0 n.
Proof.
  destruct n as [|[|n]]; [done..|].
  replace (2 `min` S (S n)) with 2 by lia.
  replace (S (S n) - 1) with (S n) by lia.
  unfold unique. rewrite unique_from_app.
  change (seq 0 (S (S n))) with ([0; 1] ++ seq 2 n).
  f_equal. change (seq 1 (S n)) with (1 :: seq 2 n).
  change (seq 0 2 ++ []) with [0; 1].
  unfold unique_from at 1. rewrite decide_True by (right; left).
  fold (@unique_from nat _).
  apply unique_from_id; [apply NoDup_seq|].
  intros x Hx. apply elem_of_seq in Hx.
  rewrite !not_elem_of_cons. split; [lia|]. split; [lia|].
  apply not_elem_of_nil.
Qed.

Lemma filter_id_positions (n : nat) :
  filter (fun p => p ∉ seq 0 (2 `min` n)) (seq 0 n) = seq 2 (n - 2).
Proof.
  destruct n as [|[|n]]; [done..|].
  replace (2 `min` S (S n)) with 2 by lia.
  replace (S (S n) - 2) with n by lia.
  change (seq 0 (S (S n))) with ([0; 1] ++ seq 2 n).
  rewrite filter_app.
  assert (filter (fun p => p ∉ seq 0 2) [0; 1] = []) as -> by done.
  simpl.
  assert (Forall (fun p => 2 <= p) (seq 2 n)) as Hge.
  { apply Forall_forall. intros p Hp. apply elem_of_seq in Hp. lia. }
  induction Hge as [|p ps Hp _ IH]; [done|].
  rewrite filter_cons, decide_True, IH; [done|].
  rewrite !not_elem_of_cons. split; [lia|]. split; [lia|].
  apply not_elem_of_nil.
Qed.

(** ** C2: the EAV reshape *)

Lemma indexer_id_vars (cols : list string) :
  NoDup cols ->
  get_indexer_for cols (take 2 cols) = seq 0 (2 `min` length cols).
Proof.
  intros Hnd. rewrite <- (drop_0 cols) at 2.
  rewrite get_indexer_for_slice by done.
  by rewrite length_take, drop_0.
Qed.

Lemma indexer_value_vars (cols : list string) :
  NoDup cols ->
  get_indexer_for cols (drop 1 cols) = seq 1 (length cols - 1).
Proof.
  intros Hnd.
  rewrite <- (take_ge (drop 1 cols) (length cols))
    by (rewrite length_drop; lia).
  rewrite get_indexer_for_slice by done.
  rewrite length_take, length_drop. f_equal. lia.
Qed.

Lemma indexer_melt_sheet (cols : list string) :
  NoDup cols ->
  unique (get_indexer_for cols (take 2 cols ++ drop 1 cols))
  = seq 0 (length cols).
Proof.
  intros Hnd. unfold get_indexer_for. rewrite flat_map_app.
  fold (get_indexer_for cols (take 2 cols)).
  fold (get_indexer_for cols (drop 1 cols)).
  rewrite indexer_id_vars, indexer_value_vars by done.
  apply unique_seq_overlap.
Qed.

Lemma filter_absent (cols : list string) (c : string) (l : list nat) :
  Forall (fun q => cols !! q <> Some c) l ->
  filter (fun q => cols !! q = Some c) l = [] /\
  filter (fun q => cols !! q <> Some c) l = l.
Proof.
  induction 1 as [|q l Hq _ [IH1 IH2]]; [done|].
  rewrite !filter_cons, decide_False, decide_True by done.
  by rewrite IH1, IH2.
Qed.

Lemma lookup_beyond (cols : list string) (c : string) (k a m : nat) :
  NoDup cols -> cols !! k = Some c -> k < a ->
  Forall (fun q => cols !! q <> Some c) (seq a m).
Proof.
  intros Hnd Hk Hlt. apply Forall_forall. intros q Hq Hc.
  apply elem_of_seq in Hq.
  pose proof (NoDup_lookup _ _ _ _ Hnd Hk Hc). lia.
Qed.

Lemma pop_loop_id_vars (cols : list string) :
  NoDup cols ->
  pop_loop cols (take 2 cols) (seq 0 (length cols)) []
  = Ok (seq 2 (length cols - 2),
        imap (fun p c => (c, Some p)) (take 2 cols)).
Proof.
  intros Hnd. destruct cols as [|c0 [|c1 cols]].
  - done.
  - cbn [take length seq pop_loop].
    rewrite !filter_cons, !filter_nil. cbn [lookup list_lookup].
    rewrite decide_True by done. rewrite decide_False by (by intros H).
    done.
  - assert (c0 <> c1) as Hne.
    { intros ->. apply NoDup_cons in Hnd as [Hin _]. apply Hin. left. }
    pose proof (lookup_beyond (c0 :: c1 :: cols) c0 0 2 (length cols)
                  Hnd eq_refl ltac:(lia)) as H0.
    pose proof (lookup_beyond (c0 :: c1 :: cols) c1 1 2 (length cols)
                  Hnd eq_refl ltac:(lia)) as H1.
    destruct (filter_absent _ _ _ H0) as [H0e H0n].
    destruct (filter_absent _ _ _ H1) as [H1e H1n].
    cbn [take length pop_loop].
    change (seq 0 (S (S (length cols)))) with (0 :: 1 :: seq 2 (length cols)).
    rewrite !filter_cons, H0e, H0n. cbn [lookup list_lookup].
    rewrite (decide_True (P := Some c0 = Some c0)) by done.
    rewrite (decide_False (P := Some c1 = Some c0)) by congruence.
    rewrite (decide_False (P := Some c0 <> Some c0)) by (by intros H).
    rewrite (decide_True (P := Some c1 <> Some c0)) by congruence.
    cbn [pop_loop].
    rewrite !filter_cons, H1e, H1n. cbn [lookup list_lookup].
    rewrite (decide_True (P := Some c1 = Some c1)) by done.
    rewrite (decide_False (P := Some c1 <> Some c1)) by (by intros H).
    cbn [dict_set]. rewrite decide_False by done.
    replace (S (S (length cols)) - 2) with (length cols) by lia.
    done.
Qed.

Lemma melt_columns (frame eav : DataFrame) (id_vars value_vars : list string)
    (var_name value_name : string) :
  melt frame id_vars value_vars var_name value_name = Ok eav ->
  columns eav = id_vars ++ [var_name; value_name].
Proof.
  unfold melt. case_decide; [done|].
  destruct (pop_loop _ _ _ _) as [popped|]; [|done]. cbn [rbind].
  case_decide; [done|]. by intros [= <-].
Qed.

Lemma melt_sheet_shape (sheet : DataFrame) :
  melt_domain sheet ->
  exists rs,
    melt_sheet sheet
    = Ok (mkFrame (take 2 (columns sheet) ++ ["attribute"; "value"]) rs) /\
    (frame_wf sheet -> rs = eav_rows sheet).
Proof.
  intros (Hnd & Ha & Hv). unfold melt_sheet, melt, index_slice.
  rewrite drop_0. change (2 - 0) with 2.
  rewrite decide_False by done.
  rewrite indexer_melt_sheet by done.
  assert (columns (iloc_columns sheet (seq 0 (length (columns sheet))))
          = columns sheet) as Hcols
    by (unfold iloc_columns; simpl; apply omap_lookup_seq).
  rewrite !Hcols. rewrite pop_loop_id_vars by done. cbn [rbind fst snd].
  rewrite decide_False.
  2:{ intros Hin. apply list_elem_of_fmap in Hin as ([c o] & Ho & Hin).
      apply elem_of_lookup_imap in Hin as (k & c' & Heq & _).
      simpl in Ho. congruence. }
  eexists. split; [reflexivity|].
  intros Hwf. rewrite iloc_columns_all by done. unfold eav_rows.
  destruct (decide (length (columns sheet) <= 2)) as [Hn|Hn].
  { by replace (length (columns sheet) - 2) with 0 by lia. }
  destruct (columns sheet) as [|c0 [|c1 cols]] eqn:Ec;
    try (simpl in Hn; lia).
  assert (c0 <> c1) as Hne.
  { intros ->. apply NoDup_cons in Hnd as [Hin _]. apply Hin. left. }
  assert (c0 <> "attribute" /\ c1 <> "attribute" /\
          c0 <> "value" /\ c1 <> "value") as (A0 & A1 & V0 & V1).
  { rewrite !not_elem_of_cons in Ha, Hv. by destruct Ha as (? & ? & _),
      Hv as (? & ? & _). }
  apply flat_map_ext. intros p. apply map_ext_Forall.
  eapply Forall_impl; [exact Hwf|]. intros r Hr. rewrite Ec in Hr.
  destruct r as [|a [|b r]]; try (simpl in Hr; lia).
  simpl. repeat (case_decide; try congruence). done.
Qed.

Lemma melt_sheet_eq (sheet : DataFrame) :
  melt_domain sheet -> frame_wf sheet ->
  melt_sheet sheet
  = Ok (mkFrame (take 2 (columns sheet) ++ ["attribute"; "value"])
                (eav_rows sheet)).
Proof.
  intros Hd Hwf. destruct (melt_sheet_shape sheet Hd) as (rs & -> & Hrs).
  by rewrite Hrs.
Qed.

Lemma melt_sheet_melted (sheet : DataFrame) :
  melt_domain sheet -> melt_sheet sheet = Ok (melted sheet).
Proof.
  intros Hd. destruct (melt_sheet_shape sheet Hd) as (rs & H & _).
  unfold melted. by rewrite H.
Qed.



Lemma melt_sheets_eq (st : state) (refs : list ref) :
  Forall (fun r => melt_domain (store st r)) refs ->
  melt_sheets st refs = Ok (map (fun r => melted (store st r)) refs).
Proof.
  induction 1 as [|r refs Hr _ IH]; [done|].
  cbn [melt_sheets]. rewrite (melt_sheet_melted _ Hr). cbn [rbind].
  by rewrite IH.
Qed.

Lemma convert_loop_eq (st : state) (items : dict (list ref))
    (acc : dict (list DataFrame)) :
  NoDup (dict_keys acc ++ dict_keys items) ->
  Forall (fun r => melt_domain (store st r)) (sheet_refs items) ->
  convert_loop st items acc
  = Ok (acc ++
        map (fun kv => (kv.1, map (fun r => melted (store st r)) kv.2)) items).
Proof.
  revert acc. induction items as [|[f refs] items IH]; intros acc Hnd Hd.
  - simpl. by rewrite app_nil_r.
  - unfold sheet_refs in Hd. simpl in Hd.
    apply Forall_app in Hd as [Hd1 Hd2].
    cbn [convert_loop]. rewrite (melt_sheets_eq _ _ Hd1). cbn [rbind].
    simpl in Hnd. apply NoDup_app in Hnd as (Ha & Hdisj & Hi).
    rewrite dict_set_fresh by (intros Hf; apply (Hdisj f Hf); left).
    rewrite IH.
    + simpl. by rewrite <- app_assoc.
    + unfold dict_keys in *. rewrite map_app, <- app_assoc. simpl.
      apply NoDup_app. split; [done|]. split; [|done].
      intros x Hx. apply (Hdisj x Hx).
    + done.
Qed.


Lemma convert_to_eav_format_eq (st : state) (d : dict (list ref)) :
  dict_wf d ->
  Forall (fun r => melt_domain (store st r)) (sheet_refs d) ->
  convert_to_eav_format st d
  = Ok (map (fun kv => (kv.1, map (fun r => melted (store st r)) kv.2)) d).
Proof.
  intros Hwf Hd. unfold convert_to_eav_format.
  by rewrite convert_loop_eq.
Qed.




Example melt_sheet_stripped_sample :
  melt_sheet (store sample_state 4)
  = Ok (mkFrame ["LSOA code"; "Rank"; "attribute"; "value"]
                [[Str "E01000001"; Num 29199; Str "Decile"; Num 9]]).
Proof. by vm_compute. Qed.

(** Outside these sheets the reshaper raises: on a column labelled
    "value", and on a sheet whose first two columns carry one label. *)
Example melt_sheet_value_label :
  melt_sheet (mkFrame ["Code"; "Name"; "value"] [[Str "a"; Str "b"; Num 1]])
  = Raise ValueError.
Proof. by vm_compute. Qed.

Example melt_sheet_repeated_identity :
  melt_sheet (mkFrame ["Name"; "Name"; "Rank"] [[Str "a"; Str "b"; Num 1]])
  = Raise KeyError.
Proof. by vm_compute. Qed.

(** ** C3: the end-to-end scenario *)

(** C3 (amended). In "E01000001_IMD.xlsx" the character at index 6 is
    "0", not an underscore, so the workbook is handled at summary
    resolution.  For sheets with the columns [LSOA code, LSOA name,
    Score], whatever their rows, the stripper drops "LSOA name" and
    leaves [LSOA code, Score]; the reshaper then takes both remaining
    columns as identity columns, nothing is left to unpivot, and each
    output sheet has the columns [LSOA code, Score, attribute, value]
    and no rows. *)
Theorem scenario_strip_then_reshape (rows0 rows1 : list (list cell))
    (st : state) :
  String.get 6 "E01000001_IMD.xlsx" = Some "0"%char /\
  exists st',
    remove_columns scenario_collection
      (mkState (next_ref st)
         (<[0 := score_sheet rows0]> (<[1 := score_sheet rows1]> (store st))))
    = (st', Ok scenario_collection) /\
    columns (store st' 0) = ["LSOA code"; "Score"] /\
    columns (store st' 1) = ["LSOA code"; "Score"] /\
    convert_to_eav_format st' scenario_collection
    = Ok [("E01000001_IMD.xlsx",
           [mkFrame ["LSOA code"; "Score"; "attribute"; "value"] [];
            mkFrame ["LSOA code"; "Score"; "attribute"; "value"] []])].
Proof.
  split; [done|].
  eexists. split; [by vm_compute|].
  by vm_compute.
Qed.

(** The scenario as stated fails on the sample sheets: the file is not
    at LSOA resolution, and the reshaped sheets do not hold one
    (code, name, "Score", value) row per original row. *)
Lemma scenario_as_stated_fails :
  ~ lsoa_resolution "E01000001_IMD.xlsx" /\
  ~ (exists st' d' eav_d eav_sheets,
       remove_columns scenario_collection sample_state = (st', Ok d') /\
       convert_to_eav_format st' d' = Ok eav_d /\
       dict_get eav_d "E01000001_IMD.xlsx" = Some eav_sheets /\
       forall i r eav,
         [0; 1] !! i = Some r -> eav_sheets !! i = Some eav ->
         rows eav
         = map (fun row => [cell_at row 0; cell_at row 1; Str "Score";
                            cell_at row 2])
               (rows (store sample_state r))).
Proof.
  split; [by vm_compute|].
  intros (st' & d' & eav_d & eav_sheets & Hrun & Hconv & Hget & Hrows).
  vm_compute in Hrun. injection Hrun as <- <-.
  vm_compute in Hconv. injection Hconv as <-.
  vm_compute in Hget. injection Hget as <-.
  specialize (Hrows 0 0 _ eq_refl eq_refl).
  vm_compute in Hrows. discriminate.
Qed.

(** ** C7: the writer's loop header *)

Lemma write_sheets_labels (name : pyval) (i : nat) (cols : list string)
    (written : list csv_file) :
  write_sheets name i (map VStr cols) written
  = (written, match cols with [] => Ok tt | _ => Raise AttributeError end).
Proof. by destruct cols. Qed.

Lemma unpack2_sheet_list (sheets : list DataFrame) :
  unpack2 (VList (map VFrame sheets))
  = match sheets with
    | [a; b] => Ok (VFrame a, VFrame b)
    | _ => Raise ValueError
    end.
Proof. by destruct sheets as [|a [|b [|c sheets]]]. Qed.

Lemma unpack2_not_two (sheets : list DataFrame) :
  length sheets <> 2 -> unpack2 (VList (map VFrame sheets)) = Raise ValueError.
Proof.
  rewrite unpack2_sheet_list.
  by destruct sheets as [|a [|b [|c sheets]]].
Qed.

(** On plain sheet lists the loop never reaches a [to_csv] of a frame:
    nothing is written, whatever the lengths of the lists. *)
Lemma write_loop_sheet_lists (d : dict (list DataFrame))
    (written : list csv_file) :
  (write_loop (dict_values (sheet_lists d)) written).1 = written.
Proof.
  induction d as [|[f sheets] d IH]; simpl; [done|].
  rewrite unpack2_sheet_list.
  destruct sheets as [|a [|b [|c sheets]]]; try done.
  simpl. rewrite write_sheets_labels.
  destruct (columns b); [exact IH | done].
Qed.

Lemma write_loop_raises (d : dict (list DataFrame)) (written : list csv_file) :
  Exists (fun kv => length kv.2 <> 2) d ->
  exists e, (write_loop (dict_values (sheet_lists d)) written).2 = Raise e.
Proof.
  induction 1 as [[f sheets] d Hlen | [f sheets] d _ IH]; simpl in *.
  - rewrite unpack2_not_two by done. by exists ValueError.
  - rewrite unpack2_sheet_list.
    destruct sheets as [|a [|b [|c sheets]]];
      try (by exists ValueError).
    simpl. rewrite write_sheets_labels.
    destruct (columns b); [exact IH | by exists AttributeError].
Qed.

(** C7. [write_data] unpacks every value of the collection into
    [(name, sheet_list)].  On a collection whose values are plain sheet
    lists, a value that is not a two-element list makes this unpacking
    fail with a [ValueError]; whenever the collection has such a value
    the call ends in an exception and has written no file. *)
Theorem write_data_sheet_lists (d : dict (list DataFrame))
    (f : string) (sheets : list DataFrame) :
  (f, sheets) ∈ d ->
  length sheets <> 2 ->
  unpack2 (VList (map VFrame sheets)) = Raise ValueError /\
  exists e, write_data (sheet_lists d) = ([], Raise e).
Proof.
  intros Hin Hlen. split; [by apply unpack2_not_two|].
  destruct (write_loop_raises d []) as [e He].
  { apply Exists_exists. by exists (f, sheets). }
  exists e. unfold write_data.
  pose proof (write_loop_sheet_lists d []) as Hw.
  destruct (write_loop _ _) as [w o]. simpl in *. by subst.
Qed.

Lemma write_data_sheet_lists_witness :
  ("File_1_IMD.xlsx", [eav_sample]) ∈ [("File_1_IMD.xlsx", [eav_sample])] /\
  length [eav_sample] <> 2 /\
  unpack2 (VList (map VFrame [eav_sample])) = Raise ValueError /\
  exists e,
    write_data (sheet_lists [("File_1_IMD.xlsx", [eav_sample])])
    = ([], Raise e).
Proof.
  assert (("File_1_IMD.xlsx", [eav_sample])
          ∈ [("File_1_IMD.xlsx", [eav_sample])]) as H1 by left.
  assert (length [eav_sample] <> 2) as H2 by (simpl; lia).
  refine (conj H1 (conj H2 _)).
  exact (write_data_sheet_lists _ _ _ H1 H2).
Defined.

(** A two-sheet workbook passes the unpacking; the loop then iterates
    the second frame, which yields its column labels, and a label has no
    [to_csv]. *)
Example write_data_two_sheets :
  write_data (sheet_lists [("File_1_IMD.xlsx", [eav_sample; eav_sample])])
  = ([], Raise AttributeError).
Proof. done. Qed.

(** ** C6: what the writer writes *)

Lemma write_sheets_frames (name : pyval) (i : nat) (frames : list DataFrame)
    (written : list csv_file) :
  write_sheets name i (map VFrame frames) written
  = (written ++
     imap (fun k df => mkCsv (i + k) name (to_csv false true df)) frames,
     Ok tt).
Proof.
  revert i written. induction frames as [|df frames IH]; intros i written.
  - simpl. by rewrite app_nil_r.
  - simpl. rewrite IH, <- app_assoc. simpl.
    rewrite Nat.add_0_r. do 3 f_equal.
    apply imap_ext. intros k df' _. simpl. f_equal. lia.
Qed.

Lemma write_loop_pairs (d : dict (string * list DataFrame))
    (written : list csv_file) :
  write_loop (dict_values (name_sheet_pairs d)) written
  = (written ++
     flat_map (fun kv =>
                 imap (fun k df => mkCsv k (VStr kv.2.1) (to_csv false true df))
                      kv.2.2) d,
     Ok tt).
Proof.
  revert written. induction d as [|[f [name frames]] d IH]; intros written.
  - simpl. by rewrite app_nil_r.
  - simpl. rewrite write_sheets_frames, IH. simpl.
    by rewrite <- app_assoc.
Qed.

(** With [header=False] and the default [index=True], a file has no
    header record and each record starts with the row's index label. *)
Lemma to_csv_default_index (df : DataFrame) :
  to_csv false true df = imap (fun i r => Num (Z.of_nat i) :: r) (rows df).
Proof. done. Qed.

Lemma to_csv_no_index (df : DataFrame) : to_csv false false df = rows df.
Proof.
  unfold to_csv. simpl. generalize (rows df). intros rs.
  rewrite <- (list_fmap_id rs) at 2. rewrite <- imap_const.
  done.
Qed.

(** On a collection of (name, sheet_list) pairs the writer writes one
    file per sheet, in order, for the sheet's position and the pair's
    name. *)
Lemma write_data_pairs (d : dict (string * list DataFrame)) :
  write_data (name_sheet_pairs d)
  = (flat_map (fun kv =>
                 imap (fun k df => mkCsv k (VStr kv.2.1) (to_csv false true df))
                      kv.2.2) d,
     Ok tt).
Proof. unfold write_data. by rewrite write_loop_pairs. Qed.

(** The sibling writer leaves the index column out: the records of the
    master file are the rows of the master table. *)
Lemma write_lookups_no_index (master_lookup : DataFrame)
    (bridge_tables : list DataFrame) :
  ProcessLookupTable.write_lookups master_lookup bridge_tables !! 0
  = Some ("MasterLookUp.csv", rows master_lookup).
Proof.
  unfold ProcessLookupTable.write_lookups. simpl.
  by rewrite to_csv_no_index.
Qed.

(** C6, evaluated.  For the sample pair the writer writes one file,
    named "0_File_10_Summaries.xlsx", without a header record; but its
    records start with the index labels 0 and 1: the index column is
    written, where the claim (and the sibling [write_lookups], which
    passes [index=False]) leaves it out. *)
Theorem write_data_index_column :
  write_data (name_sheet_pairs pairs_sample)
  = ([mkCsv 0 (VStr "File_10_Summaries.xlsx")
        [[Num 0; Str "E09000001"; Str "City of London"; Str "Rank"; Num 3];
         [Num 1; Str "E09000002"; Str "Barking and Dagenham"; Str "Rank";
          Num 21]]],
     Ok tt) /\
  map csv_basename (write_data (name_sheet_pairs pairs_sample)).1
  = [Some "0_File_10_Summaries.xlsx"] /\
  map csv_records (write_data (name_sheet_pairs pairs_sample)).1
  <> [to_csv false false eav_sample].
Proof. split; [done|]. split; [done|]. by vm_compute. Qed.

(** ** C8: what the loader keeps *)

Lemma dict_get_set_eq {V} (d : dict V) (k : string) (v : V) :
  dict_get (dict_set d k v) k = Some v.
Proof.
  induction d as [|[k' v'] d IH]; simpl.
  - by rewrite decide_True.
  - destruct (decide (k' = k)) as [->|Hne]; simpl.
    + by rewrite decide_True.
    + by rewrite decide_False.
Qed.

Lemma dict_get_set_ne {V} (d : dict V) (k k' : string) (v : V) :
  k <> k' -> dict_get (dict_set d k v) k' = dict_get d k'.
Proof.
  intros Hne. induction d as [|[k0 v0] d IH]; simpl.
  - by rewrite decide_False.
  - destruct (decide (k0 = k)) as [->|Hne0]; simpl.
    + by rewrite !decide_False.
    + destruct (decide (k0 = k')); [done | exact IH].
Qed.

Lemma pop_if_present_filter {V} (df : dict V) (name : string) :
  pop_if_present df name = filter (fun kv => kv.1 <> name) df.
Proof.
  unfold pop_if_present, dict_pop.
  destruct (decide (name ∈ dict_keys df)) as [|Hn]; [done|].
  induction df as [|[k v] df IH]; [done|].
  simpl in Hn. apply not_elem_of_cons in Hn as [Hne Hn].
  rewrite filter_cons, decide_True by (simpl; congruence).
  by rewrite <- IH.
Qed.

Lemma alloc_sheets_ok (sheets : dict DataFrame) (st : state) :
  exists st' df,
    alloc_sheets sheets st = (st', Ok df) /\
    next_ref st <= next_ref st' /\
    (forall r, r < next_ref st -> store st' r = store st r) /\
    holds st' (next_ref st) (next_ref st') sheets df.
Proof.
  revert st. induction sheets as [|[name frame] sheets IH]; intros st.
  - exists st, []. simpl. run. repeat split; [lia | constructor].
  - set (st1 := mkState (S (next_ref st)) (<[next_ref st := frame]> (store st))).
    destruct (IH st1) as (st' & df & Hrun & Hle & Hold & Hh).
    exists st', ((name, next_ref st) :: df). simpl. run.
    fold st1. rewrite Hrun. simpl in *.
    split; [done|]. split; [lia|]. split.
    + intros r Hr. rewrite Hold by lia.
      apply fn_lookup_insert_ne. lia.
    + constructor.
      * simpl. split; [done|]. split; [|lia].
        rewrite Hold by lia. apply fn_lookup_insert.
      * eapply Forall2_impl; [exact Hh|].
        simpl. intros kv kr (? & ? & ?). repeat split; [done..|lia|lia].
Qed.

Lemma holds_filter (st : state) (lo hi : ref) (sheets : dict DataFrame)
    (df : dict ref) (P : string -> Prop) `{!forall k, Decision (P k)} :
  holds st lo hi sheets df ->
  holds st lo hi (filter (fun kv => P kv.1) sheets)
                 (filter (fun kr => P kr.1) df).
Proof.
  induction 1 as [|kv kr sheets df (Hk & Hs & Hr) _ IH]; [constructor|].
  rewrite !filter_cons. rewrite Hk.
  destruct (decide (P kv.1)); [|done].
  constructor; [|done]. by rewrite Hk.
Qed.

Lemma holds_values (st : state) (lo hi : ref) (sheets : dict DataFrame)
    (df : dict ref) :
  holds st lo hi sheets df ->
  map (store st) (dict_values df) = dict_values sheets /\
  Forall (fun r => lo <= r < hi) (dict_values df).
Proof.
  induction 1 as [|kv kr sheets df (Hk & Hs & Hr) _ [IH1 IH2]]; [done|].
  simpl. rewrite Hs, IH1. split; [done|]. by constructor.
Qed.

Lemma data_sheets_pops (sheets : dict DataFrame) :
  pop_if_present (pop_if_present sheets "Notes") "Terms & Conditions"
  = data_sheets sheets.
Proof.
  rewrite !pop_if_present_filter, list_filter_filter.
  apply list_filter_iff. intros kv. tauto.
Qed.

Section loader_properties.
Variable read_excel : string -> result (dict DataFrame).

Lemma read_loop_ok (files : list string) (sd : dict (list ref)) (st : state) :
  Forall (fun f => endswith f ".xlsx" = true ->
                   exists sheets, read_excel f = Ok sheets) files ->
  exists st' sd',
    read_loop read_excel files sd st = (st', Ok sd') /\
    next_ref st <= next_ref st' /\
    (forall r, r < next_ref st -> store st' r = store st r) /\
    (forall f, f ∉ files -> dict_get sd' f = dict_get sd f) /\
    (forall f sheets,
       f ∈ files -> endswith f ".xlsx" = true -> read_excel f = Ok sheets ->
       exists refs,
         dict_get sd' f = Some refs /\
         map (store st') refs = dict_values (data_sheets sheets)).
Proof.
  revert sd st. induction files as [|file files IH]; intros sd st Hall.
  - exists st, sd. simpl. run. repeat split; try done.
    intros f sheets Hf. by apply elem_of_nil in Hf.
  - apply Forall_cons in Hall as [Hfile Hall]. simpl.
    destruct (endswith file ".xlsx") eqn:Hx.
    + destruct (Hfile eq_refl) as [sheets Hread].
      destruct (alloc_sheets_ok sheets st) as (st1 & df & Hrun1 & Hle1 & Hold1 & Hh).
      apply (holds_filter _ _ _ _ _ (fun k => k <> "Notes")) in Hh.
      apply (holds_filter _ _ _ _ _ (fun k => k <> "Terms & Conditions")) in Hh.
      cbv beta in Hh. rewrite <- !pop_if_present_filter in Hh.
      rewrite data_sheets_pops in Hh.
      apply holds_values in Hh as [Hvals Hrange].
      set (sheet_list :=
             dict_values (pop_if_present (pop_if_present df "Notes")
                                         "Terms & Conditions")) in *.
      destruct (IH (dict_set sd file sheet_list) st1 Hall)
        as (st' & sd' & Hrun & Hle & Hold & Hout & Hin).
      exists st', sd'. run. rewrite Hread. simpl. rewrite Hrun1.
      split; [exact Hrun|]. split; [lia|]. split.
      { intros r Hr. rewrite Hold by lia. by apply Hold1. }
      split.
      { intros f Hf. apply not_elem_of_cons in Hf as [Hne Hf].
        rewrite (Hout f Hf). by apply dict_get_set_ne. }
      intros f sheets' Hf Hfx Hread'.
      destruct (decide (f ∈ files)) as [Hfiles|Hfiles];
        [by eapply Hin|].
      apply elem_of_cons in Hf as [->|Hf]; [|done].
      exists sheet_list. rewrite (Hout file Hfiles), dict_get_set_eq.
      split; [done|].
      rewrite Hread in Hread'. injection Hread' as <-.
      rewrite <- Hvals.
      apply map_ext_Forall. eapply Forall_impl; [exact Hrange|].
      simpl. intros r Hr. apply Hold. lia.
    + destruct (IH sd st Hall) as (st' & sd' & Hrun & Hle & Hold & Hout & Hin).
      exists st', sd'. split; [exact Hrun|]. split; [done|]. split; [done|].
      split.
      { intros f Hf. apply not_elem_of_cons in Hf as [_ Hf]. by apply Hout. }
      intros f sheets Hf Hfx Hread.
      apply elem_of_cons in Hf as [->|Hf]; [congruence|].
      by eapply Hin.
Qed.

End loader_properties.

Lemma data_sheets_unchanged (sheets : dict DataFrame) :
  "Notes" ∉ dict_keys sheets -> "Terms & Conditions" ∉ dict_keys sheets ->
  data_sheets sheets = sheets.
Proof.
  intros Hn Ht. unfold data_sheets.
  induction sheets as [|[k v] sheets IH]; [done|].
  simpl in Hn, Ht.
  apply not_elem_of_cons in Hn as [Hn1 Hn], Ht as [Ht1 Ht].
  rewrite filter_cons, decide_True by (simpl; split; congruence).
  by rewrite IH.
Qed.

(** C8. When every workbook of the directory can be read, the loader
    returns a collection (no error) in which each workbook is listed
    under its file name with exactly its sheets other than "Notes" and
    "Terms & Conditions", in the workbook's order; a workbook that has
    neither sheet is listed with all its sheets, unchanged. *)
Theorem read_imd_data_excludes (listdir : list string)
    (read_excel : string -> result (dict DataFrame)) (st : state)
    (file : string) (sheets : dict DataFrame) :
  Forall (fun f => endswith f ".xlsx" = true ->
                   exists sheets, read_excel f = Ok sheets) listdir ->
  file ∈ listdir ->
  endswith file ".xlsx" = true ->
  read_excel file = Ok sheets ->
  exists st' d refs,
    read_imd_data listdir read_excel st = (st', Ok d) /\
    dict_get d file = Some refs /\
    map (store st') refs = dict_values (data_sheets sheets) /\
    (forall name frame, (name, frame) ∈ data_sheets sheets <->
       (name, frame) ∈ sheets /\ name <> "Notes" /\
       name <> "Terms & Conditions") /\
    ("Notes" ∉ dict_keys sheets -> "Terms & Conditions" ∉ dict_keys sheets ->
     map (store st') refs = dict_values sheets).
Proof.
  intros Hall Hfile Hx Hread.
  destruct (read_loop_ok read_excel listdir [] st Hall)
    as (st' & d & Hrun & _ & _ & _ & Hin).
  destruct (Hin file sheets Hfile Hx Hread) as (refs & Hget & Hvals).
  exists st', d, refs. split; [exact Hrun|]. split; [done|]. split; [done|].
  split.
  - intros name frame. unfold data_sheets.
    rewrite list_elem_of_filter. simpl. tauto.
  - intros Hn Ht. by rewrite Hvals, data_sheets_unchanged.
Qed.

Lemma read_imd_data_excludes_witness :
  Forall (fun f => endswith f ".xlsx" = true ->
                   exists sheets, sample_read_excel f = Ok sheets)
         sample_listdir /\
  "File_1_IMD.xlsx" ∈ sample_listdir /\
  endswith "File_1_IMD.xlsx" ".xlsx" = true /\
  sample_read_excel "File_1_IMD.xlsx"
  = Ok [("Notes", mkFrame ["Note"] [[Str "Source: MHCLG"]]);
        ("IMD2019", lsoa_sheet)] /\
  exists st' d refs,
    read_imd_data sample_listdir sample_read_excel sample_state
    = (st', Ok d) /\
    dict_get d "File_1_IMD.xlsx" = Some refs /\
    map (store st') refs
    = dict_values (data_sheets [("Notes", mkFrame ["Note"] [[Str "Source: MHCLG"]]);
                                ("IMD2019", lsoa_sheet)]) /\
    (forall name frame,
       (name, frame) ∈ data_sheets [("Notes", mkFrame ["Note"] [[Str "Source: MHCLG"]]);
                                    ("IMD2019", lsoa_sheet)] <->
       (name, frame) ∈ [("Notes", mkFrame ["Note"] [[Str "Source: MHCLG"]]);
                        ("IMD2019", lsoa_sheet)] /\
       name <> "Notes" /\ name <> "Terms & Conditions") /\
    ("Notes" ∉ dict_keys [("Notes", mkFrame ["Note"] [[Str "Source: MHCLG"]]);
                          ("IMD2019", lsoa_sheet)] ->
     "Terms & Conditions"
     ∉ dict_keys [("Notes", mkFrame ["Note"] [[Str "Source: MHCLG"]]);
                  ("IMD2019", lsoa_sheet)] ->
     map (store st') refs
     = dict_values [("Notes", mkFrame ["Note"] [[Str "Source: MHCLG"]]);
                    ("IMD2019", lsoa_sheet)]).
Proof.
  assert (Forall (fun f => endswith f ".xlsx" = true ->
                           exists sheets, sample_read_excel f = Ok sheets)
                 sample_listdir) as H1.
  { apply Forall_forall. intros f _ _. unfold sample_read_excel.
    destruct (decide (f = "File_1_IMD.xlsx")); eauto. }
  assert ("File_1_IMD.xlsx" ∈ sample_listdir) as H2 by left.
  assert (endswith "File_1_IMD.xlsx" ".xlsx" = true) as H3 by done.
  assert (sample_read_excel "File_1_IMD.xlsx"
          = Ok [("Notes", mkFrame ["Note"] [[Str "Source: MHCLG"]]);
                ("IMD2019", lsoa_sheet)]) as H4 by done.
  refine (conj H1 (conj H2 (conj H3 (conj H4 _)))).
  exact (read_imd_data_excludes sample_listdir sample_read_excel sample_state
           "File_1_IMD.xlsx" _ H1 H2 H3 H4).
Defined.

Example read_imd_data_sample :
  (read_imd_data sample_listdir sample_read_excel sample_state).2
  = Ok [("File_1_IMD.xlsx", [6]); ("File_10_Summaries.xlsx", [7])] /\
  store (read_imd_data sample_listdir sample_read_excel sample_state).1 6
  = lsoa_sheet.
Proof. by vm_compute. Qed.

(** ** C4: bridge tables *)

Import ProcessLookupTable.

Lemma locs_from_app (q : nat) (l1 l2 : list string) (c : string) :
  locs_from q (l1 ++ l2) c
  = locs_from q l1 c ++ locs_from (q + length l1) l2 c.
Proof.
  revert q. induction l1 as [|c' l1 IH]; intros q; simpl.
  - by rewrite Nat.add_0_r.
  - rewrite IH. replace (S q + length l1) with (q + S (length l1)) by lia.
    by destruct (decide (c' = c)).
Qed.

Lemma locs_from_replicate_same (q n : nat) (c : string) :
  locs_from q (replicate n c) c = seq q n.
Proof.
  revert q. induction n as [|n IH]; intros q; simpl; [done|].
  by rewrite decide_True, IH.
Qed.

Lemma locs_from_replicate_other (q n : nat) (c c' : string) :
  c <> c' -> locs_from q (replicate n c) c' = [].
Proof.
  intros Hne. revert q. induction n as [|n IH]; intros q; simpl; [done|].
  by rewrite decide_False, IH.
Qed.

Lemma locs_from_lookup (q : nat) (cols : list string) (c : string) (p : nat) :
  p ∈ locs_from q cols c <-> exists k, p = q + k /\ cols !! k = Some c.
Proof.
  revert q. induction cols as [|c' cols IH]; intros q; simpl.
  - split; [by intros ?%elem_of_nil | by intros (k & _ & ?)].
  - assert (p ∈ locs_from (S q) cols c <->
            exists k, p = q + S k /\ cols !! k = Some c) as IH'.
    { rewrite IH. split; intros (k & -> & Hk); exists k; split; (lia || done). }
    destruct (decide (c' = c)) as [->|Hne].
    + rewrite elem_of_cons, IH'. split.
      * intros [->|(k & -> & Hk)]; [exists 0 | exists (S k)];
          split; (lia || done).
      * intros ([|k] & -> & Hk); [left; lia | right; by exists k].
    + rewrite IH'. split.
      * intros (k & -> & Hk). by exists (S k).
      * intros ([|k] & -> & Hk); [simpl in Hk; congruence | by exists k].
Qed.

Lemma omap_get_locs (cols : list string) (c : string) :
  omap (fun p => cols !! p) (get_locs cols c)
  = replicate (length (get_locs cols c)) c.
Proof.
  assert (Forall (fun p => cols !! p = Some c) (get_locs cols c)) as H.
  { apply Forall_forall. intros p Hp.
    apply locs_from_lookup in Hp as (k & -> & Hk). done. }
  revert H. generalize (get_locs cols c). intros ps.
  induction 1 as [|p ps Hp _ IH]; [done|].
  cbn. rewrite Hp. cbn. by f_equal.
Qed.

Lemma get_locs_singleton (cols : list string) (c : string) (i : nat) :
  cols !! i = Some c -> length (get_locs cols c) = 1 -> get_locs cols c = [i].
Proof.
  intros Hi Hlen.
  assert (i ∈ get_locs cols c) as Hin
    by (apply locs_from_lookup; by exists i).
  destruct (get_locs cols c) as [|p [|p' ps]]; try done.
  by apply list_elem_of_singleton in Hin as ->.
Qed.

Lemma iloc_pair_column (lookup : DataFrame) (i j : nat) :
  column_values (iloc_columns lookup [i; j]) 0 = column_values lookup i /\
  column_values (iloc_columns lookup [i; j]) 1 = column_values lookup j.
Proof.
  unfold column_values, iloc_columns. simpl.
  split; rewrite map_map; by apply map_ext.
Qed.

Lemma dedup_table_shape (df t : DataFrame) (ci cj : string) (na nb : nat) :
  1 <= na -> 1 <= nb ->
  columns df = replicate na ci ++ replicate nb cj ->
  dedup_table df = Ok t ->
  na = 1 /\ nb = 1 /\
  frame_of_arrays "code" (unique (column_values df 0))
                  "name" (unique (column_values df 1)) = Ok t.
Proof.
  intros Hna Hnb Hcols.
  unfold dedup_table, column_unique, get_locs, index_getitem.
  rewrite Hcols.
  destruct na as [|[|na]], nb as [|[|nb]]; try lia; simpl;
    repeat (case_decide; simplify_eq/=); try done.
  by destruct (locs_from _ _ _).
Qed.

Lemma dedup_selected (lookup : DataFrame) (i j : nat) (ci cj : string)
    (t : DataFrame) :
  columns lookup !! i = Some ci ->
  columns lookup !! j = Some cj ->
  dedup_table
    (iloc_columns lookup (get_indexer_for (columns lookup) [ci; cj])) = Ok t ->
  get_indexer_for (columns lookup) [ci; cj] = [i; j] /\
  frame_of_arrays "code" (unique (column_values lookup i))
                  "name" (unique (column_values lookup j)) = Ok t.
Proof.
  intros Hi Hj. unfold get_indexer_for. simpl. rewrite app_nil_r.
  pose proof (omap_get_locs (columns lookup) ci) as Hca.
  pose proof (omap_get_locs (columns lookup) cj) as Hcb.
  pose proof (get_locs_singleton _ _ _ Hi) as Hsi.
  pose proof (get_locs_singleton _ _ _ Hj) as Hsj.
  assert (i ∈ get_locs (columns lookup) ci) as Hia
    by (apply locs_from_lookup; by exists i).
  assert (j ∈ get_locs (columns lookup) cj) as Hjb
    by (apply locs_from_lookup; by exists j).
  intros Ht.
  apply (dedup_table_shape _ _ ci cj
           (length (get_locs (columns lookup) ci))
           (length (get_locs (columns lookup) cj)))
    in Ht as (Ha & Hb & Ht).
  - rewrite (Hsi Ha), (Hsj Hb) in *. split; [done|].
    by destruct (iloc_pair_column lookup i j) as [<- <-].
  - destruct (get_locs (columns lookup) ci); [by apply elem_of_nil in Hia|].
    simpl. lia.
  - destruct (get_locs (columns lookup) cj); [by apply elem_of_nil in Hjb|].
    simpl. lia.
  - simpl. by rewrite omap_app, Hca, Hcb.
Qed.

Lemma frame_of_arrays_ok (k1 k2 : string) (v1 v2 : list cell) (t : DataFrame) :
  frame_of_arrays k1 v1 k2 v2 = Ok t ->
  columns t = [k1; k2] /\ length v1 = length v2 /\
  column_values t 0 = v1 /\ column_values t 1 = v2 /\
  length (rows t) = length v1.
Proof.
  unfold frame_of_arrays. case_decide as Hlen; [|done].
  intros [= <-]. split; [done|]. split; [done|].
  unfold column_values. simpl.
  assert (forall (v1 v2 : list cell), length v1 = length v2 ->
            map (fun r => cell_at r 0) (zip_with (fun a b => [a; b]) v1 v2) = v1 /\
            map (fun r => cell_at r 1) (zip_with (fun a b => [a; b]) v1 v2) = v2)
    as Hzip.
  { clear. induction v1 as [|a v1 IH]; intros [|b v2] Hlen; try done.
    simpl in *. destruct (IH v2) as [-> ->]; [lia | done]. }
  destruct (Hzip v1 v2 Hlen) as [-> ->].
  split; [done|]. split; [done|].
  rewrite length_zip_with. lia.
Qed.

Lemma split_loop_ok (lookup : DataFrame) (values : list (list nat))
    (dfs : list DataFrame) :
  split_loop lookup values = Ok dfs ->
  Forall2 (fun idx df =>
             exists labels, index_take (columns lookup) idx = Ok labels /\
                            frame_getitem lookup labels = Ok df)
          values dfs.
Proof.
  revert dfs. induction values as [|idx values IH]; intros dfs; simpl.
  - intros [= <-]. constructor.
  - destruct (index_take _ idx) as [labels|] eqn:E1; [|done]. simpl.
    destruct (frame_getitem lookup labels) as [df|] eqn:E2; [|done]. simpl.
    destruct (split_loop lookup values) as [rest|]; [|done]. simpl.
    intros [= <-]. constructor; [by exists labels | by apply IH].
Qed.

Lemma dedup_loop_ok (dfs ts : list DataFrame) :
  dedup_loop dfs = Ok ts ->
  Forall2 (fun df t => dedup_table df = Ok t) dfs ts.
Proof.
  revert ts. induction dfs as [|df dfs IH]; intros ts; simpl.
  - intros [= <-]. constructor.
  - destruct (dedup_table df) as [t|] eqn:E; [|done]. simpl.
    destruct (dedup_loop dfs) as [rest|]; [|done]. simpl.
    intros [= <-]. constructor; [done | by apply IH].
Qed.

Lemma bridge_table_ok (lookup : DataFrame) (i j : nat) (labels : list string)
    (df t : DataFrame) :
  index_take (columns lookup) [i; j] = Ok labels ->
  frame_getitem lookup labels = Ok df ->
  dedup_table df = Ok t ->
  frame_of_arrays "code" (unique (column_values lookup i))
                  "name" (unique (column_values lookup j)) = Ok t.
Proof.
  simpl. unfold index_getitem.
  destruct (columns lookup !! i) as [ci|] eqn:Hi; [|done].
  destruct (columns lookup !! j) as [cj|] eqn:Hj; [|done]. simpl.
  intros [= <-]. unfold frame_getitem. case_decide; [|done].
  intros [= <-] Ht. by apply (dedup_selected lookup i j ci cj t Hi Hj).
Qed.

(** C4. Every table that [create_bridge_tables] returns has the two
    columns "code" and "name".  Its code column is what is left of the
    master column at the first configured position when a value is kept
    where it occurs for the first time and nowhere else, and its name
    column is the same of the column at the second position, each on
    its own: neither column has a repeated value, and each holds
    exactly the values of its master column.  The row count is the
    maximum of the two numbers of unique values (which are equal
    whenever a table is produced: the frame is built from the two
    arrays, and arrays of different lengths raise). *)
Theorem create_bridge_tables_dedup (lookup_table : DataFrame)
    (tables : list DataFrame) :
  create_bridge_tables lookup_table = Ok tables ->
  length tables = 4 /\
  forall n t, tables !! n = Some t ->
    exists i j,
      dict_values bridge_table_index_dictionary !! n = Some [i; j] /\
      columns t = ["code"; "name"] /\
      column_values t 0 = first_occurrences (column_values lookup_table i) /\
      column_values t 1 = first_occurrences (column_values lookup_table j) /\
      NoDup (column_values t 0) /\
      NoDup (column_values t 1) /\
      (forall x, x ∈ column_values t 0 <-> x ∈ column_values lookup_table i) /\
      (forall x, x ∈ column_values t 1 <-> x ∈ column_values lookup_table j) /\
      length (rows t)
      = length (first_occurrences (column_values lookup_table i))
        `max` length (first_occurrences (column_values lookup_table j)) /\
      length (first_occurrences (column_values lookup_table i))
      = length (first_occurrences (column_values lookup_table j)).
Proof.
  unfold create_bridge_tables.
  destruct (split_loop _ _) as [dfs|] eqn:E1; [|done]. simpl.
  intros E2. apply split_loop_ok in E1. apply dedup_loop_ok in E2.
  split.
  { apply Forall2_length in E1, E2. by rewrite <- E2, <- E1. }
  intros n t Hn.
  destruct (Forall2_lookup_r _ _ _ _ _ E2 Hn) as (df & Hdf & Ht).
  destruct (Forall2_lookup_r _ _ _ _ _ E1 Hdf) as (idx & Hidx & labels & Hl & Hg).
  assert (exists i j, idx = [i; j]) as (i & j & ->).
  { destruct n as [|[|[|[|n]]]]; simpl in Hidx; simplify_eq; eauto. }
  exists i, j. split; [done|].
  pose proof (bridge_table_ok _ _ _ _ _ _ Hl Hg Ht) as Hf.
  apply frame_of_arrays_ok in Hf as (Hc & Hlen & H0 & H1 & Hr).
  rewrite H0, H1, Hr. rewrite <- !unique_first.
  split; [done|]. split; [done|]. split; [done|].
  split; [apply unique_NoDup|]. split; [apply unique_NoDup|].
  split; [apply unique_elem_of|]. split; [apply unique_elem_of|].
  split; [lia | done].
Qed.

Lemma create_bridge_tables_dedup_witness :
  create_bridge_tables master_sample = Ok bridges_sample /\
  length bridges_sample = 4 /\
  forall n t, bridges_sample !! n = Some t ->
    exists i j,
      dict_values bridge_table_index_dictionary !! n = Some [i; j] /\
      columns t = ["code"; "name"] /\
      column_values t 0 = first_occurrences (column_values master_sample i) /\
      column_values t 1 = first_occurrences (column_values master_sample j) /\
      NoDup (column_values t 0) /\
      NoDup (column_values t 1) /\
      (forall x, x ∈ column_values t 0 <-> x ∈ column_values master_sample i) /\
      (forall x, x ∈ column_values t 1 <-> x ∈ column_values master_sample j) /\
      length (rows t)
      = length (first_occurrences (column_values master_sample i))
        `max` length (first_occurrences (column_values master_sample j)) /\
      length (first_occurrences (column_values master_sample i))
      = length (first_occurrences (column_values master_sample j)).
Proof.
  assert (create_bridge_tables master_sample = Ok bridges_sample) as H
    by (by vm_compute).
  split; [exact H|].
  exact (create_bridge_tables_dedup master_sample bridges_sample H).
Defined.

(** First occurrences on a column with a repeated value. *)
Example first_occurrences_sample :
  first_occurrences [Str "b"; Str "a"; Str "b"; Null; Str "a"; Null]
  = [Str "b"; Str "a"; Null].
Proof. by vm_compute. Qed.

Example bridges_sample_tables :
  bridges_sample
  = [mkFrame ["code"; "name"]
       [[Str "E09000001"; Str "City of London"];
        [Str "E09000002"; Str "Barking and Dagenham"]];
     mkFrame ["code"; "name"]
       [[Str "E09000001"; Str "City of London"]; [Null; Null]];
     mkFrame ["code"; "name"] [[Str "E37000051"; Str "London"]];
     mkFrame ["code"; "name"]
       [[Str "E38000255"; Str "NHS North East London CCG"]; [Null; Null]]].
Proof. by vm_compute. Qed.

(** When a code column and its name column have different numbers of
    unique values, no table is produced: the frame constructor raises. *)
Example create_bridge_tables_unequal :
  create_bridge_tables
    (mkFrame (columns master_sample)
       (map (fun r => <[3 := Str "London"]> r) (rows master_sample)))
  = Raise ValueError.
Proof. by vm_compute. Qed.

(** ** C5: the master table *)

Lemma last_char_append (c : string) (a : ascii) (s : string) :
  last_char (c +:+ String a s) = last_char (String a s).
Proof.
  assert (forall b t, t <> "" -> last_char (String b t) = last_char t) as Hcons
    by (by intros b [|a' t] Ht).
  induction c as [|b c IH]; [done|].
  change (String b c +:+ String a s) with (String b (c +:+ String a s)).
  rewrite Hcons; [exact IH | by destruct c].
Qed.

Lemma suffixed_ne_key (c : string) :
  c +:+ "_x" <> "LSOA code (2011)" /\ c +:+ "_y" <> "LSOA code (2011)".
Proof.
  split; intros H; apply (f_equal last_char) in H;
    rewrite last_char_append in H; discriminate.
Qed.

Lemma locs_from_suffix_own (q : nat) (own other : list string)
    (sfx key : string) :
  key ∉ other -> (forall c, c +:+ sfx <> key) ->
  locs_from q (suffix_labels own other sfx) key = locs_from q own key.
Proof.
  intros Hk Hs. revert q. induction own as [|c own IH]; intros q; [done|].
  simpl. rewrite IH. 
  destruct (decide (c ∈ other)) as [Hc|Hc]; [|done].
  rewrite decide_False by apply Hs.
  rewrite decide_False; [done|]. by intros ->.
Qed.

Lemma locs_from_suffix_other (q : nat) (own other : list string)
    (sfx key : string) :
  key ∉ own -> (forall c, c +:+ sfx <> key) ->
  locs_from q (suffix_labels own other sfx) key = [].
Proof.
  intros Hk Hs. revert q. induction own as [|c own IH]; intros q; [done|].
  apply not_elem_of_cons in Hk as [Hne Hk].
  simpl. rewrite IH by done.
  destruct (decide (c ∈ other)).
  - by rewrite decide_False by apply Hs.
  - by rewrite decide_False.
Qed.

Lemma merged_key_locs (left right : list string) :
  "LSOA code (2011)" ∉ right ->
  get_locs (merged_labels left right) "LSOA code (2011)"
  = get_locs left "LSOA code (2011)".
Proof.
  intros Hk. unfold get_locs, merged_labels. rewrite locs_from_app.
  rewrite locs_from_suffix_own, locs_from_suffix_other;
    try done; try (intros c; apply suffixed_ne_key).
  by rewrite app_nil_r.
Qed.

Lemma suffix_clash_NoDup (own renamed : list string) :
  NoDup renamed -> suffix_clash own renamed = false.
Proof.
  intros Hnd. unfold suffix_clash.
  destruct (existsb _ _) eqn:E; [|done]. exfalso.
  apply existsb_exists in E as (p & _ & Hp).
  destruct (own !! p) as [o|]; [|done].
  destruct (renamed !! p) as [n|] eqn:Hn; [|done].
  apply andb_true_iff in Hp as [Hin _]. apply bool_decide_eq_true in Hin.
  apply list_elem_of_lookup in Hin as [q Hq].
  apply lookup_take_Some in Hq as [Hq Hlt].
  pose proof (NoDup_lookup _ _ _ _ Hnd Hq Hn). lia.
Qed.

Lemma merged_labels_NoDup (left right : list string) :
  NoDup (merged_labels left right) ->
  NoDup left /\
  suffix_clash left (suffix_labels left right "_x") = false /\
  suffix_clash right (suffix_labels right left "_y") = false.
Proof.
  unfold merged_labels. intros (Hl & _ & Hr)%NoDup_app.
  split; [by apply NoDup_fmap_1 in Hl|].
  split; by apply suffix_clash_NoDup.
Qed.

Lemma forallb_elem_ext (f : cell -> bool) (l l' : list cell) :
  (forall x, x ∈ l <-> x ∈ l') -> forallb f l = forallb f l'.
Proof.
  intros Hext. apply eq_true_iff_eq. rewrite !forallb_forall.
  split; intros H x Hx; apply H; apply list_elem_of_In;
    apply list_elem_of_In in Hx; by apply Hext.
Qed.

Lemma dtype_of_ext (l l' : list cell) :
  (l = [] <-> l' = []) -> (forall x, x ∈ l <-> x ∈ l') ->
  dtype_of l = dtype_of l'.
Proof.
  intros Hnil Hext. unfold dtype_of.
  rewrite (forallb_elem_ext is_int64 l l' Hext).
  rewrite (forallb_elem_ext is_int64_or_null l l' Hext).
  destruct l as [|c l], l' as [|c' l']; try done.
  - by destruct Hnil as [H _]; specialize (H eq_refl).
  - by destruct Hnil as [_ H]; specialize (H eq_refl).
Qed.

Lemma merge_keys_check_same (lk rk : list cell) :
  dtype_of lk = dtype_of rk -> merge_keys_check lk rk = Ok tt.
Proof.
  intros H. unfold merge_keys_check. rewrite H.
  destruct lk as [|c lk], rk as [|c' rk]; try done.
  by destruct (dtype_of (c' :: rk)).
Qed.

Lemma cell_at_app (r x : list cell) (k : nat) :
  k < length r -> cell_at (r ++ x) k = cell_at r k.
Proof. intros Hk. unfold cell_at. by rewrite lookup_app_l. Qed.

Lemma join_row_form (right : DataFrame) (lk rk : nat) (lrow : list cell) :
  join_row right lk rk lrow <> [] /\
  Forall (fun out => exists y, out = lrow ++ y) (join_row right lk rk lrow).
Proof.
  unfold join_row. destruct (filter _ (rows right)) as [|rrow ms].
  - split; [done|]. repeat constructor. by eexists.
  - split; [done|]. apply Forall_forall. intros out Hout.
    apply list_elem_of_fmap in Hout as (y & -> & _). by eexists.
Qed.

Lemma join_rows_key (right : DataFrame) (lk rk k : nat)
    (lrows : list (list cell)) :
  Forall (fun r => k < length r) lrows ->
  Forall (fun r => k < length r) (flat_map (join_row right lk rk) lrows) /\
  dtype_of (map (fun r => cell_at r k)
                (flat_map (join_row right lk rk) lrows))
  = dtype_of (map (fun r => cell_at r k) lrows).
Proof.
  intros Hlen.
  assert (forall out, out ∈ flat_map (join_row right lk rk) lrows ->
            exists lrow y, lrow ∈ lrows /\ out = lrow ++ y) as Hform.
  { intros out Hout.
    apply list_elem_of_In, in_flat_map in Hout as (lrow & Hlrow & Hout).
    apply list_elem_of_In in Hlrow, Hout.
    destruct (join_row_form right lk rk lrow) as [_ Hall].
    rewrite Forall_forall in Hall. destruct (Hall out Hout) as [y ->].
    by exists lrow, y. }
  rewrite Forall_forall in Hlen. split.
  - apply Forall_forall. intros out Hout.
    destruct (Hform out Hout) as (lrow & y & Hlrow & ->).
    rewrite length_app. specialize (Hlen lrow Hlrow). lia.
  - apply dtype_of_ext.
    + destruct lrows as [|lrow lrows]; [done|]. simpl.
      destruct (join_row_form right lk rk lrow) as [Hne _].
      destruct (join_row right lk rk lrow); [done|]. done.
    + intros x. rewrite !list_elem_of_fmap. split.
      * intros (out & -> & Hout).
        destruct (Hform out Hout) as (lrow & y & Hlrow & ->).
        exists lrow. split; [|done].
        apply cell_at_app. by apply Hlen.
      * intros (lrow & -> & Hlrow).
        destruct (join_row_form right lk rk lrow) as [Hne Hall].
        destruct (join_row right lk rk lrow) as [|out outs] eqn:E; [done|].
        apply Forall_cons in Hall as [[y ->] _].
        exists (lrow ++ y). split.
        -- symmetry. apply cell_at_app. by apply Hlen.
        -- apply list_elem_of_In, in_flat_map. exists lrow.
           split; [by apply list_elem_of_In|]. rewrite E. by left.
Qed.

Lemma merge_left_ok (left right : DataFrame) (left_on right_on : string)
    (lk rk : nat) :
  get_locs (columns left) left_on = [lk] ->
  get_locs (columns right) right_on = [rk] ->
  dtype_of (column_values left lk) = dtype_of (column_values right rk) ->
  NoDup (merged_labels (columns left) (columns right)) ->
  merge_left left right left_on right_on
  = Ok (mkFrame (merged_labels (columns left) (columns right))
                (flat_map (join_row right lk rk) (rows left))).
Proof.
  intros Hl Hr Hd Hnd. unfold merge_left, merge_key.
  rewrite Hl, Hr. cbn [rbind].
  rewrite merge_keys_check_same by done. cbn [rbind].
  destruct (merged_labels_NoDup _ _ Hnd) as (_ & -> & ->). done.
Qed.

Lemma join_rows_length (right : DataFrame) (lk rk : nat)
    (lrows : list (list cell)) :
  length lrows <= length (flat_map (join_row right lk rk) lrows).
Proof.
  induction lrows as [|lrow lrows IH]; simpl; [done|].
  rewrite length_app.
  assert (1 <= length (join_row right lk rk lrow)); [|lia].
  unfold join_row.
  destruct (filter _ _); simpl; lia.
Qed.

Lemma filter_key_unique {A} (f : A -> cell) (key : cell) (l : list A) :
  NoDup (map f l) -> length (filter (fun x => f x = key) l) <= 1.
Proof.
  induction l as [|x l IH]; simpl; [intros; simpl; lia|].
  intros [Hx Hnd]%NoDup_cons. rewrite filter_cons.
  destruct (decide (f x = key)) as [<-|]; [|by apply IH].
  assert (filter (fun y => f y = f x) l = []) as ->; [|simpl; lia].
  destruct (filter (fun y => f y = f x) l) as [|y l'] eqn:E; [done|].
  assert (y ∈ filter (fun y => f y = f x) l) as Hy by (rewrite E; left).
  apply list_elem_of_filter in Hy as [Hfy Hy].
  exfalso. apply Hx. rewrite <- Hfy. by apply list_elem_of_fmap_2.
Qed.

Lemma join_row_unique_key (right : DataFrame) (lk rk : nat) (lrow : list cell) :
  NoDup (column_values right rk) ->
  join_row right lk rk lrow = [lrow ++ right_part right rk (cell_at lrow lk)].
Proof.
  intros Hnd. unfold join_row, right_part.
  pose proof (filter_key_unique (fun r => cell_at r rk) (cell_at lrow lk)
                (rows right) Hnd) as Hlen.
  destruct (filter _ (rows right)) as [|rrow [|rrow' ms]]; simpl in *;
    [done | done | lia].
Qed.

Lemma join_rows_unique_key (right : DataFrame) (lk rk : nat)
    (lrows : list (list cell)) :
  NoDup (column_values right rk) ->
  flat_map (join_row right lk rk) lrows
  = map (fun lrow => lrow ++ right_part right rk (cell_at lrow lk)) lrows.
Proof.
  intros Hnd. induction lrows as [|lrow lrows IH]; [done|].
  simpl. by rewrite join_row_unique_key, IH.
Qed.

Lemma right_part_unmatched (right : DataFrame) (rk : nat) (key : cell) :
  key ∉ column_values right rk ->
  right_part right rk key = replicate (length (columns right)) Null.
Proof.
  intros Hk. unfold right_part.
  destruct (filter _ (rows right)) as [|rrow ms] eqn:E; [done|].
  assert (rrow ∈ filter (fun r => cell_at r rk = key) (rows right)) as Hr
    by (rewrite E; left).
  apply list_elem_of_filter in Hr as [Hkey Hr].
  exfalso. apply Hk. rewrite <- Hkey.
  by apply (list_elem_of_fmap_2 (fun r => cell_at r rk)).
Qed.

Lemma get_locs_in_range (cols : list string) (c : string) (k : nat) :
  get_locs cols c = [k] -> k < length cols.
Proof.
  intros H.
  assert (k ∈ get_locs cols c) as Hk by (rewrite H; left).
  apply locs_from_lookup in Hk as (k' & -> & Hk').
  by apply lookup_lt_Some in Hk'.
Qed.

(** C5 (amended). For a lookup collection that contains the four named
    files, whose District table is rectangular and has exactly one
    column labelled "LSOA code (2011)", whose DistrictUT, LEP and CCG
    tables each have exactly one column labelled "LSOA11CD" (the
    DistrictUT and LEP tables having none labelled "LSOA code (2011)"),
    whose four key columns are of one dtype, and whose labels, with the
    suffixes of the three joins, are pairwise distinct in the master
    table, [create_master] returns the result of three left joins in
    the fixed order District, DistrictUT, LEP, CCG on those columns.
    The master table has at least as many rows as the District table.
    When no code occurs twice in the key column of a right-hand table,
    it has exactly as many rows; and it then holds one row per District
    row, in order, made of that row followed by, for each right-hand
    table in turn, the cells of the matching row, or nulls where no row
    matches, provided that the joins convert no cell of the right-hand
    tables (every code finds a row, or the table has no int64 column,
    which a filled-in null would turn into float64). *)
Theorem create_master_left_joins (d : dict DataFrame)
    (district district_ut lep ccg : DataFrame) (k ku kl kc : nat) :
  dict_get d "LSOA_District_lookup.csv" = Some district ->
  dict_get d "LSOA_DistrictUT_lookup.csv" = Some district_ut ->
  dict_get d "LSOA_LEP_lookup.csv" = Some lep ->
  dict_get d "LSOA_CCG_lookup.csv" = Some ccg ->
  frame_wf district ->
  get_locs (columns district) "LSOA code (2011)" = [k] ->
  get_locs (columns district_ut) "LSOA11CD" = [ku] ->
  get_locs (columns lep) "LSOA11CD" = [kl] ->
  get_locs (columns ccg) "LSOA11CD" = [kc] ->
  "LSOA code (2011)" ∉ columns district_ut ->
  "LSOA code (2011)" ∉ columns lep ->
  dtype_of (column_values district k)
  = dtype_of (column_values district_ut ku) ->
  dtype_of (column_values district k) = dtype_of (column_values lep kl) ->
  dtype_of (column_values district k) = dtype_of (column_values ccg kc) ->
  NoDup (merged_labels
           (merged_labels
              (merged_labels (columns district) (columns district_ut))
              (columns lep))
           (columns ccg)) ->
  exists df_join_one df_join_two master,
    merge_left district district_ut "LSOA code (2011)" "LSOA11CD"
    = Ok df_join_one /\
    merge_left df_join_one lep "LSOA code (2011)" "LSOA11CD"
    = Ok df_join_two /\
    merge_left df_join_two ccg "LSOA code (2011)" "LSOA11CD" = Ok master /\
    create_master d = Ok master /\
    length (rows district) <= length (rows master) /\
    (NoDup (column_values district_ut ku) ->
     NoDup (column_values lep kl) ->
     NoDup (column_values ccg kc) ->
     length (rows master) = length (rows district) /\
     (join_keeps_cells district_ut ku (column_values district k) ->
      join_keeps_cells lep kl (column_values district k) ->
      join_keeps_cells ccg kc (column_values district k) ->
      rows master
      = map (fun row =>
               ((row ++ right_part district_ut ku (cell_at row k))
                     ++ right_part lep kl (cell_at row k))
                     ++ right_part ccg kc (cell_at row k))
            (rows district))) /\
    (forall right rk key,
       key ∉ column_values right rk ->
       right_part right rk key = replicate (length (columns right)) Null).
Proof.
  intros HD HU HL HC Hwf Hk Hku Hkl Hkc HnU HnL HdU HdL HdC Hnd3.
  pose proof (merged_labels_NoDup _ _ Hnd3) as (Hnd2 & _).
  pose proof (merged_labels_NoDup _ _ Hnd2) as (Hnd1 & _).
  assert (Forall (fun r => k < length r) (rows district)) as Hlen0.
  { apply get_locs_in_range in Hk.
    eapply Forall_impl; [exact Hwf|]. simpl. intros r ->. done. }
  pose proof (merge_left_ok district district_ut _ _ k ku Hk Hku HdU Hnd1)
    as Hm1.
  set (j1 := mkFrame _ _) in Hm1.
  destruct (join_rows_key district_ut k ku k (rows district) Hlen0)
    as [Hlen1 Hdt1].
  assert (get_locs (columns j1) "LSOA code (2011)" = [k]) as Hk1
    by (simpl; by rewrite merged_key_locs).
  assert (dtype_of (column_values j1 k) = dtype_of (column_values lep kl))
    as HdL1 by (etrans; [exact Hdt1 | exact HdL]).
  pose proof (merge_left_ok j1 lep _ _ k kl Hk1 Hkl HdL1 Hnd2) as Hm2.
  set (j2 := mkFrame _ _) in Hm2.
  destruct (join_rows_key lep k kl k (rows j1) Hlen1) as [Hlen2 Hdt2].
  assert (get_locs (columns j2) "LSOA code (2011)" = [k]) as Hk2
    by (simpl; by rewrite merged_key_locs).
  assert (dtype_of (column_values j2 k) = dtype_of (column_values ccg kc))
    as HdC2.
  { etrans; [|exact HdC]. etrans; [exact Hdt2 | exact Hdt1]. }
  pose proof (merge_left_ok j2 ccg _ _ k kc Hk2 Hkc HdC2 Hnd3) as Hm3.
  set (m := mkFrame _ _) in Hm3.
  exists j1, j2, m.
  split; [done|]. split; [done|]. split; [done|]. split.
  { unfold create_master, dict_getitem.
    rewrite HD, HU. simpl. rewrite Hm1. simpl.
    rewrite HL. simpl. rewrite Hm2. simpl.
    rewrite HC. simpl. by rewrite Hm3. }
  split.
  { simpl. etrans; [apply (join_rows_length district_ut k ku)|].
    etrans; [apply (join_rows_length lep k kl)|].
    apply (join_rows_length ccg k kc). }
  split; [|apply right_part_unmatched].
  intros NU NL NC.
  assert (rows m
          = map (fun row =>
                   ((row ++ right_part district_ut ku (cell_at row k))
                         ++ right_part lep kl (cell_at row k))
                         ++ right_part ccg kc (cell_at row k))
                (rows district)) as Hrows.
  { simpl. rewrite !join_rows_unique_key by done.
    rewrite !map_map. apply map_ext_Forall.
    eapply Forall_impl; [exact Hwf|]. intros row Hrow. simpl in Hrow.
    apply get_locs_in_range in Hk.
    rewrite !cell_at_app; [done | lia | rewrite length_app; lia | lia]. }
  split; [by rewrite Hrows, length_map | done].
Qed.

Lemma create_master_left_joins_witness :
  dict_get lookups_sample "LSOA_District_lookup.csv" = Some district_sample /\
  dict_get lookups_sample "LSOA_DistrictUT_lookup.csv"
  = Some district_ut_sample /\
  dict_get lookups_sample "LSOA_LEP_lookup.csv" = Some lep_sample /\
  dict_get lookups_sample "LSOA_CCG_lookup.csv" = Some ccg_sample /\
  frame_wf district_sample /\
  get_locs (columns district_sample) "LSOA code (2011)" = [0] /\
  get_locs (columns district_ut_sample) "LSOA11CD" = [0] /\
  get_locs (columns lep_sample) "LSOA11CD" = [0] /\
  get_locs (columns ccg_sample) "LSOA11CD" = [0] /\
  ("LSOA code (2011)" ∉ columns district_ut_sample) /\
  ("LSOA code (2011)" ∉ columns lep_sample) /\
  dtype_of (column_values district_sample 0)
  = dtype_of (column_values district_ut_sample 0) /\
  dtype_of (column_values district_sample 0)
  = dtype_of (column_values lep_sample 0) /\
  dtype_of (column_values district_sample 0)
  = dtype_of (column_values ccg_sample 0) /\
  NoDup (merged_labels
           (merged_labels
              (merged_labels (columns district_sample)
                             (columns district_ut_sample))
              (columns lep_sample))
           (columns ccg_sample)) /\
  NoDup (column_values district_ut_sample 0) /\
  NoDup (column_values lep_sample 0) /\
  NoDup (column_values ccg_sample 0) /\
  join_keeps_cells district_ut_sample 0 (column_values district_sample 0) /\
  join_keeps_cells lep_sample 0 (column_values district_sample 0) /\
  join_keeps_cells ccg_sample 0 (column_values district_sample 0) /\
  exists master,
    create_master lookups_sample = Ok master /\
    length (rows district_sample) <= length (rows master) /\
    length (rows master) = length (rows district_sample) /\
    rows master
    = map (fun row =>
             ((row ++ right_part district_ut_sample 0 (cell_at row 0))
                   ++ right_part lep_sample 0 (cell_at row 0))
                   ++ right_part ccg_sample 0 (cell_at row 0))
          (rows district_sample).
Proof.
  assert (dict_get lookups_sample "LSOA_District_lookup.csv"
          = Some district_sample) as H1 by done.
  assert (dict_get lookups_sample "LSOA_DistrictUT_lookup.csv"
          = Some district_ut_sample) as H2 by done.
  assert (dict_get lookups_sample "LSOA_LEP_lookup.csv" = Some lep_sample)
    as H3 by done.
  assert (dict_get lookups_sample "LSOA_CCG_lookup.csv" = Some ccg_sample)
    as H4 by done.
  assert (frame_wf district_sample) as H5
    by (by apply (bool_decide_unpack _); vm_compute).
  assert (get_locs (columns district_sample) "LSOA code (2011)" = [0])
    as H6 by done.
  assert (get_locs (columns district_ut_sample) "LSOA11CD" = [0]) as H7 by done.
  assert (get_locs (columns lep_sample) "LSOA11CD" = [0]) as H8 by done.
  assert (get_locs (columns ccg_sample) "LSOA11CD" = [0]) as H9 by done.
  assert ("LSOA code (2011)" ∉ columns district_ut_sample) as H10
    by (by apply (bool_decide_unpack _); vm_compute).
  assert ("LSOA code (2011)" ∉ columns lep_sample) as H11
    by (by apply (bool_decide_unpack _); vm_compute).
  assert (dtype_of (column_values district_sample 0)
          = dtype_of (column_values district_ut_sample 0)) as D1
    by (by vm_compute).
  assert (dtype_of (column_values district_sample 0)
          = dtype_of (column_values lep_sample 0)) as D2 by (by vm_compute).
  assert (dtype_of (column_values district_sample 0)
          = dtype_of (column_values ccg_sample 0)) as D3 by (by vm_compute).
  assert (NoDup (merged_labels
                   (merged_labels
                      (merged_labels (columns district_sample)
                                     (columns district_ut_sample))
                      (columns lep_sample))
                   (columns ccg_sample))) as L
    by (by apply (bool_decide_unpack _); vm_compute).
  assert (NoDup (column_values district_ut_sample 0)) as H12
    by (by apply (bool_decide_unpack _); vm_compute).
  assert (NoDup (column_values lep_sample 0)) as H13
    by (by apply (bool_decide_unpack _); vm_compute).
  assert (NoDup (column_values ccg_sample 0)) as H14
    by (by apply (bool_decide_unpack _); vm_compute).
  assert (join_keeps_cells district_ut_sample 0
            (column_values district_sample 0)) as K1
    by (by apply (bool_decide_unpack _); vm_compute).
  assert (join_keeps_cells lep_sample 0 (column_values district_sample 0))
    as K2 by (by apply (bool_decide_unpack _); vm_compute).
  assert (join_keeps_cells ccg_sample 0 (column_values district_sample 0))
    as K3 by (by apply (bool_decide_unpack _); vm_compute).
  destruct (create_master_left_joins lookups_sample district_sample
              district_ut_sample lep_sample ccg_sample 0 0 0 0
              H1 H2 H3 H4 H5 H6 H7 H8 H9 H10 H11 D1 D2 D3 L)
    as (j1 & j2 & master & _ & _ & _ & Hm & Hge & Heq & _).
  destruct (Heq H12 H13 H14) as [Hlen Hrows].
  refine
    (conj H1 (conj H2 (conj H3 (conj H4 (conj H5 (conj H6 (conj H7
    (conj H8 (conj H9 (conj H10 (conj H11 (conj D1 (conj D2 (conj D3
    (conj L (conj H12 (conj H13 (conj H14 (conj K1 (conj K2 (conj K3
    _))))))))))))))))))))).
  exists master. exact (conj Hm (conj Hge (conj Hlen (Hrows K1 K2 K3)))).
Defined.

Example master_sample_rows :
  create_master lookups_sample = Ok master_sample /\
  length (columns master_sample) = 17 /\
  rows master_sample !! 2
  = Some [Str "E01000027"; Str "Barking and Dagenham 001A"; Str "E09000002";
          Str "Barking and Dagenham";
          Null; Null; Null; Null;
          Str "E01000027"; Str "Barking and Dagenham 001A"; Str "E37000051";
          Str "London";
          Null; Null; Null; Null; Null].
Proof. by vm_compute. Qed.

(** The claim as stated, for every collection with the four files, fails
    when an LSOA code is listed twice in a right-hand table: a left join
    returns one row per match, so the master table of the sample with a
    repeated DistrictUT key has four rows where the District table has
    three. *)
Lemma create_master_repeated_key :
  ~ (forall (d : dict DataFrame) (district : DataFrame),
       dict_get d "LSOA_District_lookup.csv" = Some district ->
       is_Some (dict_get d "LSOA_DistrictUT_lookup.csv") ->
       is_Some (dict_get d "LSOA_LEP_lookup.csv") ->
       is_Some (dict_get d "LSOA_CCG_lookup.csv") ->
       exists master,
         create_master d = Ok master /\
         length (rows master) = length (rows district)).
Proof.
  intros H.
  destruct (H lookups_repeated_key district_sample) as (m & Hm & Hlen);
    [done | by eexists | by eexists | by eexists |].
  vm_compute in Hm. injection Hm as <-.
  vm_compute in Hlen. discriminate.
Qed.

(** ** The driver *)

Lemma dict_get_keys {V} (d : dict V) (k : string) (v : V) :
  dict_get d k = Some v -> k ∈ dict_keys d.
Proof.
  intros H. apply dict_get_elem_of in H.
  by apply (list_elem_of_fmap_2 fst) in H.
Qed.

(** A workbook whose file name has fewer than seven characters aborts
    the run in the stripper, before anything is written. *)
Lemma main_short_filename (listdir : list string)
    (read_excel : string -> result (dict DataFrame)) (st : state)
    (file : string) :
  Forall (fun f => endswith f ".xlsx" = true ->
                   exists sheets, read_excel f = Ok sheets) listdir ->
  file ∈ listdir ->
  endswith file ".xlsx" = true ->
  String.length file < 7 ->
  exists st', main listdir read_excel st = (st', [], Raise IndexError).
Proof.
  intros Hall Hfile Hx Hlen.
  destruct (read_loop_ok read_excel listdir [] st Hall)
    as (st1 & sd & Hrun & _ & _ & _ & Hin).
  rewrite Forall_forall in Hall.
  destruct (Hall file Hfile Hx) as [sheets Hread].
  destruct (Hin file sheets Hfile Hx Hread) as (refs & Hget & _).
  apply dict_get_keys in Hget.
  exists st1. unfold main, read_imd_data. rewrite Hrun.
  unfold ProcessIMDData.remove_columns. run.
  rewrite files_check_short; [done|].
  apply Exists_exists. by exists file.
Qed.

Example main_short_filename_sample :
  (main ["a.xlsx"] sample_read_excel sample_state).2 = Raise IndexError.
Proof. done. Qed.

(** The reshaped sheets always have columns, so on what the reshaper
    returns the writer's loop fails at the first workbook: on the
    unpacking, or on a column label of the second sheet. *)
Lemma melt_sheets_columns (st : state) (refs : list ref)
    (eavs : list DataFrame) :
  melt_sheets st refs = Ok eavs ->
  Forall (fun df => columns df <> []) eavs.
Proof.
  revert eavs. induction refs as [|r refs IH]; intros eavs; simpl.
  - intros [= <-]. constructor.
  - destruct (melt_sheet (store st r)) as [eav|] eqn:E; [|done]. simpl.
    destruct (melt_sheets st refs) as [rest|]; [|done]. simpl.
    intros [= <-]. constructor; [|by apply IH].
    unfold melt_sheet in E. apply melt_columns in E. rewrite E.
    by destruct (index_slice _ 0 2).
Qed.

Lemma convert_loop_melted (st : state) (items : dict (list ref))
    (acc eav : dict (list DataFrame)) :
  Forall (fun kv => Forall (fun df => columns df <> []) kv.2) acc ->
  convert_loop st items acc = Ok eav ->
  Forall (fun kv => Forall (fun df => columns df <> []) kv.2) eav /\
  (items <> [] \/ acc <> [] -> eav <> []).
Proof.
  revert acc. induction items as [|[f refs] items IH]; intros acc Hacc; simpl.
  - intros [= <-]. split; [done|]. intros [?|?]; done.
  - assert (forall (d : dict (list DataFrame)) k v,
              Forall (fun kv => Forall (fun df => columns df <> []) kv.2) d ->
              Forall (fun df => columns df <> []) v ->
              Forall (fun kv => Forall (fun df => columns df <> []) kv.2)
                     (dict_set d k v) /\ dict_set d k v <> []) as Hset.
    { clear. induction d as [|[k' v'] d IH]; intros k v Hd Hv; simpl.
      - split; [by repeat constructor | done].
      - apply Forall_cons in Hd as [Hv' Hd].
        destruct (decide (k' = k)); (split; [|done]).
        + by constructor.
        + constructor; [done|]. by apply IH. }
    destruct (melt_sheets st refs) as [eavs|] eqn:E; [|done]. simpl.
    destruct (Hset acc f eavs Hacc (melt_sheets_columns _ _ _ E))
      as [Hall Hne].
    intros Hrun. destruct (IH _ Hall Hrun) as [IH1 IH2]. split; [done|].
    intros _. apply IH2. by right.
Qed.

Lemma write_loop_melted (d : dict (list DataFrame)) (written : list csv_file) :
  d <> [] ->
  Forall (fun kv => Forall (fun df => columns df <> []) kv.2) d ->
  exists e, (write_loop (dict_values (sheet_lists d)) written).2 = Raise e.
Proof.
  destruct d as [|[f sheets] d]; [done|]. intros _ Hall.
  apply Forall_cons in Hall as [Hsheets _]. simpl in *.
  rewrite unpack2_sheet_list.
  destruct sheets as [|a [|b [|c sheets]]]; try (by exists ValueError).
  simpl. rewrite write_sheets_labels.
  apply Forall_cons in Hsheets as [_ [Hb _]%Forall_cons].
  destruct (columns b); [done | by exists AttributeError].
Qed.

(** Whatever the directory holds, the driver writes no file; and when
    the reshaper returns a collection with at least one workbook, the
    run ends in an exception raised by the writer. *)
Lemma main_writes_nothing (listdir : list string)
    (read_excel : string -> result (dict DataFrame)) (st : state) :
  (main listdir read_excel st).1.2 = [].
Proof.
  unfold main.
  destruct (read_imd_data _ _ _) as [st1 [sd|e]]; [|done].
  destruct (ProcessIMDData.remove_columns _ _) as [st2 [upd|e]]; [|done].
  destruct (convert_to_eav_format st2 upd) as [eav|e]; [|done].
  pose proof (write_loop_sheet_lists eav []) as H.
  unfold write_data. by destruct (write_loop _ _).
Qed.

Lemma writer_fails (st : state) (upd : dict (list ref))
    (eav : dict (list DataFrame)) :
  convert_to_eav_format st upd = Ok eav ->
  upd <> [] ->
  exists e, write_data (sheet_lists eav) = ([], Raise e) /\
            (e = ValueError \/ e = AttributeError).
Proof.
  intros Hconv Hne.
  destruct (convert_loop_melted st upd [] eav) as [Hall Hnil];
    [constructor | exact Hconv |].
  destruct (write_loop_melted eav []) as [e He];
    [apply Hnil; by left | done |].
  pose proof (write_loop_sheet_lists eav []) as Hw.
  exists e. unfold write_data.
  destruct (write_loop _ _) as [w r] eqn:E. simpl in *. subst.
  split; [done|].
  assert (forall (P : csv_file -> Prop) values written,
            (write_loop values written).2 = Raise e ->
            e = ValueError \/ e = AttributeError) as Hexn.
  { clear. intros _ values. induction values as [|v values IH];
      intros written; simpl; [done|].
    destruct (unpack2 v) as [[name sheet_list]|e0] eqn:Eu.
    - assert (forall i sheets w,
                (write_sheets name i sheets w).2 = Raise e ->
                e = AttributeError) as Hs.
      { clear. intros i sheets. revert i.
        induction sheets as [|s sheets IH]; intros i w; simpl; [done|].
        destruct s; simpl; try (by intros [= <-]). apply IH. }
      specialize (Hs 0 (py_iter sheet_list) written).
      destruct (write_sheets _ _ _ _) as [written' [[]|e1]]; simpl in *.
      + apply IH.
      + intros [= <-]. right. by apply Hs.
    - simpl. intros [= <-]. left. unfold unpack2 in Eu.
      destruct (py_iter v) as [|a [|b [|c l]]]; by simplify_eq. }
  apply (Hexn (fun _ => True)
           (dict_values (sheet_lists eav)) []). by rewrite E.
Qed.

Lemma main_fails_in_writer (listdir : list string)
    (read_excel : string -> result (dict DataFrame)) (st st1 st2 : state)
    (sd upd : dict (list ref)) (eav : dict (list DataFrame)) :
  read_imd_data listdir read_excel st = (st1, Ok sd) ->
  ProcessIMDData.remove_columns sd st1 = (st2, Ok upd) ->
  convert_to_eav_format st2 upd = Ok eav ->
  upd <> [] ->
  exists e, write_data (sheet_lists eav) = ([], Raise e) /\
            (e = ValueError \/ e = AttributeError) /\
            main listdir read_excel st = (st2, [], Raise e).
Proof.
  intros H1 H2 H3 Hne.
  destruct (writer_fails st2 upd eav H3 Hne) as (e & Hw & He).
  exists e. split; [done|]. split; [done|].
  unfold main. by rewrite H1, H2, H3, Hw.
Qed.

Example main_sample :
  (main sample_listdir sample_read_excel sample_state).2 = Raise ValueError.
Proof. by vm_compute. Qed.

(** * Further properties of the stages *)

(** ** The column stripper: what it touches and how it can fail *)

Lemma summary_labels_in (df : DataFrame) (ls : list string) :
  summary_labels df = Ok ls -> Forall (fun l => l ∈ columns df) ls.
Proof.
  unfold summary_labels, index_getitem.
  destruct (columns df !! 1) as [c|] eqn:E; [|done].
  intros [= <-]. repeat constructor. by eapply list_elem_of_lookup_2.
Qed.

Lemma lsoa_labels_in (df : DataFrame) (ls : list string) :
  lsoa_labels df = Ok ls -> Forall (fun l => l ∈ columns df) ls.
Proof.
  intros [= <-]. apply Forall_forall. intros x Hx.
  unfold index_slice in Hx. by apply (subseteq_drop 1), (subseteq_take (4 - 1)).
Qed.

Lemma summary_labels_exn (df : DataFrame) (e : exn) :
  summary_labels df = Raise e -> e = IndexError.
Proof.
  unfold summary_labels, index_getitem.
  destruct (columns df !! 1); [done | by intros [= <-]].
Qed.

Lemma frame_drop_in (df : DataFrame) (ls : list string) :
  Forall (fun l => l ∈ columns df) ls -> exists df', frame_drop df ls = Ok df'.
Proof. intros H. unfold frame_drop. rewrite decide_True by done. eauto. Qed.

Lemma summary_labels_of_frame : labels_of_frame summary_labels.
Proof. split; [apply summary_labels_in | apply summary_labels_exn]. Qed.

Lemma lsoa_labels_of_frame : labels_of_frame lsoa_labels.
Proof. split; [apply lsoa_labels_in | done]. Qed.

Lemma frame_rel_refl (touched : list ref) (st : state) :
  frame_rel touched st st.
Proof. by split. Qed.

Lemma frame_rel_trans (touched : list ref) (st1 st2 st3 : state) :
  frame_rel touched st1 st2 -> frame_rel touched st2 st3 ->
  frame_rel touched st1 st3.
Proof.
  intros [Hn1 Hs1] [Hn2 Hs2]. split; [congruence|].
  intros r Hr. by rewrite Hs2, Hs1.
Qed.

Lemma frame_rel_mono (touched touched' : list ref) (st st' : state) :
  touched ⊆ touched' -> frame_rel touched st st' -> frame_rel touched' st st'.
Proof.
  intros Hsub [Hn Hs]. split; [done|]. intros r Hr. apply Hs.
  intros Hr'. by apply Hr, Hsub.
Qed.

Lemma bind_frame {A B} (touched : list ref) (m : M A) (k : A -> M B) :
  (forall st st' o, m st = (st', o) -> frame_rel touched st st') ->
  (forall a st st' o, k a st = (st', o) -> frame_rel touched st st') ->
  forall st st' o, bind m k st = (st', o) -> frame_rel touched st st'.
Proof.
  intros Hm Hk st st' o. unfold bind.
  destruct (m st) as [st1 [a|e]] eqn:E.
  - intros H. eapply frame_rel_trans; [by eapply Hm | by eapply Hk].
  - intros [= <- _]. by eapply Hm.
Qed.

Lemma bind_exn {A B} (m : M A) (k : A -> M B) :
  (forall st st' e, m st = (st', Raise e) -> e = IndexError) ->
  (forall a st st' e, k a st = (st', Raise e) -> e = IndexError) ->
  forall st st' e, bind m k st = (st', Raise e) -> e = IndexError.
Proof.
  intros Hm Hk st st' e. unfold bind.
  destruct (m st) as [st1 [a|e']] eqn:E.
  - by apply Hk.
  - intros [= _ <-]. by eapply Hm.
Qed.

Lemma drop_loop_frame labels (sheet_list acc : list ref) (st st' : state)
    (o : result (list ref)) :
  drop_loop labels sheet_list acc st = (st', o) ->
  frame_rel sheet_list st st'.
Proof.
  revert acc st. induction sheet_list as [|r sl IH]; intros acc st; simpl.
  - run. intros [= <- _]. apply frame_rel_refl.
  - run. destruct (labels (store st r)) as [ls|e]; simpl;
      [|intros [= <- _]; apply frame_rel_refl].
    destruct (frame_drop (store st r) ls) as [df|e]; simpl;
      [|intros [= <- _]; apply frame_rel_refl].
    intros H. apply IH in H as [Hn Hs]. split; [done|].
    intros r' [Hne Hr']%not_elem_of_cons. rewrite (Hs r' Hr'). simpl.
    by apply fn_lookup_insert_ne.
Qed.

Lemma drop_loop_exn labels (sheet_list acc : list ref) (st st' : state)
    (e : exn) :
  labels_of_frame labels ->
  drop_loop labels sheet_list acc st = (st', Raise e) -> e = IndexError.
Proof.
  intros [Hin Hexn]. revert acc st.
  induction sheet_list as [|r sl IH]; intros acc st; simpl.
  - by run.
  - run. destruct (labels (store st r)) as [ls|e'] eqn:El; simpl.
    + destruct (frame_drop_in _ _ (Hin _ _ El)) as [df ->]. simpl.
      apply IH.
    + intros [= _ <-]. by eapply Hexn.
Qed.

Lemma remove_columns_loop_frame (summary lsoa : list string)
    (items updated : dict (list ref)) (st st' : state)
    (o : result (dict (list ref))) :
  remove_columns_loop summary lsoa items updated st = (st', o) ->
  frame_rel (sheet_refs items) st st'.
Proof.
  revert updated st st' o. induction items as [|[f refs] items IH];
    intros updated st st' o; simpl.
  - run. intros [= <- _]. apply frame_rel_refl.
  - assert (refs ⊆ sheet_refs ((f, refs) :: items)) as Hsub1.
    { intros r Hr. unfold sheet_refs. simpl. apply elem_of_app. by left. }
    assert (sheet_refs items ⊆ sheet_refs ((f, refs) :: items)) as Hsub2.
    { intros r Hr. unfold sheet_refs. simpl. apply elem_of_app. by right. }
    apply bind_frame.
    { intros st0 st1 o1. destruct (decide (f ∈ summary)).
      - intros H%drop_loop_frame.
        apply (frame_rel_mono refs); [exact Hsub1 | exact H].
      - run. intros [= <- _]. apply frame_rel_refl. }
    intros l1. apply bind_frame.
    { intros st0 st1 o1. destruct (decide (f ∈ lsoa)).
      - intros H%drop_loop_frame.
        apply (frame_rel_mono refs); [exact Hsub1 | exact H].
      - run. intros [= <- _]. apply frame_rel_refl. }
    intros l2 st0 st1 o1 H%IH.
    apply (frame_rel_mono (sheet_refs items)); [exact Hsub2 | exact H].
Qed.

Lemma remove_columns_loop_exn (summary lsoa : list string)
    (items updated : dict (list ref)) (st st' : state) (e : exn) :
  remove_columns_loop summary lsoa items updated st = (st', Raise e) ->
  e = IndexError.
Proof.
  revert updated st st' e. induction items as [|[f refs] items IH];
    intros updated st st' e; simpl.
  - by run.
  - apply bind_exn.
    { intros st0 st1 e1. destruct (decide (f ∈ summary)).
      - apply drop_loop_exn, summary_labels_of_frame.
      - by run. }
    intros l1. apply bind_exn.
    { intros st0 st1 e1. destruct (decide (f ∈ lsoa)).
      - apply drop_loop_exn, lsoa_labels_of_frame.
      - by run. }
    intros l2. apply IH.
Qed.

Lemma lift_pure {A} (r : result A) (st st' : state) (o : result A) :
  lift r st = (st', o) -> st' = st /\ o = r.
Proof. by intros [= <- <-]. Qed.

(** X1. The stripper changes no frame other than the sheets listed in
    the collection it is given and allocates nothing, whether it returns
    or raises part-way. *)
Theorem remove_columns_frame (d : dict (list ref)) (st st' : state)
    (o : result (dict (list ref))) (r : ref) :
  ProcessIMDData.remove_columns d st = (st', o) ->
  r ∉ sheet_refs d ->
  store st' r = store st r /\ next_ref st' = next_ref st.
Proof.
  intros Hrun Hr.
  assert (frame_rel (sheet_refs d) st st') as [Hn Hs]; [|by split; [apply Hs|]].
  revert Hrun. apply bind_frame.
  { intros st0 st1 o1 [-> _]%lift_pure. apply frame_rel_refl. }
  intros summary. apply bind_frame.
  { intros st0 st1 o1 [-> _]%lift_pure. apply frame_rel_refl. }
  intros lsoa st0 st1 o1. apply remove_columns_loop_frame.
Qed.

(** X2. The only exception the stripper raises is [IndexError]: from
    [filename[6]] on a short name or from [df.columns[1]] on a sheet
    without a second column.  The drop itself cannot fail, since the
    labels dropped are read off the sheet. *)
Theorem remove_columns_only_index_error (d : dict (list ref))
    (st st' : state) (e : exn) :
  ProcessIMDData.remove_columns d st = (st', Raise e) -> e = IndexError.
Proof.
  apply bind_exn.
  { intros st0 st1 e1 [_ H]%lift_pure. symmetry in H.
    destruct (decide (Forall (fun f => 7 <= String.length f) (dict_keys d)))
      as [Hlen|Hn].
    - by rewrite files_check_long in H.
    - apply not_Forall_Exists in Hn; [|apply _].
      rewrite files_check_short in H; [congruence|].
      eapply Exists_impl; [exact Hn|]. simpl. intros. lia. }
  intros summary. apply bind_exn.
  { intros st0 st1 e1 [_ H]%lift_pure. symmetry in H.
    destruct (decide (Forall (fun f => 7 <= String.length f) (dict_keys d)))
      as [Hlen|Hn].
    - by rewrite files_check_long in H.
    - apply not_Forall_Exists in Hn; [|apply _].
      rewrite files_check_short in H; [congruence|].
      eapply Exists_impl; [exact Hn|]. simpl. intros. lia. }
  intros lsoa. apply remove_columns_loop_exn.
Qed.

Lemma remove_columns_frame_witness :
  ProcessIMDData.remove_columns sample_collection sample_state
  = ((ProcessIMDData.remove_columns sample_collection sample_state).1,
     Ok sample_collection) /\
  (3 ∉ sheet_refs sample_collection) /\
  store (ProcessIMDData.remove_columns sample_collection sample_state).1 3
  = store sample_state 3 /\
  next_ref (ProcessIMDData.remove_columns sample_collection sample_state).1
  = next_ref sample_state.
Proof.
  assert (ProcessIMDData.remove_columns sample_collection sample_state
          = ((ProcessIMDData.remove_columns sample_collection sample_state).1,
             Ok sample_collection)) as H1 by (by vm_compute).
  assert (3 ∉ sheet_refs sample_collection) as H2
    by (by apply (bool_decide_unpack _); vm_compute).
  refine (conj H1 (conj H2 _)).
  exact (remove_columns_frame _ _ _ _ 3 H1 H2).
Defined.

Lemma remove_columns_only_index_error_witness :
  ProcessIMDData.remove_columns [("a.xlsx", [0])] sample_state
  = (sample_state, Raise IndexError) /\
  IndexError = IndexError.
Proof.
  assert (ProcessIMDData.remove_columns [("a.xlsx", [0])] sample_state
          = (sample_state, Raise IndexError)) as H by done.
  split; [exact H|].
  exact (remove_columns_only_index_error _ _ _ _ H).
Defined.

Lemma bind_raises {A B} (m : M A) (k : A -> M B) (st : state) :
  (forall st1 a, m st = (st1, Ok a) ->
                 exists st', k a st1 = (st', Raise IndexError)) ->
  (forall st1 e, m st = (st1, Raise e) -> e = IndexError) ->
  exists st', bind m k st = (st', Raise IndexError).
Proof.
  intros Hok Hexn. unfold bind.
  destruct (m st) as [st1 [a|e]] eqn:E.
  - by apply Hok.
  - rewrite (Hexn st1 e eq_refl). by exists st1.
Qed.

Lemma drop_loop_narrow (sheet_list acc : list ref) (st : state) (r : ref) :
  NoDup sheet_list -> r ∈ sheet_list ->
  length (columns (store st r)) < 2 ->
  exists st', drop_loop summary_labels sheet_list acc st
              = (st', Raise IndexError).
Proof.
  revert acc st. induction sheet_list as [|r0 sl IH]; intros acc st Hnd Hr Hlen.
  - by apply elem_of_nil in Hr.
  - apply NoDup_cons in Hnd as [Hr0 Hnd]. simpl. run.
    destruct (summary_labels (store st r0)) as [ls|e] eqn:El; simpl.
    + destruct (frame_drop_in _ _ (summary_labels_in _ _ El)) as [df ->].
      simpl. apply elem_of_cons in Hr as [->|Hr].
      * unfold summary_labels, index_getitem in El.
        rewrite lookup_ge_None_2 in El by lia. done.
      * apply IH; [done..|]. simpl.
        rewrite fn_lookup_insert_ne; [done|]. by intros ->.
    + apply summary_labels_exn in El as ->. by exists st.
Qed.

Lemma remove_columns_loop_narrow (summary lsoa : list string)
    (items updated : dict (list ref)) (st : state)
    (f : string) (refs : list ref) (r : ref) :
  Forall (fun f => (f ∈ lsoa <-> lsoa_resolution f) /\
                   (f ∈ summary <-> ~ lsoa_resolution f)) (dict_keys items) ->
  NoDup (sheet_refs items) ->
  (f, refs) ∈ items -> ~ lsoa_resolution f -> r ∈ refs ->
  length (columns (store st r)) < 2 ->
  exists st', remove_columns_loop summary lsoa items updated st
              = (st', Raise IndexError).
Proof.
  revert updated st.
  induction items as [|[f0 refs0] items IH];
    intros updated st Hcl Hnd Hin Hf Hr Hlen.
  - by apply elem_of_nil in Hin.
  - simpl in Hcl. apply Forall_cons in Hcl as [[Hl Hs] Hcl].
    unfold sheet_refs in Hnd. simpl in Hnd.
    apply NoDup_app in Hnd as (Hrefs0 & Hdisj & Hnd).
    simpl. apply elem_of_cons in Hin as [[= <- <-]|Hin].
    + rewrite decide_True by (by apply Hs).
      apply bind_raises.
      * intros st1 l1 H.
        destruct (drop_loop_narrow refs [] st r Hrefs0 Hr Hlen) as [st' H'].
        congruence.
      * intros st1 e. apply drop_loop_exn, summary_labels_of_frame.
    + assert (r ∉ refs0) as Hr0.
      { intros Hr0. apply (Hdisj r Hr0), elem_of_concat.
        exists refs. split; [done|].
        by apply (list_elem_of_fmap_2 snd) in Hin. }
      apply bind_raises.
      2:{ intros st1 e. destruct (decide (f0 ∈ summary)).
          - apply drop_loop_exn, summary_labels_of_frame.
          - by run. }
      intros st1 l1 H1. apply bind_raises.
      2:{ intros st2 e. destruct (decide (f0 ∈ lsoa)).
          - apply drop_loop_exn, lsoa_labels_of_frame.
          - by run. }
      intros st2 l2 H2. apply IH; try done.
      assert (frame_rel refs0 st st1) as [_ Hs1].
      { destruct (decide (f0 ∈ summary)).
        - by eapply drop_loop_frame.
        - revert H1. run. intros [= <- _]. apply frame_rel_refl. }
      assert (frame_rel refs0 st1 st2) as [_ Hs2].
      { destruct (decide (f0 ∈ lsoa)).
        - by eapply drop_loop_frame.
        - revert H2. run. intros [= <- _]. apply frame_rel_refl. }
      by rewrite Hs2, Hs1.
Qed.

(** X3. When the file names are long enough and the sheets are distinct
    objects, a summary-resolution workbook with a sheet that has fewer
    than two columns (an empty sheet, say) makes the stripper raise
    [IndexError]: [df.columns[1]] is not guarded. *)
Theorem remove_columns_narrow_summary (d : dict (list ref)) (st : state)
    (f : string) (refs : list ref) (r : ref) :
  Forall (fun f => 7 <= String.length f) (dict_keys d) ->
  NoDup (sheet_refs d) ->
  (f, refs) ∈ d ->
  String.get 6 f <> Some "_"%char ->
  r ∈ refs ->
  length (columns (store st r)) < 2 ->
  exists st', ProcessIMDData.remove_columns d st = (st', Raise IndexError).
Proof.
  intros Hlen Hnd Hin Hf Hr Hcols.
  unfold ProcessIMDData.remove_columns. run.
  rewrite !files_check_long by done.
  eapply remove_columns_loop_narrow; try done.
  by apply classification.
Qed.

Lemma remove_columns_narrow_summary_witness :
  Forall (fun f => 7 <= String.length f)
         (dict_keys [("File_10_Summaries.xlsx", [0])]) /\
  NoDup (sheet_refs [("File_10_Summaries.xlsx", [0])]) /\
  ("File_10_Summaries.xlsx", [0]) ∈ [("File_10_Summaries.xlsx", [0])] /\
  String.get 6 "File_10_Summaries.xlsx" <> Some "_"%char /\
  0 ∈ [0] /\
  length (columns (store narrow_state 0)) < 2 /\
  exists st',
    ProcessIMDData.remove_columns [("File_10_Summaries.xlsx", [0])] narrow_state
    = (st', Raise IndexError).
Proof.
  assert (Forall (fun f => 7 <= String.length f)
                 (dict_keys [("File_10_Summaries.xlsx", [0])])) as H1
    by (by apply (bool_decide_unpack _); vm_compute).
  assert (NoDup (sheet_refs [("File_10_Summaries.xlsx", [0])])) as H2
    by (by apply (bool_decide_unpack _); vm_compute).
  assert (("File_10_Summaries.xlsx", [0]) ∈ [("File_10_Summaries.xlsx", [0])])
    as H3 by left.
  assert (String.get 6 "File_10_Summaries.xlsx" <> Some "_"%char) as H4
    by done.
  assert (0 ∈ [0]) as H5 by left.
  assert (length (columns (store narrow_state 0)) < 2) as H6
    by (simpl; lia).
  refine (conj H1 (conj H2 (conj H3 (conj H4 (conj H5 (conj H6 _)))))).
  exact (remove_columns_narrow_summary _ narrow_state _ _ _ H1 H2 H3 H4 H5 H6).
Defined.

Lemma drop_loop_lsoa_total (sheet_list acc : list ref) (st : state) :
  exists st', drop_loop lsoa_labels sheet_list acc st
              = (st', Ok (acc ++ sheet_list)).
Proof.
  revert acc st. induction sheet_list as [|r sl IH]; intros acc st; simpl.
  - exists st. run. by rewrite app_nil_r.
  - run.
    destruct (frame_drop_in (store st r) (index_slice (columns (store st r)) 1 4))
      as [df ->]; [by apply lsoa_labels_in|].
    simpl. destruct (IH (acc ++ [r]) (mkState (next_ref st)
                                        (<[r := df]> (store st)))) as [st' ->].
    exists st'. by rewrite <- app_assoc.
Qed.

Lemma remove_columns_loop_lsoa_total (summary lsoa : list string)
    (items updated : dict (list ref)) (st : state) :
  Forall (fun f => f ∈ lsoa /\ f ∉ summary) (dict_keys items) ->
  exists st',
    remove_columns_loop summary lsoa items updated st
    = (st', Ok (foldl (fun u kv => dict_set u kv.1 kv.2) updated items)).
Proof.
  revert updated st. induction items as [|[f refs] items IH];
    intros updated st Hall.
  - exists st. by run.
  - simpl in Hall. apply Forall_cons in Hall as [[Hl Hs] Hall]. simpl.
    rewrite decide_False by done. run. rewrite decide_True by done.
    destruct (drop_loop_lsoa_total refs [] st) as [st1 ->]. simpl.
    apply IH, Hall.
Qed.

(** X4. On a collection whose files are all at LSOA resolution the
    stripper cannot fail, whatever its sheets look like (empty, narrow,
    with repeated labels, or listed twice): the labels come from a
    slice, which never raises.  It returns the collection it was
    given. *)
Theorem remove_columns_lsoa_total (d : dict (list ref)) (st : state) :
  dict_wf d ->
  Forall (fun f => String.get 6 f = Some "_"%char) (dict_keys d) ->
  exists st', ProcessIMDData.remove_columns d st = (st', Ok d).
Proof.
  intros Hwf Hall.
  assert (Forall (fun f => 7 <= String.length f) (dict_keys d)) as Hlen.
  { eapply Forall_impl; [exact Hall|]. simpl. intros f Hf.
    destruct (decide (7 <= String.length f)) as [|Hn]; [done|].
    assert (String.get 6 f = None) as E by (apply get_none_iff; lia).
    congruence. }
  unfold ProcessIMDData.remove_columns. run.
  rewrite !files_check_long by done.
  destruct (remove_columns_loop_lsoa_total
              (filter (fun f => char6 (fun c => negb (is_underscore c)) f = true)
                      (dict_keys d))
              (filter (fun f => char6 is_underscore f = true) (dict_keys d))
              d [] st) as [st' Hrun].
  { pose proof (classification _ Hlen) as Hcl.
    apply Forall_forall. intros f Hf.
    rewrite Forall_forall in Hcl, Hall.
    destruct (Hcl f Hf) as [Hl Hs]. specialize (Hall f Hf).
    split; [by apply Hl|]. rewrite Hs. intros Hn. by apply Hn. }
  exists st'. rewrite Hrun. by rewrite dict_rebuild.
Qed.

Lemma remove_columns_lsoa_total_witness :
  dict_wf [("File_1_IMD.xlsx", [0; 0; 3])] /\
  Forall (fun f => String.get 6 f = Some "_"%char)
         (dict_keys [("File_1_IMD.xlsx", [0; 0; 3])]) /\
  exists st',
    ProcessIMDData.remove_columns [("File_1_IMD.xlsx", [0; 0; 3])] narrow_state
    = (st', Ok [("File_1_IMD.xlsx", [0; 0; 3])]).
Proof.
  assert (dict_wf [("File_1_IMD.xlsx", [0; 0; 3])]) as H1
    by (by apply (bool_decide_unpack _); vm_compute).
  assert (Forall (fun f => String.get 6 f = Some "_"%char)
                 (dict_keys [("File_1_IMD.xlsx", [0; 0; 3])])) as H2
    by (by apply (bool_decide_unpack _); vm_compute).
  refine (conj H1 (conj H2 _)).
  exact (remove_columns_lsoa_total _ narrow_state H1 H2).
Defined.

(** ** What stripping keeps *)

Lemma without_positions_sublist {A} (l : list A) (j k : nat) :
  take j l ++ drop (j + k) l `sublist_of` l.
Proof.
  rewrite <- (take_drop j l) at 3. apply sublist_app; [done|].
  rewrite <- drop_drop. apply sublist_drop.
Qed.

Lemma without_positions_wf (df : DataFrame) (j k : nat) :
  frame_wf df -> frame_wf (without_positions j k df).
Proof.
  unfold frame_wf, without_positions. simpl. intros Hwf.
  apply Forall_fmap. eapply Forall_impl; [exact Hwf|]. simpl.
  intros r Hr. rewrite !length_app, !length_take, !length_drop. lia.
Qed.

Lemma without_positions_first (df : DataFrame) (k : nat) :
  length (rows (without_positions 1 k df)) = length (rows df) /\
  column_values (without_positions 1 k df) 0 = column_values df 0 /\
  columns (without_positions 1 k df) !! 0 = columns df !! 0.
Proof.
  unfold without_positions, column_values. simpl.
  split; [by rewrite length_map|]. split.
  - rewrite map_map. apply map_ext. intros r. unfold cell_at.
    by destruct r as [|a [|b r]].
  - by destruct (columns df) as [|a [|b l]].
Qed.

Lemma stripped_keeps (f : string) (df : DataFrame) :
  NoDup (columns df) -> frame_wf df ->
  length (rows (stripped f df)) = length (rows df) /\
  column_values (stripped f df) 0 = column_values df 0 /\
  columns (stripped f df) !! 0 = columns df !! 0 /\
  frame_wf (stripped f df) /\
  NoDup (columns (stripped f df)).
Proof.
  intros Hnd Hwf. unfold stripped.
  destruct (decide (lsoa_resolution f));
    (destruct (without_positions_first df 3) as (? & ? & ?);
     destruct (without_positions_first df 1) as (? & ? & ?);
     repeat split; try done;
     [by apply without_positions_wf |
      eapply sublist_NoDup; [exact Hnd | apply without_positions_sublist]]).
Qed.

(** X5. Under the conditions of the stripper's normal case (names of at
    least seven characters, distinct sheet objects, distinct labels, a
    second column on summary sheets) every sheet keeps its rows, its
    first column (label and values), rectangular shape and distinct
    labels: only columns other than the first are taken away. *)
Theorem remove_columns_keeps (d : dict (list ref)) (st : state) :
  dict_wf d ->
  Forall (fun f => 7 <= String.length f) (dict_keys d) ->
  NoDup (sheet_refs d) ->
  Forall (fun kv => Forall (fun r => sheet_ok kv.1 (store st r)) kv.2) d ->
  exists st',
    ProcessIMDData.remove_columns d st = (st', Ok d) /\
    Forall (fun r =>
              length (rows (store st' r)) = length (rows (store st r)) /\
              column_values (store st' r) 0 = column_values (store st r) 0 /\
              columns (store st' r) !! 0 = columns (store st r) !! 0 /\
              frame_wf (store st' r) /\
              NoDup (columns (store st' r)))
           (sheet_refs d).
Proof.
  intros Hwf Hlen Hnd Hok.
  destruct (remove_columns_ok d st Hwf Hlen Hnd Hok)
    as (st' & Hrun & _ & Hin & _).
  exists st'. split; [done|].
  apply Forall_forall. intros r Hr.
  apply elem_of_concat in Hr as (refs & Hr & Hrefs).
  apply list_elem_of_fmap in Hrefs as ([f refs'] & -> & Hkv). simpl in Hr.
  rewrite Forall_forall in Hin, Hok.
  specialize (Hin _ Hkv). specialize (Hok _ Hkv). simpl in Hin, Hok.
  rewrite Forall_forall in Hin, Hok.
  rewrite (Hin r Hr). destruct (Hok r Hr) as (Hc & Hf & _).
  by apply stripped_keeps.
Qed.

Lemma remove_columns_keeps_witness :
  dict_wf sample_collection /\
  Forall (fun f => 7 <= String.length f) (dict_keys sample_collection) /\
  NoDup (sheet_refs sample_collection) /\
  Forall (fun kv => Forall (fun r => sheet_ok kv.1 (store sample_state r)) kv.2)
         sample_collection /\
  exists st',
    ProcessIMDData.remove_columns sample_collection sample_state
    = (st', Ok sample_collection) /\
    Forall (fun r =>
              length (rows (store st' r))
              = length (rows (store sample_state r)) /\
              column_values (store st' r) 0
              = column_values (store sample_state r) 0 /\
              columns (store st' r) !! 0 = columns (store sample_state r) !! 0 /\
              frame_wf (store st' r) /\
              NoDup (columns (store st' r)))
           (sheet_refs sample_collection).
Proof.
  assert (dict_wf sample_collection) as H1
    by (by apply (bool_decide_unpack _); vm_compute).
  assert (Forall (fun f => 7 <= String.length f) (dict_keys sample_collection))
    as H2 by (by apply (bool_decide_unpack _); vm_compute).
  assert (NoDup (sheet_refs sample_collection)) as H3
    by (by apply (bool_decide_unpack _); vm_compute).
  assert (Forall (fun kv =>
            Forall (fun r => sheet_ok kv.1 (store sample_state r)) kv.2)
            sample_collection)
    as H4 by (by apply (bool_decide_unpack _); vm_compute).
  refine (conj H1 (conj H2 (conj H3 (conj H4 _)))).
  exact (remove_columns_keeps sample_collection sample_state H1 H2 H3 H4).
Defined.




(** ** The loader: keys, failures and object identity *)

Lemma alloc_sheets_refs (sheets : dict DataFrame) (st st' : state)
    (df : dict ref) :
  alloc_sheets sheets st = (st', Ok df) ->
  dict_values df = seq (next_ref st) (length sheets) /\
  next_ref st' = next_ref st + length sheets.
Proof.
  revert st df. induction sheets as [|[name frame] sheets IH]; intros st df.
  - simpl. run. intros [= <- <-]. split; [done | simpl; lia].
  - simpl. run.
    destruct (alloc_sheets sheets _) as [st1 [rest|e]] eqn:E; [|done].
    intros [= <- <-]. apply IH in E as [Hv Hn]. simpl in *.
    rewrite Hv, Hn. split; [done | lia].
Qed.

Lemma pops_values_sublist (df : dict ref) :
  dict_values (pop_if_present (pop_if_present df "Notes") "Terms & Conditions")
  `sublist_of` dict_values df.
Proof.
  rewrite !pop_if_present_filter. unfold dict_values.
  apply fmap_sublist. etrans; apply sublist_filter.
Qed.

Lemma sheet_refs_set (d : dict (list ref)) (k : string) (v : list ref) :
  NoDup (sheet_refs d) -> NoDup v ->
  (forall r, r ∈ v -> r ∉ sheet_refs d) ->
  NoDup (sheet_refs (dict_set d k v)) /\
  (forall r, r ∈ sheet_refs (dict_set d k v) -> r ∈ sheet_refs d \/ r ∈ v).
Proof.
  unfold sheet_refs.
  induction d as [|[k' v'] d IH]; simpl; intros Hnd Hv Hdisj.
  - rewrite app_nil_r. split; [done|]. intros r Hr. by right.
  - apply NoDup_app in Hnd as (Hv' & Hd & Hnd).
    destruct (decide (k' = k)) as [->|Hne]; simpl.
    + split.
      * apply NoDup_app. split; [done|]. split; [|done].
        intros r Hr Hr'. apply (Hdisj r Hr), elem_of_app. by right.
      * intros r [Hr|Hr]%elem_of_app; [by right|].
        left. apply elem_of_app. by right.
    + destruct IH as [IH1 IH2]; [done | done | |].
      { intros r Hr Hr'. apply (Hdisj r Hr), elem_of_app. by right. }
      split.
      * apply NoDup_app. split; [done|]. split; [|done].
        intros r Hr Hr'. destruct (IH2 r Hr') as [Hr2|Hr2].
        -- by apply (Hd r Hr).
        -- apply (Hdisj r Hr2), elem_of_app. by left.
      * intros r [Hr|Hr]%elem_of_app.
        -- left. apply elem_of_app. by left.
        -- destruct (IH2 r Hr) as [?|?]; [|by right].
           left. apply elem_of_app. by right.
Qed.

Lemma dict_set_keys {V} (d : dict V) (k : string) (v : V) :
  dict_keys (dict_set d k v)
  = if decide (k ∈ dict_keys d) then dict_keys d else dict_keys d ++ [k].
Proof.
  induction d as [|[k' v'] d IH]; simpl; [done|].
  destruct (decide (k' = k)) as [->|Hne]; simpl.
  - rewrite decide_True; [done | left].
  - rewrite IH. destruct (decide (k ∈ dict_keys d)) as [Hk|Hk].
    + rewrite decide_True; [done | by right].
    + rewrite decide_False; [done|].
      intros [?|?]%elem_of_cons; [congruence | done].
Qed.

Lemma dict_set_wf {V} (d : dict V) (k : string) (v : V) :
  dict_wf d -> dict_wf (dict_set d k v).
Proof.
  unfold dict_wf. rewrite dict_set_keys. intros Hwf.
  destruct (decide (k ∈ dict_keys d)); [done|].
  apply NoDup_app. split; [done|]. split; [|apply NoDup_singleton].
  intros x Hx Hx'. apply list_elem_of_singleton in Hx' as ->. done.
Qed.

Section loader_more.
Variable read_excel : string -> result (dict DataFrame).

(** What the loader's loop keeps true of the collection it builds. *)
Lemma read_loop_inv (files : list string) (sd sd' : dict (list ref))
    (st st' : state) :
  read_loop read_excel files sd st = (st', Ok sd') ->
  dict_wf sd -> NoDup (sheet_refs sd) ->
  Forall (fun r => r < next_ref st) (sheet_refs sd) ->
  dict_wf sd' /\ NoDup (sheet_refs sd') /\
  Forall (fun r => r < next_ref st') (sheet_refs sd') /\
  next_ref st <= next_ref st' /\
  (forall r, r < next_ref st -> store st' r = store st r) /\
  (forall r, r ∈ sheet_refs sd' -> r ∈ sheet_refs sd \/ next_ref st <= r) /\
  (forall f, f ∈ dict_keys sd' ->
             f ∈ dict_keys sd \/ (f ∈ files /\ endswith f ".xlsx" = true)).
Proof.
  revert sd st. induction files as [|file files IH]; intros sd st; simpl.
  - run. intros [= <- <-] Hwf Hnd Hlt.
    repeat split; try done; intros; by left.
  - destruct (endswith file ".xlsx") eqn:Hx.
    + run. destruct (read_excel file) as [sheets|e]; simpl; [|done].
      destruct (alloc_sheets sheets st) as [st1 [df|e]] eqn:Ea; [|done].
      destruct (alloc_sheets_ok sheets st) as (st1' & df' & Ea' & Hle & Hold & _).
      rewrite Ea in Ea'. injection Ea' as <- <-.
      apply alloc_sheets_refs in Ea as [Hvals Hnext].
      set (sheet_list :=
             dict_values (pop_if_present (pop_if_present df "Notes")
                                         "Terms & Conditions")).
      assert (sheet_list `sublist_of` seq (next_ref st) (length sheets))
        as Hsub by (rewrite <- Hvals; apply pops_values_sublist).
      assert (forall r, r ∈ sheet_list -> next_ref st <= r < next_ref st1)
        as Hrange.
      { intros r Hr. eapply elem_of_sublist in Hr; [|exact Hsub].
        apply elem_of_seq in Hr. lia. }
      intros Hrun Hwf Hnd Hlt.
      destruct (sheet_refs_set sd file sheet_list Hnd) as [Hnd1 Hin1].
      { eapply sublist_NoDup; [apply NoDup_seq | exact Hsub]. }
      { intros r Hr Hr'. rewrite Forall_forall in Hlt.
        specialize (Hlt r Hr'). specialize (Hrange r Hr). lia. }
      apply IH in Hrun as (Hwf' & Hnd' & Hlt' & Hle' & Hold' & Hnew' & Hkeys').
      * repeat split; try done; try lia.
        -- intros r Hr. rewrite Hold' by lia. by apply Hold.
        -- intros r Hr. destruct (Hnew' r Hr) as [Hr1|Hr1]; [|right; lia].
           destruct (Hin1 r Hr1) as [?|Hr2]; [by left|].
           right. specialize (Hrange r Hr2). lia.
        -- intros f Hf. destruct (Hkeys' f Hf) as [Hf1|[Hf1 Hf2]].
           ++ rewrite dict_set_keys in Hf1.
              destruct (decide (file ∈ dict_keys sd)); [by left|].
              apply elem_of_app in Hf1 as [?|Hf1]; [by left|].
              apply list_elem_of_singleton in Hf1 as ->.
              right. split; [left | done].
           ++ right. split; [by right | done].
      * by apply dict_set_wf.
      * done.
      * apply Forall_forall. intros r Hr.
        destruct (Hin1 r Hr) as [Hr1|Hr1].
        -- rewrite Forall_forall in Hlt. specialize (Hlt r Hr1). lia.
        -- specialize (Hrange r Hr1). lia.
    + intros Hrun Hwf Hnd Hlt.
      apply IH in Hrun as (? & ? & ? & ? & ? & ? & Hkeys'); try done.
      repeat split; try done.
      intros f Hf. destruct (Hkeys' f Hf) as [?|[? ?]]; [by left|].
      right. split; [by right | done].
Qed.

End loader_more.

(** X7. Whenever the loader returns, every sheet of the collection is a
    newly created object: the references are pairwise distinct, none
    existed before the call, and the objects that existed before are
    unchanged.  The collection has each file name once. *)
Theorem read_imd_data_fresh (listdir : list string)
    (read_excel : string -> result (dict DataFrame))
    (st st' : state) (d : dict (list ref)) :
  read_imd_data listdir read_excel st = (st', Ok d) ->
  dict_wf d /\
  NoDup (sheet_refs d) /\
  Forall (fun r => next_ref st <= r < next_ref st') (sheet_refs d) /\
  (forall r, r < next_ref st -> store st' r = store st r).
Proof.
  intros Hrun. unfold read_imd_data in Hrun.
  apply read_loop_inv in Hrun as (Hwf & Hnd & Hlt & _ & Hold & Hnew & _).
  - repeat split; try done.
    apply Forall_forall. intros r Hr. rewrite Forall_forall in Hlt.
    specialize (Hlt r Hr). destruct (Hnew r Hr) as [Hr'|?]; [|lia].
    by apply elem_of_nil in Hr'.
  - constructor.
  - constructor.
  - constructor.
Qed.

Lemma read_imd_data_fresh_witness :
  read_imd_data sample_listdir sample_read_excel sample_state
  = ((read_imd_data sample_listdir sample_read_excel sample_state).1,
     Ok [("File_1_IMD.xlsx", [6]); ("File_10_Summaries.xlsx", [7])]) /\
  dict_wf [("File_1_IMD.xlsx", [6]); ("File_10_Summaries.xlsx", [7])] /\
  NoDup (sheet_refs [("File_1_IMD.xlsx", [6]); ("File_10_Summaries.xlsx", [7])]) /\
  Forall (fun r =>
            next_ref sample_state <= r
            < next_ref (read_imd_data sample_listdir sample_read_excel
                                      sample_state).1)
         (sheet_refs [("File_1_IMD.xlsx", [6]);
                      ("File_10_Summaries.xlsx", [7])]) /\
  (forall r, r < next_ref sample_state ->
     store (read_imd_data sample_listdir sample_read_excel sample_state).1 r
     = store sample_state r).
Proof.
  assert (read_imd_data sample_listdir sample_read_excel sample_state
          = ((read_imd_data sample_listdir sample_read_excel sample_state).1,
             Ok [("File_1_IMD.xlsx", [6]); ("File_10_Summaries.xlsx", [7])]))
    as H by (by vm_compute).
  split; [exact H|].
  exact (read_imd_data_fresh _ _ _ _ _ H).
Defined.

Section loader_keys.
Variable read_excel : string -> result (dict DataFrame).

Lemma read_loop_keys (files : list string) (sd sd' : dict (list ref))
    (st st' : state) :
  NoDup files -> (forall f, f ∈ files -> f ∉ dict_keys sd) ->
  read_loop read_excel files sd st = (st', Ok sd') ->
  dict_keys sd'
  = dict_keys sd ++ filter (fun f => endswith f ".xlsx" = true) files.
Proof.
  revert sd st. induction files as [|file files IH]; intros sd st Hnd Hnew.
  - simpl. run. intros [= _ <-]. by rewrite app_nil_r.
  - apply NoDup_cons in Hnd as [Hfile Hnd]. simpl. rewrite filter_cons.
    destruct (endswith file ".xlsx") eqn:Hx.
    + rewrite decide_True by done. run.
      destruct (read_excel file) as [sheets|e]; simpl; [|done].
      destruct (alloc_sheets sheets st) as [st1 [df|e]]; [|done].
      intros Hrun. apply IH in Hrun; [|done|].
      * rewrite Hrun, dict_set_keys.
        rewrite decide_False by (apply Hnew; left).
        by rewrite <- app_assoc.
      * intros f Hf. rewrite dict_set_keys.
        rewrite decide_False by (apply Hnew; left).
        intros [Hf'|Hf']%elem_of_app.
        -- apply (Hnew f); [by right | done].
        -- apply list_elem_of_singleton in Hf' as ->. done.
    + rewrite decide_False by done.
      apply IH; [done|]. intros f Hf. apply Hnew. by right.
Qed.

Lemma read_loop_aborts (pre post : list string) (file : string) (e : exn)
    (sd : dict (list ref)) (st : state) :
  Forall (fun f => endswith f ".xlsx" = true ->
                   exists sheets, read_excel f = Ok sheets) pre ->
  endswith file ".xlsx" = true ->
  read_excel file = Raise e ->
  exists st', read_loop read_excel (pre ++ file :: post) sd st = (st', Raise e).
Proof.
  intros Hpre Hx Hread. revert sd st.
  induction Hpre as [|f pre Hf _ IH]; intros sd st; simpl.
  - rewrite Hx. run. rewrite Hread. by exists st.
  - destruct (endswith f ".xlsx") eqn:Hfx; [|apply IH].
    destruct (Hf eq_refl) as [sheets Hs]. run. rewrite Hs. simpl.
    destruct (alloc_sheets_ok sheets st) as (st1 & df & -> & _).
    apply IH.
Qed.

End loader_keys.

(** X8. For a directory listing without repeated names, the collection
    the loader returns has as its keys exactly the names that end in
    ".xlsx", in the order of the listing; every other file is skipped
    without being read. *)
Theorem read_imd_data_keys (listdir : list string)
    (read_excel : string -> result (dict DataFrame))
    (st st' : state) (d : dict (list ref)) :
  NoDup listdir ->
  read_imd_data listdir read_excel st = (st', Ok d) ->
  dict_keys d = filter (fun f => endswith f ".xlsx" = true) listdir.
Proof.
  intros Hnd Hrun.
  apply read_loop_keys in Hrun; [done | done |].
  intros f _. apply not_elem_of_nil.
Qed.

Lemma read_imd_data_keys_witness :
  NoDup sample_listdir /\
  read_imd_data sample_listdir sample_read_excel sample_state
  = ((read_imd_data sample_listdir sample_read_excel sample_state).1,
     Ok [("File_1_IMD.xlsx", [6]); ("File_10_Summaries.xlsx", [7])]) /\
  dict_keys [("File_1_IMD.xlsx", [6]); ("File_10_Summaries.xlsx", [7])]
  = filter (fun f => endswith f ".xlsx" = true) sample_listdir.
Proof.
  assert (NoDup sample_listdir) as H1
    by (by apply (bool_decide_unpack _); vm_compute).
  assert (read_imd_data sample_listdir sample_read_excel sample_state
          = ((read_imd_data sample_listdir sample_read_excel sample_state).1,
             Ok [("File_1_IMD.xlsx", [6]); ("File_10_Summaries.xlsx", [7])]))
    as H2 by (by vm_compute).
  refine (conj H1 (conj H2 _)).
  exact (read_imd_data_keys _ _ _ _ _ H1 H2).
Defined.

(** X9. A workbook that cannot be read aborts the load with the
    exception of the read, once the workbooks listed before it have been
    read: no collection is returned, not even for the workbooks already
    loaded. *)
Theorem read_imd_data_aborts (pre post : list string) (file : string)
    (read_excel : string -> result (dict DataFrame)) (e : exn) (st : state) :
  Forall (fun f => endswith f ".xlsx" = true ->
                   exists sheets, read_excel f = Ok sheets) pre ->
  endswith file ".xlsx" = true ->
  read_excel file = Raise e ->
  exists st',
    read_imd_data (pre ++ file :: post) read_excel st = (st', Raise e).
Proof. intros. by apply read_loop_aborts. Qed.

Lemma read_imd_data_aborts_witness :
  Forall (fun f => endswith f ".xlsx" = true ->
                   exists sheets,
                     (fun _ : string => Raise ValueError) f
                     = Ok (sheets : dict DataFrame))
         ["notes.txt"] /\
  endswith "File_1_IMD.xlsx" ".xlsx" = true /\
  (exists st',
     read_imd_data (["notes.txt"] ++ "File_1_IMD.xlsx" :: ["File_2.xlsx"])
                   (fun _ => Raise ValueError) sample_state
     = (st', Raise ValueError)).
Proof.
  assert (Forall (fun f => endswith f ".xlsx" = true ->
                   exists sheets,
                     (fun _ : string => Raise ValueError) f
                     = Ok (sheets : dict DataFrame))
                 ["notes.txt"]) as H1.
  { constructor; [|constructor]. intros H. vm_compute in H. discriminate. }
  assert (endswith "File_1_IMD.xlsx" ".xlsx" = true) as H2 by reflexivity.
  refine (conj H1 (conj H2 _)).
  exact (read_imd_data_aborts ["notes.txt"] ["File_2.xlsx"] "File_1_IMD.xlsx"
           (fun _ => Raise ValueError) ValueError sample_state H1 H2 eq_refl).
Defined.

(** ** The reshaper: keys, layout and narrow sheets *)

Lemma eav_cells (r : list cell) (a b : cell) :
  2 <= length r ->
  cell_at (take 2 r ++ [a; b]) 0 = cell_at r 0 /\
  cell_at (take 2 r ++ [a; b]) 1 = cell_at r 1 /\
  cell_at (take 2 r ++ [a; b]) 2 = a /\
  cell_at (take 2 r ++ [a; b]) 3 = b.
Proof. destruct r as [|x [|y r]]; simpl; intros; try lia; done. Qed.

Lemma unpivot_map (rs : list (list cell)) (label : nat -> cell)
    (ps : list nat) (k : nat) (col : nat -> list cell) :
  (forall p, map (fun r => cell_at (take 2 r ++ [label p; cell_at r p]) k) rs
             = col p) ->
  map (fun r => cell_at r k)
      (flat_map (fun p => map (fun r => take 2 r ++ [label p; cell_at r p]) rs)
                ps)
  = flat_map col ps.
Proof.
  intros Hcol. induction ps as [|p ps IH]; simpl; [done|].
  by rewrite map_app, IH, map_map, Hcol.
Qed.

Lemma melt_sheets_length (st : state) (refs : list ref)
    (eavs : list DataFrame) :
  melt_sheets st refs = Ok eavs -> length eavs = length refs.
Proof.
  revert eavs. induction refs as [|r refs IH]; intros eavs; simpl.
  - by intros [= <-].
  - destruct (melt_sheet (store st r)) as [eav|]; [|done]. simpl.
    destruct (melt_sheets st refs) as [rest|]; [|done]. simpl.
    intros [= <-]. simpl. by rewrite (IH rest).
Qed.

Lemma convert_loop_keys (st : state) (items : dict (list ref))
    (acc eav : dict (list DataFrame)) :
  NoDup (dict_keys acc ++ dict_keys items) ->
  convert_loop st items acc = Ok eav ->
  exists news,
    eav = acc ++ news /\
    dict_keys news = dict_keys items /\
    map length (dict_values news) = map length (dict_values items).
Proof.
  revert acc. induction items as [|[f refs] items IH]; intros acc Hnd; simpl.
  - intros [= <-]. exists []. by rewrite app_nil_r.
  - destruct (melt_sheets st refs) as [eavs|] eqn:E; [|done]. simpl.
    simpl in Hnd. pose proof Hnd as Hnd'.
    apply NoDup_app in Hnd' as (Ha & Hdisj & Hi).
    rewrite dict_set_fresh by (intros Hf; apply (Hdisj f Hf); left).
    intros Hrun. apply IH in Hrun as (news & -> & Hk & Hl).
    + exists ((f, eavs) :: news). split; [by rewrite <- app_assoc|].
      simpl. rewrite Hk, Hl, (melt_sheets_length _ _ _ E). done.
    + unfold dict_keys in *. rewrite map_app, <- app_assoc. done.
Qed.

(** X10. Whenever the reshaper returns, its collection has the same
    keys in the same order as the collection it was given, and as many
    sheets under each key; and it does return when every sheet has
    pairwise distinct labels, none of them "attribute" or "value". *)
Theorem convert_to_eav_format_keys (st : state) (d : dict (list ref)) :
  dict_wf d ->
  (forall eav_d,
     convert_to_eav_format st d = Ok eav_d ->
     dict_keys eav_d = dict_keys d /\
     map length (dict_values eav_d) = map length (dict_values d)) /\
  (Forall (fun r => melt_domain (store st r)) (sheet_refs d) ->
   exists eav_d, convert_to_eav_format st d = Ok eav_d).
Proof.
  intros Hwf. split.
  - intros eav_d Hrun. unfold convert_to_eav_format in Hrun.
    apply convert_loop_keys in Hrun as (news & -> & Hk & Hl); done.
  - intros Hd. eexists. by apply convert_to_eav_format_eq.
Qed.

Lemma convert_to_eav_format_keys_witness :
  dict_wf sample_collection /\
  (forall eav_d,
     convert_to_eav_format sample_state sample_collection = Ok eav_d ->
     dict_keys eav_d = dict_keys sample_collection /\
     map length (dict_values eav_d)
     = map length (dict_values sample_collection)) /\
  (Forall (fun r => melt_domain (store sample_state r))
          (sheet_refs sample_collection) ->
   exists eav_d,
     convert_to_eav_format sample_state sample_collection = Ok eav_d).
Proof.
  assert (dict_wf sample_collection) as H1
    by (by apply (bool_decide_unpack _); vm_compute).
  refine (conj H1 _).
  exact (convert_to_eav_format_keys sample_state sample_collection H1).
Defined.

(** X11. The reshaped sheet is laid out column by column.  For a
    rectangular sheet with pairwise distinct labels, none of them
    "attribute" or "value", whose columns from position 2 onward are of
    one dtype, the reshaper's sheet has as its value column the sheet's
    columns from position 2 onward, one after the other, each top to
    bottom; its attribute column repeats the label of each of these
    columns once per row; and its two identity columns repeat the
    sheet's first two columns once per unpivoted column.  No cell of a
    column from position 2 onward is lost or reordered. *)
Theorem melt_sheet_column_major (sheet : DataFrame) :
  melt_domain sheet -> frame_wf sheet -> one_dtype sheet ->
  exists eav,
    melt_sheet sheet = Ok eav /\
    column_values eav 0
    = flat_map (fun _ => column_values sheet 0)
               (seq 2 (length (columns sheet) - 2)) /\
    column_values eav 1
    = flat_map (fun _ => column_values sheet 1)
               (seq 2 (length (columns sheet) - 2)) /\
    column_values eav 2
    = flat_map (fun p => replicate (length (rows sheet))
                           (Str (default "" (columns sheet !! p))))
               (seq 2 (length (columns sheet) - 2)) /\
    column_values eav 3
    = flat_map (column_values sheet) (seq 2 (length (columns sheet) - 2)).
Proof.
  intros Hd Hwf _. eexists. split; [by apply melt_sheet_eq|].
  unfold column_values, eav_rows. simpl.
  destruct (decide (length (columns sheet) <= 2)) as [Hn|Hn].
  { replace (length (columns sheet) - 2) with 0 by lia. done. }
  assert (Forall (fun r => 2 <= length r) (rows sheet)) as Hrows.
  { eapply Forall_impl; [exact Hwf|]. simpl. intros r ->. lia. }
  repeat split; apply unpivot_map; intros p.
  - apply map_ext_Forall. eapply Forall_impl; [exact Hrows|].
    intros r Hr. by apply eav_cells.
  - apply map_ext_Forall. eapply Forall_impl; [exact Hrows|].
    intros r Hr. by apply eav_cells.
  - induction Hrows as [|r rs Hr _ IH]; simpl; [done|].
    f_equal; [by apply eav_cells | exact IH].
  - apply map_ext_Forall. eapply Forall_impl; [exact Hrows|].
    intros r Hr. by apply eav_cells.
Qed.

Lemma melt_sheet_column_major_witness :
  melt_domain (store sample_state 4) /\
  frame_wf (store sample_state 4) /\
  one_dtype (store sample_state 4) /\
  exists eav,
    melt_sheet (store sample_state 4) = Ok eav /\
    column_values eav 0
    = flat_map (fun _ => column_values (store sample_state 4) 0)
               (seq 2 (length (columns (store sample_state 4)) - 2)) /\
    column_values eav 1
    = flat_map (fun _ => column_values (store sample_state 4) 1)
               (seq 2 (length (columns (store sample_state 4)) - 2)) /\
    column_values eav 2
    = flat_map (fun p => replicate (length (rows (store sample_state 4)))
                           (Str (default ""
                                   (columns (store sample_state 4) !! p))))
               (seq 2 (length (columns (store sample_state 4)) - 2)) /\
    column_values eav 3
    = flat_map (column_values (store sample_state 4))
               (seq 2 (length (columns (store sample_state 4)) - 2)).
Proof.
  assert (melt_domain (store sample_state 4)) as H1
    by (by apply (bool_decide_unpack _); vm_compute).
  assert (frame_wf (store sample_state 4)) as H2
    by (by apply (bool_decide_unpack _); vm_compute).
  assert (one_dtype (store sample_state 4)) as H3
    by (by apply (bool_decide_unpack _); vm_compute).
  refine (conj H1 (conj H2 (conj H3 _))).
  exact (melt_sheet_column_major (store sample_state 4) H1 H2 H3).
Defined.

(** X12. A sheet with at most two columns has nothing to unpivot: for
    labels that are distinct and neither "attribute" nor "value", the
    reshaper turns it into a table that keeps the sheet's labels,
    followed by "attribute" and "value", and has no rows, whatever rows
    the sheet had. *)
Theorem melt_sheet_narrow (sheet : DataFrame) :
  melt_domain sheet -> frame_wf sheet ->
  length (columns sheet) <= 2 ->
  melt_sheet sheet
  = Ok (mkFrame (columns sheet ++ ["attribute"; "value"]) []).
Proof.
  intros Hd Hwf Hn. rewrite melt_sheet_eq by done.
  unfold eav_rows. rewrite take_ge by done.
  by replace (length (columns sheet) - 2) with 0 by lia.
Qed.

Lemma melt_sheet_narrow_witness :
  melt_domain (store narrow_state 0) /\
  frame_wf (store narrow_state 0) /\
  length (columns (store narrow_state 0)) <= 2 /\
  melt_sheet (store narrow_state 0)
  = Ok (mkFrame (columns (store narrow_state 0) ++ ["attribute"; "value"]) []).
Proof.
  assert (melt_domain (store narrow_state 0)) as H1
    by (by apply (bool_decide_unpack _); vm_compute).
  assert (frame_wf (store narrow_state 0)) as H2
    by (by apply (bool_decide_unpack _); vm_compute).
  assert (length (columns (store narrow_state 0)) <= 2) as H3
    by (simpl; lia).
  refine (conj H1 (conj H2 (conj H3 _))).
  exact (melt_sheet_narrow (store narrow_state 0) H1 H2 H3).
Defined.

(** ** The writer: what reaches the disk *)

Lemma write_sheets_inv (P : csv_file -> Prop) (name : pyval) (i : nat)
    (sheets : list pyval) (written : list csv_file) :
  (forall j df, P (mkCsv j name (to_csv false true df))) ->
  Forall P written ->
  Forall P (write_sheets name i sheets written).1 /\
  (forall e, (write_sheets name i sheets written).2 = Raise e ->
             e = AttributeError).
Proof.
  intros HP. revert i written.
  induction sheets as [|v sheets IH]; intros i written Hw; simpl.
  - split; [done|]. by intros e [=].
  - destruct v as [s|df|l|l]; simpl;
      try (split; [done|]; by intros e [= <-]).
    apply IH. apply Forall_app. split; [done|].
    constructor; [apply HP | constructor].
Qed.

Lemma write_loop_inv (P : csv_file -> Prop) (values : list pyval)
    (written : list csv_file) :
  (forall j name df, P (mkCsv j name (to_csv false true df))) ->
  Forall P written ->
  Forall P (write_loop values written).1 /\
  (forall e, (write_loop values written).2 = Raise e ->
             e = ValueError \/ e = AttributeError).
Proof.
  intros HP. revert written.
  induction values as [|v values IH]; intros written Hw; simpl.
  - split; [done|]. by intros e [=].
  - destruct (unpack2 v) as [[name sheet_list]|e0] eqn:Eu.
    + destruct (write_sheets_inv P name 0 (py_iter sheet_list) written
                  (fun j df => HP j name df) Hw) as [H1 H2].
      destruct (write_sheets _ _ _ _) as [written' [[]|e1]]; simpl in *.
      * by apply IH.
      * split; [done|]. intros e [= <-]. right. by apply H2.
    + split; [done|]. simpl. intros e [= <-]. left.
      unfold unpack2 in Eu.
      destruct (py_iter v) as [|a [|b [|c l]]]; by simplify_eq.
Qed.

Lemma write_loop_app (vs1 vs2 : list pyval) (written : list csv_file) :
  write_loop (vs1 ++ vs2) written
  = match write_loop vs1 written with
    | (written', Ok _) => write_loop vs2 written'
    | (written', Raise e) => (written', Raise e)
    end.
Proof.
  revert written. induction vs1 as [|v vs1 IH]; intros written; simpl.
  - done.
  - destruct (unpack2 v) as [[name sheet_list]|e]; [|done].
    destruct (write_sheets _ _ _ _) as [written' [[]|e]]; [apply IH | done].
Qed.

(** X13. Whatever collection the writer is given and however the call
    ends, every file it has written holds the rows of one frame, each
    record starting with the row's number: no file has a header record
    and none is without the index column.  On values that can be
    iterated (strings, frames, lists, tuples) the only exceptions the
    loop raises are ValueError (a value that does not unpack into two)
    and AttributeError (a sheet that is not a frame). *)
Theorem write_data_outcome (spreadsheet_dictionary : dict pyval) :
  Forall (fun f => exists df,
            csv_records f = imap (fun i r => Num (Z.of_nat i) :: r) (rows df))
         (write_data spreadsheet_dictionary).1 /\
  (forall e, (write_data spreadsheet_dictionary).2 = Raise e ->
             e = ValueError \/ e = AttributeError).
Proof.
  unfold write_data. apply write_loop_inv; [|constructor].
  intros j name df. exists df. simpl. apply to_csv_default_index.
Qed.

(** X14. The writer is not all-or-nothing.  When the entries before a
    value that does not unpack are (name, sheet list) pairs, their files
    are written, one per sheet, before the call raises ValueError; the
    entries after the failing one are never looked at. *)
Theorem write_data_not_atomic (d : dict (string * list DataFrame))
    (k : string) (sheets : list DataFrame) (rest : dict pyval) :
  length sheets <> 2 ->
  write_data (name_sheet_pairs d ++ (k, VList (map VFrame sheets)) :: rest)
  = (flat_map (fun kv =>
                 imap (fun i df => mkCsv i (VStr kv.2.1) (to_csv false true df))
                      kv.2.2) d,
     Raise ValueError).
Proof.
  intros Hlen. unfold write_data, dict_values. rewrite map_app.
  rewrite write_loop_app.
  change (map snd (name_sheet_pairs d)) with (dict_values (name_sheet_pairs d)).
  rewrite write_loop_pairs. simpl.
  by rewrite unpack2_not_two.
Qed.

Lemma write_data_not_atomic_witness :
  length [eav_sample] <> 2 /\
  write_data (name_sheet_pairs pairs_sample ++
              ("File_1_IMD.xlsx", VList (map VFrame [eav_sample])) :: [])
  = (flat_map (fun kv =>
                 imap (fun i df => mkCsv i (VStr kv.2.1) (to_csv false true df))
                      kv.2.2) pairs_sample,
     Raise ValueError).
Proof.
  assert (length [eav_sample] <> 2) as H1 by (simpl; lia).
  refine (conj H1 _).
  exact (write_data_not_atomic pairs_sample "File_1_IMD.xlsx" [eav_sample] []
           H1).
Defined.

(** ** The driver: when a run completes *)

Section driver_more.
Variable read_excel : string -> result (dict DataFrame).

Lemma read_loop_skip (files : list string) (sd : dict (list ref))
    (st : state) :
  Forall (fun f => endswith f ".xlsx" = false) files ->
  read_loop read_excel files sd st = (st, Ok sd).
Proof.
  induction 1 as [|f files Hf _ IH]; simpl; [done|]. by rewrite Hf.
Qed.

Lemma read_loop_keys_incl (files : list string) (sd sd' : dict (list ref))
    (st st' : state) :
  read_loop read_excel files sd st = (st', Ok sd') ->
  (forall f, f ∈ dict_keys sd -> f ∈ dict_keys sd') /\
  (forall f, f ∈ files -> endswith f ".xlsx" = true -> f ∈ dict_keys sd').
Proof.
  revert sd st. induction files as [|file files IH]; intros sd st; simpl.
  - run. intros [= _ <-]. split; [done|]. intros f Hf. by apply elem_of_nil in Hf.
  - destruct (endswith file ".xlsx") eqn:Hx.
    + run. destruct (read_excel file) as [sheets|e]; simpl; [|done].
      destruct (alloc_sheets sheets st) as [st1 [df|e]]; [|done].
      intros Hrun. apply IH in Hrun as [H1 H2].
      assert (forall f, f ∈ dict_keys sd \/ f = file ->
                f ∈ dict_keys
                      (dict_set sd file
                         (dict_values
                            (pop_if_present (pop_if_present df "Notes")
                               "Terms & Conditions")))) as Hset.
      { intros f Hf. rewrite dict_set_keys.
        destruct (decide (file ∈ dict_keys sd)) as [Hin|Hin].
        - destruct Hf as [?| ->]; done.
        - apply elem_of_app. destruct Hf as [?| ->]; [by left|].
          right. apply list_elem_of_singleton. done. }
      split.
      * intros f Hf. apply H1, Hset. by left.
      * intros f [-> |Hf]%elem_of_cons Hfx; [|by apply H2].
        apply H1, Hset. by right.
    + intros Hrun. apply IH in Hrun as [H1 H2]. split; [done|].
      intros f [-> |Hf]%elem_of_cons Hfx; [congruence | by apply H2].
Qed.

End driver_more.

(** X15. A run of the driver never writes a file, and it ends without
    an exception exactly when the input directory holds no file whose
    name ends in ".xlsx": with a workbook present, the run ends in an
    exception of the loader, the stripper, the reshaper or the writer. *)
Theorem main_outcome (listdir : list string)
    (read_excel : string -> result (dict DataFrame)) (st : state) :
  (main listdir read_excel st).1.2 = [] /\
  ((main listdir read_excel st).2 = Ok tt <->
   Forall (fun f => endswith f ".xlsx" = false) listdir).
Proof.
  split; [apply main_writes_nothing|]. split.
  - intros Hok.
    destruct (decide (Forall (fun f => endswith f ".xlsx" = false) listdir))
      as [|Hn]; [done|]. exfalso.
    apply not_Forall_Exists in Hn; [|apply _].
    apply Exists_exists in Hn as (file & Hfile & Hx).
    apply not_false_is_true in Hx.
    destruct (read_imd_data listdir read_excel st) as [st1 [sd|e]] eqn:E1.
    2:{ unfold main in Hok. by rewrite E1 in Hok. }
    destruct (ProcessIMDData.remove_columns sd st1) as [st2 [upd|e]] eqn:E2.
    2:{ unfold main in Hok. by rewrite E1, E2 in Hok. }
    pose proof (read_loop_inv read_excel listdir [] sd st st1 E1) as Hinv.
    destruct Hinv as (Hwf & _); [apply NoDup_nil_2 | apply NoDup_nil_2 | done |].
    pose proof (remove_columns_same_refs sd upd st1 st2 Hwf E2) as ->.
    destruct (read_loop_keys_incl read_excel listdir [] sd st st1 E1)
      as [_ Hkeys].
    specialize (Hkeys file Hfile Hx).
    destruct (convert_to_eav_format st2 sd) as [eav|e] eqn:E3.
    2:{ unfold main in Hok. by rewrite E1, E2, E3 in Hok. }
    destruct (main_fails_in_writer listdir read_excel st st1 st2 sd sd eav
                E1 E2 E3) as (e & _ & _ & He).
    { intros ->. by apply elem_of_nil in Hkeys. }
    by rewrite He in Hok.
  - intros Hall. unfold main, read_imd_data.
    by rewrite read_loop_skip.
Qed.

(** ** Loading, then stripping *)

Lemma dict_elem_of_get {V} (d : dict V) (k : string) (v : V) :
  dict_wf d -> (k, v) ∈ d -> dict_get d k = Some v.
Proof.
  unfold dict_wf. induction d as [|[k' v'] d IH]; simpl; intros Hwf Hin.
  - by apply elem_of_nil in Hin.
  - apply NoDup_cons in Hwf as [Hk' Hwf].
    apply elem_of_cons in Hin as [[= <- <-]|Hin].
    + by rewrite decide_True.
    + rewrite decide_False; [by apply IH|].
      intros ->. apply Hk'.
      by apply (list_elem_of_fmap_2 fst) in Hin.
Qed.

Lemma loaded_sheets_ok (listdir : list string)
    (read_excel : string -> result (dict DataFrame)) (st : state) :
  Forall (workbook_ok read_excel) listdir ->
  exists st1 d,
    read_imd_data listdir read_excel st = (st1, Ok d) /\
    dict_wf d /\
    Forall (fun f => 7 <= String.length f) (dict_keys d) /\
    NoDup (sheet_refs d) /\
    Forall (fun kv => Forall (fun r => sheet_ok kv.1 (store st1 r)) kv.2) d /\
    (forall f, f ∈ listdir -> endswith f ".xlsx" = true -> f ∈ dict_keys d) /\
    (forall f sheets,
       f ∈ listdir -> endswith f ".xlsx" = true -> read_excel f = Ok sheets ->
       exists refs,
         dict_get d f = Some refs /\
         map (store st1) refs = dict_values (data_sheets sheets)) /\
    (forall f, f ∈ dict_keys d -> f ∈ listdir /\ endswith f ".xlsx" = true).
Proof.
  intros Hall.
  assert (Forall (fun f => endswith f ".xlsx" = true ->
                           exists sheets, read_excel f = Ok sheets) listdir)
    as Hreads.
  { eapply Forall_impl; [exact Hall|]. intros f Hf Hx.
    destruct (Hf Hx) as (sheets & Hs & _). by exists sheets. }
  destruct (read_loop_ok read_excel listdir [] st Hreads)
    as (st1 & d & Hrun & _ & _ & _ & Hin).
  destruct (read_loop_inv read_excel listdir [] d st st1 Hrun)
    as (Hwf & Hnd & _ & _ & _ & _ & Hkeys);
    [apply NoDup_nil_2 | apply NoDup_nil_2 | done |].
  destruct (read_loop_keys_incl read_excel listdir [] d st st1 Hrun)
    as [_ Hincl].
  assert (forall f, f ∈ dict_keys d ->
            exists sheets refs,
              f ∈ listdir /\ endswith f ".xlsx" = true /\
              read_excel f = Ok sheets /\ (7 <= String.length f) /\
              Forall (sheet_ok f) (dict_values (data_sheets sheets)) /\
              dict_get d f = Some refs /\
              map (store st1) refs = dict_values (data_sheets sheets))
    as Hkey.
  { intros f Hf. destruct (Hkeys f Hf) as [Hnil|[Hfl Hx]].
    { by apply elem_of_nil in Hnil. }
    rewrite Forall_forall in Hall.
    destruct (Hall f Hfl Hx) as (sheets & Hread & Hlen & Hok).
    destruct (Hin f sheets Hfl Hx Hread) as (refs & Hget & Hmap).
    by exists sheets, refs. }
  exists st1, d. split; [exact Hrun|]. split; [done|]. split.
  { apply Forall_forall. intros f Hf.
    by destruct (Hkey f Hf) as (? & ? & _ & _ & _ & ? & _). }
  split; [done|]. split.
  2:{ split; [done|]. split; [done|]. intros f Hf.
      by destruct (Hkey f Hf) as (? & ? & ? & ? & _). }
  apply Forall_forall. intros [f refs] Hkv. simpl.
  destruct (Hkey f) as (sheets & refs' & _ & _ & _ & _ & Hok & Hget & Hmap).
  { by apply (list_elem_of_fmap_2 fst) in Hkv. }
  rewrite (dict_elem_of_get d f refs Hwf Hkv) in Hget.
  injection Hget as <-.
  apply Forall_forall. intros r Hr.
  rewrite Forall_forall in Hok. apply Hok. rewrite <- Hmap.
  by apply list_elem_of_fmap_2.
Qed.

(** X16. Loading and stripping compose.  When every workbook of the
    directory can be read, has a name of at least seven characters and
    data sheets with pairwise distinct labels (and a column at position
    1 where the file is not at LSOA resolution), the loader returns a
    collection on which the stripper succeeds, and afterwards every
    workbook's entry holds its data sheets, in the workbook's order,
    each without the columns of its resolution. *)
Theorem load_then_strip (listdir : list string)
    (read_excel : string -> result (dict DataFrame)) (st : state) :
  Forall (workbook_ok read_excel) listdir ->
  exists st1 d st2,
    read_imd_data listdir read_excel st = (st1, Ok d) /\
    ProcessIMDData.remove_columns d st1 = (st2, Ok d) /\
    forall f sheets,
      f ∈ listdir -> endswith f ".xlsx" = true -> read_excel f = Ok sheets ->
      exists refs,
        dict_get d f = Some refs /\
        map (store st2) refs
        = map (stripped f) (dict_values (data_sheets sheets)).
Proof.
  intros Hall.
  destruct (loaded_sheets_ok listdir read_excel st Hall)
    as (st1 & d & Hrun & Hwf & Hlen & Hnd & Hok & _ & Hin & _).
  destruct (remove_columns_ok d st1 Hwf Hlen Hnd Hok)
    as (st2 & Hstrip & _ & Hstripped & _).
  exists st1, d, st2. split; [done|]. split; [done|].
  intros f sheets Hf Hx Hread.
  destruct (Hin f sheets Hf Hx Hread) as (refs & Hget & Hmap).
  exists refs. split; [done|]. rewrite <- Hmap, map_map.
  apply map_ext_Forall.
  rewrite Forall_forall in Hstripped.
  exact (Hstripped (f, refs) (dict_get_elem_of d f refs Hget)).
Qed.

Lemma load_then_strip_witness :
  Forall (workbook_ok tidy_read_excel) sample_listdir /\
  exists st1 d st2,
    read_imd_data sample_listdir tidy_read_excel sample_state = (st1, Ok d) /\
    ProcessIMDData.remove_columns d st1 = (st2, Ok d) /\
    forall f sheets,
      f ∈ sample_listdir -> endswith f ".xlsx" = true ->
      tidy_read_excel f = Ok sheets ->
      exists refs,
        dict_get d f = Some refs /\
        map (store st2) refs
        = map (stripped f) (dict_values (data_sheets sheets)).
Proof.
  assert (Forall (workbook_ok tidy_read_excel) sample_listdir) as H1.
  { repeat constructor.
    - intros _. eexists. split; [reflexivity|]. split; [simpl; lia|].
      by apply (bool_decide_unpack _); vm_compute.
    - intros H. vm_compute in H. discriminate.
    - intros _. eexists. split; [reflexivity|]. split; [simpl; lia|].
      by apply (bool_decide_unpack _); vm_compute. }
  refine (conj H1 _).
  exact (load_then_strip sample_listdir tidy_read_excel sample_state H1).
Defined.

Lemma stripped_melt_domain (f : string) (df : DataFrame) :
  melt_domain df -> melt_domain (stripped f df).
Proof.
  intros (Hnd & Ha & Hv).
  assert (columns (stripped f df) `sublist_of` columns df) as Hsub.
  { unfold stripped. case_decide; simpl; apply without_positions_sublist. }
  split; [by eapply sublist_NoDup|].
  split; intros Hin; [apply Ha | apply Hv];
    exact (elem_of_sublist _ _ _ Hin Hsub).
Qed.

(** X17. On a directory of workbooks that the loader and the stripper
    handle, none of whose data sheets has a column labelled "attribute"
    or "value", with at least one workbook in it, the run passes the
    loader, the stripper and the reshaper, each of which returns, and
    ends in the writer: in a ValueError from the unpacking of a
    workbook's sheet list, or an AttributeError from a sheet that
    iterates as column labels; and no file is written. *)
Theorem main_ends_in_writer (listdir : list string)
    (read_excel : string -> result (dict DataFrame)) (st : state) :
  Forall (workbook_ok read_excel) listdir ->
  Forall (workbook_plain read_excel) listdir ->
  Exists (fun f => endswith f ".xlsx" = true) listdir ->
  exists st1 d st2 eav e,
    read_imd_data listdir read_excel st = (st1, Ok d) /\
    ProcessIMDData.remove_columns d st1 = (st2, Ok d) /\
    convert_to_eav_format st2 d = Ok eav /\
    write_data (sheet_lists eav) = ([], Raise e) /\
    (e = ValueError \/ e = AttributeError) /\
    main listdir read_excel st = (st2, [], Raise e).
Proof.
  intros Hall Hplain Hex.
  destruct (loaded_sheets_ok listdir read_excel st Hall)
    as (st1 & d & Hrun & Hwf & Hlen & Hnd & Hok & Hincl & Hin & Hkeys).
  destruct (remove_columns_ok d st1 Hwf Hlen Hnd Hok)
    as (st2 & Hstrip & _ & Hstripped & _).
  apply Exists_exists in Hex as (file & Hfile & Hx).
  specialize (Hincl file Hfile Hx).
  assert (Forall (fun r => melt_domain (store st2 r)) (sheet_refs d)) as Hdom.
  { apply Forall_forall. intros r Hr.
    unfold sheet_refs, dict_values in Hr.
    apply elem_of_concat in Hr as (refs & Hr & Hrefs).
    apply list_elem_of_fmap in Hrefs as ([f refs'] & -> & Hkv). simpl in Hr.
    pose proof (proj1 (Forall_forall _ _) Hstripped _ Hkv) as Hs.
    pose proof (proj1 (Forall_forall _ _) Hok _ Hkv) as Ho.
    pose proof (proj1 (Forall_forall _ _) Hall) as Hall'.
    pose proof (proj1 (Forall_forall _ _) Hplain) as Hplain'.
    simpl in Hs, Ho. rewrite Forall_forall in Hs, Ho.
    rewrite (Hs r Hr). apply stripped_melt_domain.
    destruct (Ho r Hr) as (Hnodup & _).
    destruct (Hkeys f) as [Hfl Hfx].
    { by apply (list_elem_of_fmap_2 fst) in Hkv. }
    destruct (Hall' f Hfl Hfx) as (sheets & Hread & _).
    destruct (Hin f sheets Hfl Hfx Hread) as (refs & Hget & Hmap).
    rewrite (dict_elem_of_get d f refs' Hwf Hkv) in Hget.
    injection Hget as <-.
    pose proof (Hplain' f Hfl Hfx sheets Hread) as Hp.
    rewrite Forall_forall in Hp.
    destruct (Hp (store st1 r)) as [Ha Hv].
    { rewrite <- Hmap. by apply list_elem_of_fmap_2. }
    done. }
  pose proof (convert_to_eav_format_eq st2 d Hwf Hdom) as Hconv.
  destruct (main_fails_in_writer listdir read_excel st st1 st2 d d _
              Hrun Hstrip Hconv) as (e & Hw & He & Hmain).
  { intros ->. by apply elem_of_nil in Hincl. }
  by eexists st1, d, st2, _, e.
Qed.

Lemma main_ends_in_writer_witness :
  Forall (workbook_ok tidy_read_excel) sample_listdir /\
  Forall (workbook_plain tidy_read_excel) sample_listdir /\
  Exists (fun f => endswith f ".xlsx" = true) sample_listdir /\
  exists st1 d st2 eav e,
    read_imd_data sample_listdir tidy_read_excel sample_state = (st1, Ok d) /\
    ProcessIMDData.remove_columns d st1 = (st2, Ok d) /\
    convert_to_eav_format st2 d = Ok eav /\
    write_data (sheet_lists eav) = ([], Raise e) /\
    (e = ValueError \/ e = AttributeError) /\
    main sample_listdir tidy_read_excel sample_state = (st2, [], Raise e).
Proof.
  assert (Forall (workbook_ok tidy_read_excel) sample_listdir) as H1.
  { repeat constructor.
    - intros _. eexists. split; [reflexivity|]. split; [simpl; lia|].
      by apply (bool_decide_unpack _); vm_compute.
    - intros H. vm_compute in H. discriminate.
    - intros _. eexists. split; [reflexivity|]. split; [simpl; lia|].
      by apply (bool_decide_unpack _); vm_compute. }
  assert (Forall (workbook_plain tidy_read_excel) sample_listdir) as H2.
  { repeat constructor.
    - intros _ sheets [= <-].
      by apply (bool_decide_unpack _); vm_compute.
    - intros H. vm_compute in H. discriminate.
    - intros _ sheets [= <-].
      by apply (bool_decide_unpack _); vm_compute. }
  assert (Exists (fun f => endswith f ".xlsx" = true) sample_listdir) as H3
    by (by apply Exists_cons_hd).
  refine (conj H1 (conj H2 (conj H3 _))).
  exact (main_ends_in_writer sample_listdir tidy_read_excel sample_state
           H1 H2 H3).
Defined.

(** ** The lookup table: removing columns *)

Lemma index_take_spec (cols : list string) (idx : list nat)
    (ls : list string) :
  index_take cols idx = Ok ls ->
  Forall2 (fun i l => cols !! i = Some l) idx ls.
Proof.
  revert ls. induction idx as [|i idx IH]; intros ls; simpl.
  - intros [= <-]. constructor.
  - unfold index_getitem. destruct (cols !! i) as [c|] eqn:E; [|done]. simpl.
    destruct (index_take cols idx) as [rest|]; [|done]. simpl.
    intros [= <-]. constructor; [done | by apply IH].
Qed.

Lemma index_take_in (cols : list string) (idx : list nat) (ls : list string) :
  index_take cols idx = Ok ls -> Forall (fun l => l ∈ cols) ls.
Proof.
  intros H. apply index_take_spec in H.
  induction H as [|i l idx ls Hl _ IH]; constructor; [|done].
  by eapply list_elem_of_lookup_2.
Qed.

Lemma index_take_total (cols : list string) (idx : list nat) :
  Forall (fun i => i < length cols) idx ->
  exists ls, index_take cols idx = Ok ls.
Proof.
  induction 1 as [|i idx Hi _ [rest IH]]; simpl; [by eexists|].
  unfold index_getitem.
  destruct (lookup_lt_is_Some_2 cols i Hi) as [c ->]. simpl.
  rewrite IH. simpl. by eexists.
Qed.

Lemma index_take_short (cols : list string) (idx : list nat) :
  Exists (fun i => length cols <= i) idx ->
  index_take cols idx = Raise IndexError.
Proof.
  induction 1 as [i idx Hi | i idx _ IH]; simpl; unfold index_getitem.
  - by rewrite (lookup_ge_None_2 cols i Hi).
  - destruct (cols !! i); [|done]. simpl. by rewrite IH.
Qed.

Lemma index_take_exn (cols : list string) (idx : list nat) (e : exn) :
  index_take cols idx = Raise e ->
  e = IndexError /\ Exists (fun i => length cols <= i) idx.
Proof.
  induction idx as [|i idx IH]; simpl; [done|]. unfold index_getitem.
  destruct (cols !! i) as [c|] eqn:E; simpl.
  - destruct (index_take cols idx) as [rest|e']; simpl; [done|].
    intros [= <-]. destruct (IH eq_refl) as [-> Hex].
    split; [done | by right].
  - intros [= <-]. split; [done|]. left. by apply lookup_ge_None_1.
Qed.

Lemma mask_positions (cols : list string) (idx : list nat)
    (ls : list string) :
  NoDup cols -> index_take cols idx = Ok ls ->
  map (fun c => bool_decide (c ∉ ls)) cols
  = map (fun p => bool_decide (p ∉ idx)) (seq 0 (length cols)).
Proof.
  intros Hnd Hls. apply index_take_spec in Hls.
  apply list_eq. intros p. rewrite !list_lookup_fmap.
  destruct (cols !! p) as [c|] eqn:Hp; simpl.
  - rewrite lookup_seq_lt by (by eapply lookup_lt_Some). simpl.
    f_equal. apply bool_decide_ext.
    assert (c ∈ ls <-> p ∈ idx) as Hiff; [|by rewrite Hiff].
    split.
    + intros Hc. apply list_elem_of_lookup in Hc as [k Hk].
      destruct (Forall2_lookup_r _ _ _ _ _ Hls Hk) as (i & Hi & Hci).
      rewrite (NoDup_lookup _ _ _ _ Hnd Hp Hci).
      by eapply list_elem_of_lookup_2.
    + intros Hc. apply list_elem_of_lookup in Hc as [k Hk].
      destruct (Forall2_lookup_l _ _ _ _ _ Hls Hk) as (l & Hl & Hcl).
      assert (l = c) as -> by congruence.
      by eapply list_elem_of_lookup_2.
  - rewrite lookup_seq_ge by (by apply lookup_ge_None_1). done.
Qed.

Lemma mask_beyond (k n : nat) :
  17 <= k ->
  map (fun p => bool_decide (p ∉ remove_columns_index)) (seq k n)
  = replicate n true.
Proof.
  revert k. induction n as [|n IH]; intros k Hk; simpl; [done|].
  rewrite IH by lia. f_equal. apply bool_decide_eq_true_2.
  unfold remove_columns_index. rewrite !not_elem_of_cons.
  repeat split; try lia. apply not_elem_of_nil.
Qed.

Lemma select_lookup_kept {A} (l : list A) :
  17 <= length l ->
  select (map (fun p => bool_decide (p ∉ remove_columns_index))
              (seq 0 (length l))) l
  = lookup_kept l.
Proof.
  intros Hlen.
  do 17 (destruct l as [|? l]; [simpl in Hlen; lia|]).
  clear Hlen. unfold lookup_kept.
  change (length (a :: a0 :: a1 :: a2 :: a3 :: a4 :: a5 :: a6 :: a7 :: a8 ::
                  a9 :: a10 :: a11 :: a12 :: a13 :: a14 :: a15 :: l))
    with (17 + length l).
  rewrite seq_app, map_app, (mask_beyond (0 + 17)) by (simpl; lia).
  change (map (fun p => bool_decide (p ∉ remove_columns_index)) (seq 0 17))
    with [true; true; true; false; false; false; true; false; false; false;
          true; false; false; false; true; false; false].
  simpl. rewrite select_all, take_ge by done. done.
Qed.

Lemma lookup_kept_length {A} (l : list A) :
  17 <= length l -> length (lookup_kept l) = length l - 11.
Proof.
  intros Hlen. unfold lookup_kept.
  rewrite !length_app, !length_take, !length_drop. lia.
Qed.

Lemma remove_columns_index_bound :
  Forall (fun i => i < 17) remove_columns_index.
Proof.
  unfold remove_columns_index. repeat (constructor; [lia|]). constructor.
Qed.

Lemma frame_drop_lookup (df : DataFrame) :
  NoDup (columns df) -> frame_wf df -> 17 <= length (columns df) ->
  exists ls,
    index_take (columns df) remove_columns_index = Ok ls /\
    frame_drop df ls
    = Ok (mkFrame (lookup_kept (columns df)) (map lookup_kept (rows df))).
Proof.
  intros Hnd Hwf Hlen.
  destruct (index_take_total (columns df) remove_columns_index) as [ls Hls].
  { eapply Forall_impl; [apply remove_columns_index_bound|].
    simpl. intros i Hi. lia. }
  exists ls. split; [done|]. unfold frame_drop.
  rewrite decide_True by (by eapply index_take_in).
  rewrite (mask_positions _ _ _ Hnd Hls). do 2 f_equal.
  - by apply select_lookup_kept.
  - apply map_ext_Forall. eapply Forall_impl; [exact Hwf|].
    intros r Hr. simpl in Hr. rewrite <- Hr. apply select_lookup_kept. lia.
Qed.

(** X18. The lookup class's [remove_columns] fails exactly on a table
    with fewer than seventeen columns.  It then raises IndexError, from
    the look-up of the labels, and the table is as it was: nothing has
    been dropped.  It never raises anything else. *)
Theorem lookup_remove_columns_failure (lookup_table : ref) (st : state) :
  (length (columns (store st lookup_table)) < 17 ->
   ProcessLookupTable.remove_columns lookup_table st
   = (st, Raise IndexError)) /\
  (forall st' e,
     ProcessLookupTable.remove_columns lookup_table st = (st', Raise e) ->
     e = IndexError /\ st' = st /\
     length (columns (store st lookup_table)) < 17).
Proof.
  unfold ProcessLookupTable.remove_columns. split.
  - intros Hlen. unfold bind, lift, deref. cbv beta.
    rewrite index_take_short; [done|].
    apply Exists_exists. exists 16. split; [|lia].
    unfold remove_columns_index. do 10 right. left.
  - intros st' e. unfold bind, lift, deref, assign, ret. cbv beta.
    destruct (index_take _ _) as [ls|e0] eqn:E; simpl.
    + unfold frame_drop.
      rewrite decide_True by (by eapply index_take_in). done.
    + intros [= <- <-]. apply index_take_exn in E as [-> Hex].
      split; [done|]. split; [done|].
      apply Exists_exists in Hex as (i & Hi & Hle).
      pose proof remove_columns_index_bound as Hb.
      rewrite Forall_forall in Hb. specialize (Hb i Hi). lia.
Qed.

(** X19. On a rectangular table with pairwise distinct labels and at
    least seventeen columns, the lookup class's [remove_columns] returns
    the table object it was given, changed in place: what is left are
    the columns at positions 0, 1, 2, 6, 10 and 14 and those from
    position 17 onward, labels and cells alike, with all rows kept.
    No other object changes and none is created. *)
Theorem lookup_remove_columns_keeps (lookup_table : ref) (st : state) :
  NoDup (columns (store st lookup_table)) ->
  frame_wf (store st lookup_table) ->
  17 <= length (columns (store st lookup_table)) ->
  exists st',
    ProcessLookupTable.remove_columns lookup_table st = (st', Ok lookup_table) /\
    columns (store st' lookup_table)
    = lookup_kept (columns (store st lookup_table)) /\
    rows (store st' lookup_table)
    = map lookup_kept (rows (store st lookup_table)) /\
    next_ref st' = next_ref st /\
    (forall r, r <> lookup_table -> store st' r = store st r).
Proof.
  intros Hnd Hwf Hlen.
  destruct (frame_drop_lookup _ Hnd Hwf Hlen) as (ls & Hls & Hdrop).
  unfold ProcessLookupTable.remove_columns, bind, lift, deref, assign, ret.
  cbv beta. rewrite Hls. cbv iota beta. rewrite Hdrop. simpl.
  eexists. split; [reflexivity|]. simpl.
  rewrite fn_lookup_insert. simpl.
  split; [done|]. split; [done|]. split; [done|].
  intros r Hne. by rewrite fn_lookup_insert_ne.
Qed.

Lemma lookup_remove_columns_keeps_witness :
  NoDup (columns (store master_state 0)) /\
  frame_wf (store master_state 0) /\
  17 <= length (columns (store master_state 0)) /\
  exists st',
    ProcessLookupTable.remove_columns 0 master_state = (st', Ok 0) /\
    columns (store st' 0) = lookup_kept (columns (store master_state 0)) /\
    rows (store st' 0) = map lookup_kept (rows (store master_state 0)) /\
    next_ref st' = next_ref master_state /\
    (forall r, r <> 0 -> store st' r = store master_state r).
Proof.
  assert (NoDup (columns (store master_state 0))) as H1
    by (by apply (bool_decide_unpack _); vm_compute).
  assert (frame_wf (store master_state 0)) as H2
    by (by apply (bool_decide_unpack _); vm_compute).
  assert (17 <= length (columns (store master_state 0))) as H3
    by (by apply (bool_decide_unpack _); vm_compute).
  refine (conj H1 (conj H2 (conj H3 _))).
  exact (lookup_remove_columns_keeps 0 master_state H1 H2 H3).
Defined.

Example lookup_remove_columns_sample :
  lookup_kept (columns master_sample)
  = ["LSOA code (2011)"; "LSOA name (2011)"; "LAD code"; "UTLA code";
     "LEP code"; "CCG code"].
Proof. by vm_compute. Qed.

(** ** The lookup table: bridge tables *)

Lemma split_loop_short (lookup : DataFrame) (values : list (list nat)) :
  Exists (Exists (fun i => length (columns lookup) <= i)) values ->
  split_loop lookup values = Raise IndexError.
Proof.
  induction values as [|idx values IH]; intros Hex; simpl.
  - by apply Exists_nil in Hex.
  - destruct (index_take (columns lookup) idx) as [labels|e] eqn:E; simpl.
    + unfold frame_getitem.
      rewrite decide_True by (by eapply index_take_in). simpl.
      apply Exists_cons in Hex as [Hhd|Htl].
      * by rewrite index_take_short in E.
      * by rewrite IH.
    + by apply index_take_exn in E as [-> _].
Qed.

Lemma bridge_index_short (n : nat) :
  n < 17 ->
  Exists (Exists (fun i => n <= i))
         (dict_values bridge_table_index_dictionary).
Proof.
  intros Hn. apply Exists_exists. exists [14; 16]. split.
  - simpl. do 3 right. left.
  - right. left. lia.
Qed.

(** X20. A table with fewer than seventeen columns cannot be split into
    bridge tables: [create_bridge_tables] raises IndexError, whatever
    the labels and the rows of the table. *)
Theorem create_bridge_tables_short (lookup_table : DataFrame) :
  length (columns lookup_table) < 17 ->
  create_bridge_tables lookup_table = Raise IndexError.
Proof.
  intros Hlen. unfold create_bridge_tables.
  rewrite split_loop_short; [done|]. by apply bridge_index_short.
Qed.

Lemma create_bridge_tables_short_witness :
  length (columns district_sample) < 17 /\
  create_bridge_tables district_sample = Raise IndexError.
Proof.
  assert (length (columns district_sample) < 17) as H1 by (simpl; lia).
  refine (conj H1 _).
  exact (create_bridge_tables_short district_sample H1).
Defined.

(** X21. The two lookup stages do not commute.  Once [remove_columns]
    has run on a master table of seventeen to twenty-seven columns
    (distinct labels), the table object has fewer than seventeen columns
    left, and [create_bridge_tables] on it raises IndexError: the
    bridge tables have to be made before the columns are removed. *)
Theorem bridge_tables_after_remove_columns (lookup_table : ref) (st : state) :
  NoDup (columns (store st lookup_table)) ->
  frame_wf (store st lookup_table) ->
  17 <= length (columns (store st lookup_table)) < 28 ->
  exists st',
    ProcessLookupTable.remove_columns lookup_table st = (st', Ok lookup_table) /\
    create_bridge_tables (store st' lookup_table) = Raise IndexError.
Proof.
  intros Hnd Hwf [Hlo Hhi].
  destruct (frame_drop_lookup _ Hnd Hwf Hlo) as (ls & Hls & Hdrop).
  unfold ProcessLookupTable.remove_columns, bind, lift, deref, assign, ret.
  cbv beta. rewrite Hls. cbv iota beta. rewrite Hdrop. simpl.
  eexists. split; [reflexivity|]. simpl.
  rewrite fn_lookup_insert. unfold create_bridge_tables.
  rewrite split_loop_short; [done|]. apply bridge_index_short. simpl.
  rewrite lookup_kept_length by done. lia.
Qed.

Lemma bridge_tables_after_remove_columns_witness :
  NoDup (columns (store master_state 0)) /\
  frame_wf (store master_state 0) /\
  17 <= length (columns (store master_state 0)) < 28 /\
  exists st',
    ProcessLookupTable.remove_columns 0 master_state = (st', Ok 0) /\
    create_bridge_tables (store st' 0) = Raise IndexError.
Proof.
  assert (NoDup (columns (store master_state 0))) as H1
    by (by apply (bool_decide_unpack _); vm_compute).
  assert (frame_wf (store master_state 0)) as H2
    by (by apply (bool_decide_unpack _); vm_compute).
  assert (17 <= length (columns (store master_state 0)) < 28) as H3
    by (by apply (bool_decide_unpack _); vm_compute).
  refine (conj H1 (conj H2 (conj H3 _))).
  exact (bridge_tables_after_remove_columns 0 master_state H1 H2 H3).
Defined.

Lemma bridge_pair (lookup : DataFrame) (i j : nat) :
  NoDup (columns lookup) ->
  i < length (columns lookup) -> j < length (columns lookup) -> i <> j ->
  exists labels df,
    index_take (columns lookup) [i; j] = Ok labels /\
    frame_getitem lookup labels = Ok df /\
    dedup_table df
    = frame_of_arrays "code" (unique (column_values lookup i))
                      "name" (unique (column_values lookup j)).
Proof.
  intros Hnd Hi Hj Hne.
  destruct (lookup_lt_is_Some_2 _ _ Hi) as [ci Hci].
  destruct (lookup_lt_is_Some_2 _ _ Hj) as [cj Hcj].
  assert (ci <> cj) as Hc.
  { intros ->. apply Hne. by eapply NoDup_lookup. }
  exists [ci; cj], (iloc_columns lookup [i; j]).
  split; [|split].
  - simpl. unfold index_getitem. by rewrite Hci, Hcj.
  - unfold frame_getitem. rewrite decide_True.
    + unfold get_indexer_for, get_locs. simpl.
      by rewrite (locs_from_unique 0 i _ _ Hnd Hci),
                 (locs_from_unique 0 j _ _ Hnd Hcj).
    + repeat constructor; by eapply list_elem_of_lookup_2.
  - destruct (iloc_pair_column lookup i j) as [H0 H1].
    unfold dedup_table, column_unique, get_locs, index_getitem.
    assert (columns (iloc_columns lookup [i; j]) = [ci; cj]) as Hcols.
    { unfold iloc_columns. cbn. rewrite Hci. cbn. by rewrite Hcj. }
    rewrite Hcols. cbn.
    repeat case_decide; try congruence.
    cbn. by rewrite !map_map.
Qed.

Lemma split_loop_pairs (lookup : DataFrame) (values : list (list nat)) :
  NoDup (columns lookup) ->
  Forall (fun idx => exists i j, idx = [i; j] /\ i <> j /\
                                 i < length (columns lookup) /\
                                 j < length (columns lookup)) values ->
  exists dfs,
    split_loop lookup values = Ok dfs /\
    Forall2 (fun idx df =>
               exists i j, idx = [i; j] /\
                 dedup_table df
                 = frame_of_arrays "code" (unique (column_values lookup i))
                                   "name" (unique (column_values lookup j)))
            values dfs.
Proof.
  intros Hnd. induction 1 as [|idx values (i & j & -> & Hne & Hi & Hj) _ IH].
  - exists []. split; [done | constructor].
  - destruct IH as (dfs & Hdfs & Hall).
    destruct (bridge_pair lookup i j Hnd Hi Hj Hne)
      as (labels & df & Hl & Hg & Hd).
    exists (df :: dfs). split.
    + cbn [split_loop]. rewrite Hl. cbn [rbind]. rewrite Hg. cbn [rbind].
      by rewrite Hdfs.
    + constructor; [|done]. by exists i, j.
Qed.

Lemma dedup_loop_outcome (lookup : DataFrame) (values : list (list nat))
    (dfs : list DataFrame) :
  Forall2 (fun idx df =>
             exists i j, idx = [i; j] /\
               dedup_table df
               = frame_of_arrays "code" (unique (column_values lookup i))
                                 "name" (unique (column_values lookup j)))
          values dfs ->
  (Forall (balanced lookup) values -> exists ts, dedup_loop dfs = Ok ts) /\
  (~ Forall (balanced lookup) values -> dedup_loop dfs = Raise ValueError).
Proof.
  induction 1 as [|idx df values dfs (i & j & -> & Hd) _ [IH1 IH2]].
  - split; [by exists [] | intros H; by destruct H].
  - cbn [dedup_loop]. rewrite Hd. unfold frame_of_arrays.
    destruct (decide (length (unique (column_values lookup i))
                      = length (unique (column_values lookup j)))) as [Hb|Hb].
    + cbn [rbind]. split.
      * intros [_ Hall]%Forall_cons. destruct (IH1 Hall) as [ts ->].
        by eexists.
      * intros Hn. rewrite IH2; [done|]. intros Hall. apply Hn.
        by constructor.
    + split; [|done]. by intros [Hb' _]%Forall_cons.
Qed.

Lemma bridge_index_pairs (n : nat) :
  17 <= n ->
  Forall (fun idx => exists i j, idx = [i; j] /\ i <> j /\ i < n /\ j < n)
         (dict_values bridge_table_index_dictionary).
Proof.
  intros Hn. simpl.
  repeat (constructor; [eexists _, _; split; [reflexivity|]; lia|]).
  constructor.
Qed.

(** X22. On a master table with pairwise distinct labels and at least
    seventeen columns, whether [create_bridge_tables] returns depends on
    the data alone: it returns its tables when, for each of the four
    configured pairs of positions, the code column and the name column
    have the same number of unique values, and it raises ValueError as
    soon as one pair has not. *)
Theorem create_bridge_tables_outcome (lookup_table : DataFrame) :
  NoDup (columns lookup_table) ->
  17 <= length (columns lookup_table) ->
  (Forall (balanced lookup_table) (dict_values bridge_table_index_dictionary) ->
   exists tables, create_bridge_tables lookup_table = Ok tables) /\
  (~ Forall (balanced lookup_table)
            (dict_values bridge_table_index_dictionary) ->
   create_bridge_tables lookup_table = Raise ValueError).
Proof.
  intros Hnd Hlen.
  destruct (split_loop_pairs lookup_table
              (dict_values bridge_table_index_dictionary) Hnd
              (bridge_index_pairs _ Hlen)) as (dfs & Hsplit & Hall).
  destruct (dedup_loop_outcome _ _ _ Hall) as [Hok Hfail].
  unfold create_bridge_tables. rewrite Hsplit. cbn [rbind].
  split; [exact Hok | exact Hfail].
Qed.

Lemma create_bridge_tables_outcome_witness :
  NoDup (columns master_sample) /\
  17 <= length (columns master_sample) /\
  (Forall (balanced master_sample)
          (dict_values bridge_table_index_dictionary) ->
   exists tables, create_bridge_tables master_sample = Ok tables) /\
  (~ Forall (balanced master_sample)
            (dict_values bridge_table_index_dictionary) ->
   create_bridge_tables master_sample = Raise ValueError).
Proof.
  assert (NoDup (columns master_sample)) as H1
    by (by apply (bool_decide_unpack _); vm_compute).
  assert (17 <= length (columns master_sample)) as H2
    by (by apply (bool_decide_unpack _); vm_compute).
  refine (conj H1 (conj H2 _)).
  exact (create_bridge_tables_outcome master_sample H1 H2).
Defined.

(** ** The lookup table: what is written *)

(** X23. [write_lookups] writes the master table first, as
    "MasterLookUp.csv", then one file per bridge table, named after the
    keys of the bridge dictionary in their order.  Every file holds
    exactly the rows of its table, without a header record and without
    an index column.  The tables are paired with the four names, so a
    fifth table and any after it are left unwritten, and with fewer
    than four tables the remaining names get no file. *)
Theorem write_lookups_files (master_lookup : DataFrame)
    (bridge_tables : list DataFrame) :
  map fst (write_lookups master_lookup bridge_tables)
  = "MasterLookUp.csv" ::
    take (length bridge_tables)
         ["lad_bridge.csv"; "lad_ut_bridge.csv"; "lep_bridge.csv";
          "ccg_bridge.csv"] /\
  map snd (write_lookups master_lookup bridge_tables)
  = rows master_lookup :: map rows (take 4 bridge_tables).
Proof.
  unfold write_lookups.
  destruct bridge_tables as [|t0 [|t1 [|t2 [|t3 tables]]]];
    cbn -[to_csv]; rewrite ?to_csv_no_index; try done.
  rewrite take_nil. by destruct tables.
Qed.

Lemma zip_rows_pairs (v1 v2 : list cell) :
  Forall (fun record => length record = 2)
         (zip_with (fun a b => [a; b]) v1 v2).
Proof.
  revert v2. induction v1 as [|a v1 IH]; intros [|b v2]; simpl;
    try constructor; [done | apply IH].
Qed.

(** X24. The two lookup stages in sequence: for the tables that
    [create_bridge_tables] returns, [write_lookups] writes five files,
    the master file and the four bridge files in the order lad, lad_ut,
    lep, ccg, and every record of a bridge file has exactly two fields,
    a code and a name. *)
Theorem write_lookups_bridge_tables (lookup_table : DataFrame)
    (tables : list DataFrame) :
  create_bridge_tables lookup_table = Ok tables ->
  map fst (write_lookups lookup_table tables)
  = ["MasterLookUp.csv"; "lad_bridge.csv"; "lad_ut_bridge.csv";
     "lep_bridge.csv"; "ccg_bridge.csv"] /\
  map snd (write_lookups lookup_table tables)
  = rows lookup_table :: map rows tables /\
  Forall (fun t => Forall (fun record => length record = 2) (rows t)) tables.
Proof.
  unfold create_bridge_tables.
  destruct (split_loop _ _) as [dfs|] eqn:E1; [|done]. cbn [rbind].
  intros E2. apply split_loop_ok in E1. apply dedup_loop_ok in E2.
  assert (Forall (fun t => Forall (fun record => length record = 2) (rows t))
                 tables) as Hrec.
  { apply Forall_forall. intros t Ht.
    apply list_elem_of_lookup in Ht as [n Hn].
    destruct (Forall2_lookup_r _ _ _ _ _ E2 Hn) as (df & Hdf & Ht).
    destruct (Forall2_lookup_r _ _ _ _ _ E1 Hdf)
      as (idx & Hidx & labels & Hl & Hg).
    assert (exists i j, idx = [i; j]) as (i & j & ->).
    { destruct n as [|[|[|[|n]]]]; simpl in Hidx; simplify_eq; eauto. }
    pose proof (bridge_table_ok _ _ _ _ _ _ Hl Hg Ht) as Hf.
    unfold frame_of_arrays in Hf. case_decide; [|done].
    injection Hf as <-. apply zip_rows_pairs. }
  apply Forall2_length in E1, E2. simpl in E1.
  destruct tables as [|t0 [|t1 [|t2 [|t3 [|t4 tables]]]]];
    simpl in E2; try lia.
  unfold write_lookups. cbn -[to_csv]. rewrite !to_csv_no_index. done.
Qed.

Lemma write_lookups_bridge_tables_witness :
  create_bridge_tables master_sample = Ok bridges_sample /\
  map fst (write_lookups master_sample bridges_sample)
  = ["MasterLookUp.csv"; "lad_bridge.csv"; "lad_ut_bridge.csv";
     "lep_bridge.csv"; "ccg_bridge.csv"] /\
  map snd (write_lookups master_sample bridges_sample)
  = rows master_sample :: map rows bridges_sample /\
  Forall (fun t => Forall (fun record => length record = 2) (rows t))
         bridges_sample.
Proof.
  assert (create_bridge_tables master_sample = Ok bridges_sample) as H
    by (by vm_compute).
  refine (conj H _).
  exact (write_lookups_bridge_tables master_sample bridges_sample H).
Defined.

(** ** The lookup table: reading *)

Section lookup_loader_properties.
Variable read_csv : string -> result DataFrame.

Lemma read_lookup_loop_spec (files : list string) (acc : dict DataFrame) :
  NoDup (dict_keys acc ++ files) ->
  match read_lookup_loop read_csv files acc with
  | Ok d =>
      exists news,
        d = acc ++ news /\
        Forall2 (fun f kv => kv.1 = f /\ read_csv f = Ok kv.2) files news
  | Raise e => exists f, f ∈ files /\ read_csv f = Raise e
  end.
Proof.
  revert acc. induction files as [|file files IH]; intros acc Hnd; simpl.
  - exists []. split; [by rewrite app_nil_r | constructor].
  - destruct (read_csv file) as [df|e] eqn:E; simpl.
    + assert (file ∉ dict_keys acc) as Hfresh.
      { apply NoDup_app in Hnd as (_ & Hdisj & _).
        intros Hin. apply (Hdisj file Hin). left. }
      rewrite dict_set_fresh by done.
      specialize (IH (acc ++ [(file, df)])).
      destruct (read_lookup_loop read_csv files (acc ++ [(file, df)]))
        as [d|e].
      * destruct IH as (news & -> & Hall).
        { unfold dict_keys. rewrite map_app, <- app_assoc. done. }
        exists ((file, df) :: news). split; [by rewrite <- app_assoc|].
        by constructor.
      * destruct IH as (f & Hf & He).
        { unfold dict_keys. rewrite map_app, <- app_assoc. done. }
        exists f. split; [by right | done].
    + exists file. split; [left | done].
Qed.

End lookup_loader_properties.

(** X25. For a directory listing without repeated names,
    [read_lookup_data] either returns a collection with one entry per
    listed file, in listing order and whatever the file's extension,
    each entry holding the table read from that file; or it raises the
    exception of a read that failed.  In the collection, a name is bound
    to a table exactly when it is listed and the file reads as that
    table. *)
Theorem read_lookup_data_outcome (listdir : list string)
    (read_csv : string -> result DataFrame) :
  NoDup listdir ->
  match read_lookup_data listdir read_csv with
  | Ok d =>
      dict_keys d = listdir /\
      (forall f df, dict_get d f = Some df <->
                    f ∈ listdir /\ read_csv f = Ok df)
  | Raise e => exists f, f ∈ listdir /\ read_csv f = Raise e
  end.
Proof.
  intros Hnd. unfold read_lookup_data.
  pose proof (read_lookup_loop_spec read_csv listdir [] Hnd) as H.
  destruct (read_lookup_loop read_csv listdir []) as [d|e]; [|done].
  destruct H as (news & -> & Hall). simpl.
  assert (dict_keys news = listdir) as Hkeys.
  { clear Hnd. induction Hall as [|f kv fs kvs [Hk _] _ IH]; [done|].
    simpl. by rewrite Hk, IH. }
  split; [done|]. intros f df. split.
  - intros Hget. apply dict_get_elem_of, list_elem_of_lookup in Hget as [k Hk].
    destruct (Forall2_lookup_r _ _ _ _ _ Hall Hk) as (f' & Hf' & Hfst & Hread).
    simpl in *. subst f'. split; [by eapply list_elem_of_lookup_2 | done].
  - intros [Hf Hread]. apply list_elem_of_lookup in Hf as [k Hk].
    destruct (Forall2_lookup_l _ _ _ _ _ Hall Hk) as ([f' df'] & Hkv & Hfst & Hr).
    simpl in *. subst f'. rewrite Hread in Hr. injection Hr as <-.
    apply dict_elem_of_get.
    + unfold dict_wf. by rewrite Hkeys.
    + by eapply list_elem_of_lookup_2.
Qed.

Lemma read_lookup_data_outcome_witness :
  NoDup (dict_keys lookups_sample) /\
  match read_lookup_data (dict_keys lookups_sample)
                         (dict_getitem lookups_sample) with
  | Ok d =>
      dict_keys d = dict_keys lookups_sample /\
      (forall f df, dict_get d f = Some df <->
                    f ∈ dict_keys lookups_sample /\
                    dict_getitem lookups_sample f = Ok df)
  | Raise e => exists f, f ∈ dict_keys lookups_sample /\
                         dict_getitem lookups_sample f = Raise e
  end.
Proof.
  assert (NoDup (dict_keys lookups_sample)) as H1
    by (by apply (bool_decide_unpack _); vm_compute).
  refine (conj H1 _).
  exact (read_lookup_data_outcome (dict_keys lookups_sample)
           (dict_getitem lookups_sample) H1).
Defined.

(** ** The master table: shape and failures *)

Lemma merge_left_inv (left right : DataFrame) (left_on right_on : string)
    (m : DataFrame) :
  merge_left left right left_on right_on = Ok m ->
  exists lk rk,
    m = mkFrame
          (suffix_labels (columns left) (columns right) "_x" ++
           suffix_labels (columns right) (columns left) "_y")
          (flat_map (join_row right lk rk) (rows left)).
Proof.
  unfold merge_left, merge_key.
  destruct (get_locs (columns right) right_on) as [|rk [|? ?]]; [done| |done].
  destruct (get_locs (columns left) left_on) as [|lk [|? ?]]; [done| |done].
  cbn [rbind]. destruct (merge_keys_check _ _) as [[]|]; [|done].
  cbn [rbind]. destruct (_ || _); [done|].
  intros [= <-]. by exists lk, rk.
Qed.

Lemma merge_left_exn (left right : DataFrame) (left_on right_on : string)
    (e : exn) :
  merge_left left right left_on right_on = Raise e ->
  e = KeyError \/ e = ValueError.
Proof.
  unfold merge_left, merge_key.
  destruct (get_locs (columns right) right_on) as [|rk [|? ?]]; cbn [rbind];
    try (intros [= <-]; tauto).
  destruct (get_locs (columns left) left_on) as [|lk [|? ?]]; cbn [rbind];
    try (intros [= <-]; tauto).
  destruct (merge_keys_check _ _) as [[]|e'] eqn:E; cbn [rbind].
  - destruct (_ || _); [|done]. intros [= <-]. tauto.
  - intros [= <-]. right. unfold merge_keys_check in E.
    repeat (match type of E with
            | context [match ?x with _ => _ end] => destruct x
            end; try done); by simplify_eq.
Qed.

Lemma join_row_wf (right : DataFrame) (lk rk : nat) (lrow out : list cell) :
  frame_wf right -> out ∈ join_row right lk rk lrow ->
  length out = length lrow + length (columns right).
Proof.
  intros Hwf. unfold join_row.
  destruct (filter _ (rows right)) as [|rrow ms] eqn:E.
  - intros ->%list_elem_of_singleton.
    by rewrite length_app, length_replicate.
  - intros (rrow' & -> & Hin)%list_elem_of_fmap.
    rewrite <- E in Hin. apply list_elem_of_filter in Hin as [_ Hin].
    unfold frame_wf in Hwf. rewrite Forall_forall in Hwf.
    by rewrite length_app, (Hwf rrow' Hin).
Qed.

Lemma merge_left_shape (left right : DataFrame) (left_on right_on : string)
    (m : DataFrame) :
  merge_left left right left_on right_on = Ok m ->
  length (columns m) = length (columns left) + length (columns right) /\
  length (rows left) <= length (rows m) /\
  (frame_wf left -> frame_wf right -> frame_wf m).
Proof.
  intros (lk & rk & ->)%merge_left_inv. simpl.
  split; [|split].
  - unfold suffix_labels. by rewrite length_app, !length_map.
  - apply join_rows_length.
  - intros Hl Hr. unfold frame_wf. simpl.
    apply Forall_forall. intros out Hout.
    apply list_elem_of_In, in_flat_map in Hout as (lrow & Hlrow & Hout).
    apply list_elem_of_In in Hlrow, Hout.
    rewrite (join_row_wf _ _ _ _ _ Hr Hout).
    unfold frame_wf in Hl. rewrite Forall_forall in Hl.
    rewrite (Hl lrow Hlrow).
    unfold suffix_labels. by rewrite length_app, !length_map.
Qed.

Lemma create_master_inv (d : dict DataFrame) (m : DataFrame) :
  create_master d = Ok m ->
  exists district district_ut lep ccg df_join_one df_join_two,
    dict_get d "LSOA_District_lookup.csv" = Some district /\
    dict_get d "LSOA_DistrictUT_lookup.csv" = Some district_ut /\
    dict_get d "LSOA_LEP_lookup.csv" = Some lep /\
    dict_get d "LSOA_CCG_lookup.csv" = Some ccg /\
    merge_left district district_ut "LSOA code (2011)" "LSOA11CD"
    = Ok df_join_one /\
    merge_left df_join_one lep "LSOA code (2011)" "LSOA11CD"
    = Ok df_join_two /\
    merge_left df_join_two ccg "LSOA code (2011)" "LSOA11CD" = Ok m.
Proof.
  unfold create_master, dict_getitem.
  destruct (dict_get d "LSOA_District_lookup.csv") as [district|]; [|done].
  destruct (dict_get d "LSOA_DistrictUT_lookup.csv") as [district_ut|];
    [|done]. cbn [rbind].
  destruct (merge_left district district_ut _ _) as [j1|] eqn:E1; [|done].
  cbn [rbind].
  destruct (dict_get d "LSOA_LEP_lookup.csv") as [lep|]; [|done].
  cbn [rbind].
  destruct (merge_left j1 lep _ _) as [j2|] eqn:E2; [|done]. cbn [rbind].
  destruct (dict_get d "LSOA_CCG_lookup.csv") as [ccg|]; [|done].
  cbn [rbind].
  destruct (merge_left j2 ccg _ _) as [j3|] eqn:E3; [|done]. cbn [rbind].
  intros [= <-]. by exists district, district_ut, lep, ccg, j1, j2.
Qed.

(** X26. Whenever [create_master] returns a table, the collection holds
    the four named lookup files; the master table has as many columns
    as the four tables together and at least as many rows as the
    District table; and it is rectangular when the four tables are.
    Other entries of the collection play no part. *)
Theorem create_master_shape (d : dict DataFrame) (m : DataFrame) :
  create_master d = Ok m ->
  exists district district_ut lep ccg,
    dict_get d "LSOA_District_lookup.csv" = Some district /\
    dict_get d "LSOA_DistrictUT_lookup.csv" = Some district_ut /\
    dict_get d "LSOA_LEP_lookup.csv" = Some lep /\
    dict_get d "LSOA_CCG_lookup.csv" = Some ccg /\
    length (columns m)
    = length (columns district) + length (columns district_ut) +
      length (columns lep) + length (columns ccg) /\
    length (rows district) <= length (rows m) /\
    (frame_wf district -> frame_wf district_ut -> frame_wf lep ->
     frame_wf ccg -> frame_wf m).
Proof.
  intros (district & district_ut & lep & ccg & j1 & j2 &
          HD & HU & HL & HC & E1 & E2 & E3)%create_master_inv.
  apply merge_left_shape in E1 as (Hc1 & Hr1 & Hw1).
  apply merge_left_shape in E2 as (Hc2 & Hr2 & Hw2).
  apply merge_left_shape in E3 as (Hc3 & Hr3 & Hw3).
  exists district, district_ut, lep, ccg.
  repeat (split; [done|]). split; [lia|]. split; [lia|].
  intros WD WU WL WC. apply Hw3; [|done]. apply Hw2; [|done]. by apply Hw1.
Qed.

Lemma create_master_shape_witness :
  create_master lookups_sample = Ok master_sample /\
  exists district district_ut lep ccg,
    dict_get lookups_sample "LSOA_District_lookup.csv" = Some district /\
    dict_get lookups_sample "LSOA_DistrictUT_lookup.csv" = Some district_ut /\
    dict_get lookups_sample "LSOA_LEP_lookup.csv" = Some lep /\
    dict_get lookups_sample "LSOA_CCG_lookup.csv" = Some ccg /\
    length (columns master_sample)
    = length (columns district) + length (columns district_ut) +
      length (columns lep) + length (columns ccg) /\
    length (rows district) <= length (rows master_sample) /\
    (frame_wf district -> frame_wf district_ut -> frame_wf lep ->
     frame_wf ccg -> frame_wf master_sample).
Proof.
  assert (create_master lookups_sample = Ok master_sample) as H
    by (by vm_compute).
  refine (conj H _).
  exact (create_master_shape lookups_sample master_sample H).
Defined.

(** X27. [create_master] raises nothing but KeyError (a lookup file or
    a join column that is missing) and ValueError (a join label carried
    by several columns, key columns of text on one side and of numbers
    on the other, or labels that the suffixes make equal); and it does
    raise whenever one of the four named files is missing from the
    collection. *)
Theorem create_master_failure (d : dict DataFrame) :
  (forall e, create_master d = Raise e -> e = KeyError \/ e = ValueError) /\
  (Exists (fun f => dict_get d f = None)
          ["LSOA_District_lookup.csv"; "LSOA_DistrictUT_lookup.csv";
           "LSOA_LEP_lookup.csv"; "LSOA_CCG_lookup.csv"] ->
   exists e, create_master d = Raise e).
Proof.
  split.
  - intros e. unfold create_master, dict_getitem.
    destruct (dict_get d "LSOA_District_lookup.csv") as [district|];
      [|intros [= <-]; tauto].
    destruct (dict_get d "LSOA_DistrictUT_lookup.csv") as [district_ut|];
      [|intros [= <-]; tauto]. cbn [rbind].
    destruct (merge_left district district_ut _ _) as [j1|e1] eqn:E1;
      [|intros [= <-]; by eapply merge_left_exn].
    cbn [rbind].
    destruct (dict_get d "LSOA_LEP_lookup.csv") as [lep|];
      [|intros [= <-]; tauto].
    cbn [rbind].
    destruct (merge_left j1 lep _ _) as [j2|e2] eqn:E2;
      [|intros [= <-]; by eapply merge_left_exn].
    cbn [rbind].
    destruct (dict_get d "LSOA_CCG_lookup.csv") as [ccg|];
      [|intros [= <-]; tauto].
    cbn [rbind].
    destruct (merge_left j2 ccg _ _) as [j3|e3] eqn:E3;
      [|intros [= <-]; by eapply merge_left_exn].
    done.
  - intros Hmiss.
    destruct (create_master d) as [m|e] eqn:E; [|by exists e].
    apply create_master_inv in E
      as (? & ? & ? & ? & ? & ? & HD & HU & HL & HC & _).
    exfalso. apply Exists_exists in Hmiss as (f & Hf & Hnone).
    repeat (apply elem_of_cons in Hf as [-> |Hf]; [congruence|]).
    by apply elem_of_nil in Hf.
Qed.

(** ** The writer on (name, sheet list) pairs *)

Lemma imap_csv_files (name : string) (g : nat -> nat)
    (frames : list DataFrame) :
  map csv_basename
      (imap (fun i df => mkCsv (g i) (VStr name) (to_csv false true df)) frames)
  = imap (fun i (_ : DataFrame) =>
            Some (NilEmpty.string_of_uint (Nat.to_uint (g i))
                  +:+ "_" +:+ name)) frames /\
  map csv_records
      (imap (fun i df => mkCsv (g i) (VStr name) (to_csv false true df)) frames)
  = map (fun df => imap (fun i r => Num (Z.of_nat i) :: r) (rows df)) frames.
Proof.
  revert g. induction frames as [|df frames IH]; intros g; [done|].
  destruct (IH (fun i => g (S i))) as [IH1 IH2]. simpl.
  split; f_equal; [exact IH1 | exact IH2].
Qed.

(** X28. On a collection whose values are (name, sheet list) pairs the
    writer returns normally after writing one file per sheet, workbook
    by workbook and sheet by sheet: the file of the sheet at position i
    of a pair named name is called "i_name", and its records are the
    sheet's rows, each behind its row number, with no header record. *)
Theorem write_data_pairs_files (d : dict (string * list DataFrame)) :
  (write_data (name_sheet_pairs d)).2 = Ok tt /\
  map csv_basename (write_data (name_sheet_pairs d)).1
  = flat_map (fun kv =>
                imap (fun i _ =>
                        Some (NilEmpty.string_of_uint (Nat.to_uint i)
                              +:+ "_" +:+ kv.2.1)) kv.2.2) d /\
  map csv_records (write_data (name_sheet_pairs d)).1
  = flat_map (fun kv =>
                map (fun df => imap (fun i r => Num (Z.of_nat i) :: r) (rows df))
                    kv.2.2) d.
Proof.
  unfold write_data. rewrite write_loop_pairs. simpl.
  split; [done|].
  induction d as [|[f [name frames]] d [IH1 IH2]]; simpl; [done|].
  rewrite !map_app, IH1, IH2.
  destruct (imap_csv_files name (fun i => i) frames) as [H1 H2].
  split; f_equal; [exact H1 | exact H2].
Qed.

(** The failing branches on the samples: a four-column table is too
    narrow for [remove_columns], and a collection without the LEP lookup
    has no master table. *)
Example lookup_remove_columns_short_sample :
  ProcessLookupTable.remove_columns 0 (mkState 1 (fun _ => district_sample))
  = (mkState 1 (fun _ => district_sample), Raise IndexError).
Proof. by vm_compute. Qed.

Example create_master_missing_file :
  create_master (dict_pop lookups_sample "LSOA_LEP_lookup.csv")
  = Raise KeyError.
Proof. by vm_compute. Qed.
